(** * OrKa ChatMode: the architect dispatcher and its request adapter

    A shallow embedding of [orka/cli/chatmode.py] (the configuration, the
    [process] dispatcher and the content generators) and of
    [orka/agents/architectural_documentation_agent.py] (the adapter that
    parses a loosely structured request and wraps the outcome in a
    success/failure envelope) and of the command of [orka/cli/chatmode_cli.py]
    that drives the adapter, followed by the properties stated for them.

    Conventions of the embedding:
    - a Python [str] is a [string] whose characters are code points below
      256 (one [ascii] per code point);
    - a Python value of type [Any] is a [pyval]; a [dict] keeps its insertion
      order, so it is an association list with unique keys;
    - the file system and the wall clock form an explicit [World] threaded
      through a state-and-exception monad; an exception leaves the world as
      it was when it was raised (nothing is rolled back);
    - a [pathlib.Path] is the list of its parts;
    - what a command prints is kept as the list of its lines; the calls of
      the logger leave no trace. *)

From Stdlib Require Import Ascii String ZArith List DecimalString Lia.
From stdpp Require Import gmap strings list.

Set Warnings "-register-all".

(** ** Python strings *)

Module PyString.

(** The double quote character, kept out of the literals below. *)
Definition dq : string := String (ascii_of_nat 34) EmptyString.

(** The line feed, [chr(10)]. *)
Definition nl : ascii := ascii_of_nat 10.

(** [sub in s] on two strings. *)
Fixpoint contains (sub s : string) : bool :=
  if String.prefix sub s then true
  else match s with
       | EmptyString => false
       | String _ s' => contains sub s'
       end.

(** [s.split(c)] for a separator of one character: never empty. *)
Fixpoint split (c : ascii) (s : string) : list string :=
  match s with
  | EmptyString => [EmptyString]
  | String a s' =>
      if Ascii.eqb a c then EmptyString :: split c s'
      else match split c s' with
           | h :: t => String a h :: t
           | [] => [String a EmptyString]
           end
  end.

(** [s.split(c, 1)]: at most one cut, at the first occurrence of [c]. *)
Fixpoint split1 (c : ascii) (s : string) : list string :=
  match s with
  | EmptyString => [EmptyString]
  | String a s' =>
      if Ascii.eqb a c then [EmptyString; s']
      else match split1 c s' with
           | h :: t => String a h :: t
           | [] => [String a EmptyString]
           end
  end.

(** [str.isspace] on one code point below 256: the ASCII controls
    TAB..CR and FS..US, the space, NEL (0x85) and NBSP (0xa0). *)
Definition isspace (a : ascii) : bool :=
  let n := nat_of_ascii a in
  ((9 <=? n) && (n <=? 13)) || ((28 <=? n) && (n <=? 32))
  || (n =? 133) || (n =? 160).

Fixpoint lstrip (s : string) : string :=
  match s with
  | EmptyString => EmptyString
  | String a s' => if isspace a then lstrip s' else s
  end.

Fixpoint rstrip (s : string) : string :=
  match s with
  | EmptyString => EmptyString
  | String a s' =>
      match rstrip s' with
      | EmptyString => if isspace a then EmptyString else String a EmptyString
      | r => String a r
      end
  end.

(** [s.strip()]. *)
Definition strip (s : string) : string := rstrip (lstrip s).

(** [sep.join(l)]. *)
Definition join (sep : string) (l : list string) : string :=
  String.concat sep l.

(** Decimal rendering of a natural number, left-padded with zeros to at
    least [width] digits ([%02d], [%04d]). *)
Definition digits (n : nat) : string :=
  NilZero.string_of_uint (Nat.to_uint n).

Fixpoint zeros (k : nat) : string :=
  match k with
  | O => EmptyString
  | S k' => String "0"%char (zeros k')
  end.

Definition zero_pad (width n : nat) : string :=
  let d := digits n in zeros (width - String.length d) +:+ d.

Definition hex_digit (n : nat) : ascii :=
  match String.get n "0123456789abcdef" with
  | Some c => c
  | None => "0"%char
  end.

(** One character inside [repr(s)], for the quote [q] chosen by [repr]. *)
Definition repr_char (q a : ascii) : string :=
  let n := nat_of_ascii a in
  let bs := ascii_of_nat 92 in
  if Ascii.eqb a q || Ascii.eqb a bs then String bs (String a EmptyString)
  else if n =? 9 then String bs "t"
  else if n =? 10 then String bs "n"
  else if n =? 13 then String bs "r"
  else if (n <? 32) || (n =? 127) || ((128 <=? n) && (n <=? 160)) || (n =? 173)
       then String bs (String "x"%char
              (String (hex_digit (n / 16)) (String (hex_digit (n mod 16)) EmptyString)))
  else String a EmptyString.

Fixpoint repr_body (q : ascii) (s : string) : string :=
  match s with
  | EmptyString => EmptyString
  | String a s' => repr_char q a +:+ repr_body q s'
  end.

(** [repr(s)]: single quotes, unless the text has a single quote and no
    double quote. *)
Definition repr (s : string) : string :=
  let sq := ascii_of_nat 39 in
  let q := if contains (String sq EmptyString) s && negb (contains dq s)
           then ascii_of_nat 34 else sq in
  String q (repr_body q s +:+ String q EmptyString).

End PyString.

Import PyString.

(** ** Python values *)

(** The fragment of [Any] that flows through the program: [None], booleans,
    integers, strings, lists and dictionaries with string keys. *)
Inductive pyval : Type :=
  | PNone
  | PBool (b : bool)
  | PInt (z : Z)
  | PStr (s : string)
  | PList (l : list pyval)
  | PDict (d : list (string * pyval)).

(** A [dict] with [str] keys, in insertion order. *)
Definition dict : Type := list (string * pyval).

Module Dict.

(** [d.get(k)]: [None] when the key is absent. *)
Fixpoint get (k : string) (d : dict) : option pyval :=
  match d with
  | [] => None
  | (k', v) :: d' => if String.eqb k k' then Some v else get k d'
  end.

(** [k in d]. *)
Definition mem (k : string) (d : dict) : bool :=
  match get k d with Some _ => true | None => false end.

(** [d[k] = v]: an existing key keeps its place, a new one goes last. *)
Fixpoint set (k : string) (v : pyval) (d : dict) : dict :=
  match d with
  | [] => [(k, v)]
  | (k', v') :: d' =>
      if String.eqb k k' then (k, v) :: d' else (k', v') :: set k v d'
  end.

(** [d.update(other)]. *)
Definition update (d other : dict) : dict :=
  fold_left (fun acc kv => set (fst kv) (snd kv) acc) other d.

End Dict.

(** Truth value of a Python object ([bool(v)]). *)
Definition truthy (v : pyval) : bool :=
  match v with
  | PNone => false
  | PBool b => b
  | PInt z => negb (Z.eqb z 0)
  | PStr s => negb (String.eqb s EmptyString)
  | PList l => match l with [] => false | _ => true end
  | PDict d => match d with [] => false | _ => true end
  end.

(** [repr(v)]. *)
Fixpoint py_repr (v : pyval) : string :=
  match v with
  | PNone => "None"
  | PBool true => "True"
  | PBool false => "False"
  | PInt z => NilZero.string_of_int (Z.to_int z)
  | PStr s => repr s
  | PList l => "[" +:+ join ", " (map py_repr l) +:+ "]"
  | PDict d =>
      "{" +:+ join ", " (map (fun kv => repr (fst kv) +:+ ": " +:+ py_repr (snd kv)) d)
          +:+ "}"
  end.

(** [str(v)], which is also what an f-string field [{v}] inserts. *)
Definition py_str (v : pyval) : string :=
  match v with
  | PStr s => s
  | _ => py_repr v
  end.

(** [v == s] for a string literal [s]. *)
Definition eq_str (v : pyval) (s : string) : bool :=
  match v with
  | PStr s' => String.eqb s' s
  | _ => false
  end.

(** The name Python prints for the type of a value. *)
Definition type_name (v : pyval) : string :=
  match v with
  | PNone => "NoneType"
  | PBool _ => "bool"
  | PInt _ => "int"
  | PStr _ => "str"
  | PList _ => "list"
  | PDict _ => "dict"
  end.

(** ** Exceptions *)

(** A [pathlib.Path], as the list of its parts. *)
Definition path : Type := list string.

(** [p / name]. *)
Definition path_join (p : path) (name : string) : path := p ++ [name].

(** [p.parent]; the empty path (the current directory) is its own parent. *)
Definition path_parent (p : path) : path := removelast p.

(** [str(p)]. *)
Definition path_str (p : path) : string :=
  match p with
  | [] => "."
  | "/" :: rest => "/" +:+ join "/" rest
  | _ => join "/" p
  end.

(** The exceptions that are met; all of them are caught by
    [except Exception].  In Python a [UnicodeEncodeError] is a [ValueError]
    too; nothing here catches by class, so it has a constructor of its
    own. *)
Inductive exn : Type :=
  | ValueError (msg : string)
  | TypeError (msg : string)
  | AttributeError (msg : string)
  | KeyError (key : string)
  | FileNotFoundError (p : path)
  | FileExistsError (p : path)
  | NotADirectoryError (p : path)
  | IsADirectoryError (p : path)
  | UnicodeEncodeError (msg : string).

(** [str(e)]. *)
Definition exn_str (e : exn) : string :=
  match e with
  | ValueError msg | TypeError msg | AttributeError msg
  | UnicodeEncodeError msg => msg
  | KeyError key => repr key
  | FileNotFoundError p => "[Errno 2] No such file or directory: " +:+ repr (path_str p)
  | FileExistsError p => "[Errno 17] File exists: " +:+ repr (path_str p)
  | NotADirectoryError p => "[Errno 20] Not a directory: " +:+ repr (path_str p)
  | IsADirectoryError p => "[Errno 21] Is a directory: " +:+ repr (path_str p)
  end.

Inductive result (A : Type) : Type :=
  | Ok (a : A)
  | Raise (e : exn).
Arguments Ok {A} a.
Arguments Raise {A} e.

(** ** The world: file system and clock *)

(** A reading of [datetime.now()]. *)
Record datetime : Type := {
  year : nat; month : nat; day : nat;
  hour : nat; minute : nat; second : nat
}.

(** [dt.strftime("%Y%m%d_%H%M%S")]. *)
Definition strftime (dt : datetime) : string :=
  zero_pad 4 (year dt) +:+ zero_pad 2 (month dt) +:+ zero_pad 2 (day dt)
  +:+ "_" +:+ zero_pad 2 (hour dt) +:+ zero_pad 2 (minute dt)
  +:+ zero_pad 2 (second dt).

(** The directories that exist, the regular files with their text, and the
    clock: [clock w n] is what the [n]-th call of [datetime.now()] returns,
    [reads w] counts the calls made so far. *)
Record World : Type := {
  dirs : gset path;
  files : gmap path string;
  clock : nat -> datetime;
  reads : nat
}.

(** Computations that read and change the world and may raise. *)
Definition M (A : Type) : Type := World -> result A * World.

Definition ret {A} (a : A) : M A := fun w => (Ok a, w).

Definition raise {A} (e : exn) : M A := fun w => (Raise e, w).

Definition bind {A B} (m : M A) (k : A -> M B) : M B :=
  fun w =>
    match m w with
    | (Ok a, w') => k a w'
    | (Raise e, w') => (Raise e, w')
    end.

(** [try: m except Exception as e: h e]. *)
Definition try_except {A} (m : M A) (h : exn -> M A) : M A :=
  fun w =>
    match m w with
    | (Ok a, w') => (Ok a, w')
    | (Raise e, w') => h e w'
    end.

(** A computation that only may raise, run inside [M]. *)
Definition lift {A} (r : result A) : M A := fun w => (r, w).

Notation "'let*' x ':=' m 'in' k" := (bind m (fun x => k))
  (at level 10, x name, m at level 100, k at level 200).

(** The world after one more reading of the clock. *)
Definition tick (w : World) : World :=
  {| dirs := dirs w; files := files w; clock := clock w; reads := S (reads w) |}.

(** The world with the directory [p] created. *)
Definition add_dir (p : path) (w : World) : World :=
  {| dirs := {[p]} ∪ dirs w; files := files w; clock := clock w; reads := reads w |}.

(** The world with the text of the file [p] replaced. *)
Definition put_file (p : path) (text : string) (w : World) : World :=
  {| dirs := dirs w; files := <[p := text]> (files w); clock := clock w;
     reads := reads w |}.

(** [datetime.now()]. *)
Definition datetime_now : M datetime :=
  fun w => (Ok (clock w (reads w)), tick w).

(** [p.mkdir(exist_ok=True)]: nothing to do for a directory that is there;
    no parents are created. *)
Definition mkdir_exist_ok (p : path) : M unit :=
  fun w =>
    if bool_decide (p ∈ dirs w) then (Ok tt, w)
    else if bool_decide (is_Some (files w !! p)) then (Raise (FileExistsError p), w)
    else if bool_decide (path_parent p ∈ dirs w) then (Ok tt, add_dir p w)
    else if bool_decide (is_Some (files w !! path_parent p)) then
      (Raise (NotADirectoryError p), w)
    else (Raise (FileNotFoundError p), w).

(** [with open(p, 'w', encoding='utf-8') as f: f.write(text)]: the file is
    created or truncated. *)
Definition write_text (p : path) (text : string) : M unit :=
  fun w =>
    if bool_decide (p ∈ dirs w) then (Raise (IsADirectoryError p), w)
    else if bool_decide (path_parent p ∈ dirs w) then (Ok tt, put_file p text w)
    else if bool_decide (is_Some (files w !! path_parent p)) then
      (Raise (NotADirectoryError p), w)
    else (Raise (FileNotFoundError p), w).

(** [d[k]]: a [KeyError] when the key is absent. *)
Definition subscript (d : dict) (k : string) : M pyval :=
  match Dict.get k d with
  | Some v => ret v
  | None => raise (KeyError k)
  end.

(** [x in l] for a string [x] and a list of string literals. *)
Definition str_in (x : string) (l : list string) : bool :=
  existsb (String.eqb x) l.


(** ** The configuration model *)

(** Configuration for a specific ChatMode: the constructor stores its eight
    arguments as they are. *)
Record ChatModeConfig : Type := {
  name : string;
  role : dict;
  scope : dict;
  inputs : dict;
  outputs : dict;
  constraints : dict;
  behaviors : dict;
  tools : list string
}.

(** ** The dispatcher and the generators *)

Module HighLevelArchitectChatMode.

(** The object built by [__init__]. *)
Record ChatMode : Type := {
  workspace_path : path;
  docs_folder : path;
  diagrams_folder : path;
  config : ChatModeConfig
}.

(** Load the configuration for this ChatMode. *)
Definition _load_config : ChatModeConfig :=
  {| name := "high-level-big-picture-architect";
     role :=
       [("level", PStr "PrincipalSystemsArchitect");
        ("mission", PStr "Explain and document software systems at a high level for fast onboarding, architectural clarity, and gap discovery.")];
     scope :=
       [("focus", PStr "Interfaces, contracts, data flows, major components, reliability behaviors, error surfaces, and integration points.")];
     inputs :=
       [("prompt", PDict [("required", PBool true)]);
        ("targets", PDict [("required", PBool true)]);
        ("artifactType",
         PDict [("required", PBool true);
                ("enum", PList [PStr "doc"; PStr "diagram"; PStr "testcases";
                                PStr "gapscan"; PStr "usecases"])]);
        ("depth",
         PDict [("required", PBool false);
                ("default", PStr "overview");
                ("enum", PList [PStr "overview"; PStr "subsystem";
                                PStr "interface-only"])]);
        ("constraints", PDict [("required", PBool false)])];
     outputs :=
       [("document", PDict [("type", PStr "markdownOrConfluence")]);
        ("diagramFiles", PDict [("type", PStr "mermaidFileRefs")])];
     constraints :=
       [("preferredDocsFolder", PStr "docs/");
        ("diagramFolder", PStr "docs/diagrams/");
        ("diagramDefaultMode", PStr "file");
        ("enforceDiagramEngine", PStr "mermaid");
        ("noOtherDiagramFormats", PBool true);
        ("defaultFormat", PStr "markdown");
        ("footerRequired", PBool true);
        ("footerTemplate",
         PStr "_Generated with GitHub Copilot as directed by {USER_NAME_PLACEHOLDER}");
        ("noGuessing", PBool true);
        ("iterationUntilComplete", PBool true)];
     behaviors :=
       [("askIfMissing", PBool true);
        ("highlightGaps", PBool true)];
     tools :=
       ["codebase"; "search"; "findTestFiles"; "runTests";
        "editFiles"; "runCommands"] |}.

(** [HighLevelArchitectChatMode(workspace_path)]. *)
Definition __init__ (workspace_path : path) : ChatMode :=
  let docs_folder := path_join workspace_path "docs" in
  {| workspace_path := workspace_path;
     docs_folder := docs_folder;
     diagrams_folder := path_join docs_folder "diagrams";
     config := _load_config |}.

(** Ensure required directories exist. *)
Definition _ensure_directories (self : ChatMode) : M unit :=
  let* _ := mkdir_exist_ok (docs_folder self) in
  mkdir_exist_ok (diagrams_folder self).

(** Scan the codebase for the specified targets: a placeholder structure. *)
Definition _scan_codebase (targets : string) : dict :=
  [("files_found", PList []);
   ("components", PList []);
   ("interfaces", PList []);
   ("dependencies", PList [])].

(** Generate the required footer. *)
Definition _generate_footer (user_name : string) : string :=
  "_Generated with GitHub Copilot as directed by " +:+ user_name +:+ "_".

(** Create the main documentation content. *)
Definition _create_documentation_content
    (prompt targets depth : string) (scan_result : dict) (user_name : string) : string :=
  "# Architecture Documentation for " +:+ targets +:+ "

## Executive Summary
This document provides " +:+ depth +:+ " level documentation for: " +:+ prompt +:+ "

## System Overview

### Purpose
The " +:+ targets +:+ " system is designed to handle the following requirements:
- " +:+ prompt +:+ "

### Architecture Principles
- Modularity and separation of concerns
- Scalability and performance
- Reliability and error handling
- Security and data protection

## Components

### Core Components
- **Main Processing Unit**: Handles primary business logic
- **Data Layer**: Manages data persistence and retrieval
- **API Layer**: Provides external interfaces
- **Configuration Management**: Handles system configuration

### Component Interactions
Components interact through well-defined interfaces and contracts.

## Data Flow

### Primary Data Flow
1. Input validation and preprocessing
2. Business logic processing
3. Data persistence
4. Response generation

### Error Handling
- Input validation errors
- Processing exceptions
- Data consistency checks
- System recovery procedures

## Integration Points

### External Dependencies
- External APIs and services
- Database systems
- Configuration sources
- Monitoring and logging systems

### Internal Interfaces
- Component-to-component communication
- Event handling mechanisms
- Data transformation layers

## Reliability Behaviors

### Error Surfaces
- Input validation failures
- External service timeouts
- Resource exhaustion
- Configuration errors

### Recovery Mechanisms
- Graceful degradation
- Retry policies
- Circuit breaker patterns
- Fallback procedures

## Security Considerations

### Authentication
- User authentication mechanisms
- Service-to-service authentication
- Token management

### Authorization
- Role-based access control
- Resource-level permissions
- API access controls

### Data Protection
- Data encryption at rest
- Data encryption in transit
- PII handling procedures

## Performance Characteristics

### Scalability
- Horizontal scaling capabilities
- Vertical scaling considerations
- Resource utilization patterns

### Monitoring
- Key performance indicators
- Alerting mechanisms
- Logging strategies

## Future Considerations

### Planned Enhancements
- Feature roadmap items
- Technical debt reduction
- Performance optimizations

### Migration Strategies
- Version upgrade procedures
- Data migration approaches
- Backward compatibility

" +:+ _generate_footer user_name +:+ "
".

(** Create mermaid flowchart content. *)
Definition _create_flowchart_content (prompt targets depth : string) : string :=
  "flowchart TD
    A[Start: " +:+ prompt +:+ "] --> B[Initialize " +:+ targets +:+ "]
    B --> C[Process Input]
    C --> D{Validate Input}
    D -->|Valid| E[Execute Business Logic]
    D -->|Invalid| F[Return Error]
    E --> G[Process Data]
    G --> H[Generate Response]
    H --> I[End: Success]
    F --> J[End: Error]
    
    subgraph " +:+ dq +:+ "Core Processing" +:+ dq +:+ "
        E
        G
    end
    
    subgraph " +:+ dq +:+ "Error Handling" +:+ dq +:+ "
        F
        J
    end
    
    style A fill:#e1f5fe
    style I fill:#c8e6c9
    style J fill:#ffcdd2
".

(** Generate a mermaid flowchart diagram. *)
Definition _generate_flowchart_diagram (self : ChatMode) (prompt targets depth : string)
    (constraints : pyval) (user_name : string) : M dict :=
  let* now := datetime_now in
  let timestamp := strftime now in
  let filename := "flowchart_" +:+ timestamp +:+ ".mmd" in
  let filepath := path_join (diagrams_folder self) filename in
  let mermaid_content := _create_flowchart_content prompt targets depth in
  let* _ := write_text filepath mermaid_content in
  ret [("diagram_file", PStr (path_str filepath));
       ("diagram_type", PStr "flowchart");
       ("content", PStr mermaid_content)].

(** Generate a mermaid sequence diagram. *)
Definition _generate_sequence_diagram (self : ChatMode) (prompt targets depth : string)
    (constraints : pyval) (user_name : string) : M dict :=
  let* now := datetime_now in
  let timestamp := strftime now in
  let filename := "sequence_" +:+ timestamp +:+ ".mmd" in
  let filepath := path_join (diagrams_folder self) filename in
  let mermaid_content := 
    "sequenceDiagram
    participant User
    participant System
    participant " +:+ targets +:+ "
    
    User->>System: " +:+ prompt +:+ "
    System->>" +:+ targets +:+ ": Process Request
    " +:+ targets +:+ "->>System: Return Result
    System->>User: Provide Response
    
    Note over User," +:+ targets +:+ ": " +:+ _generate_footer user_name +:+ "
" in
  let* _ := write_text filepath mermaid_content in
  ret [("diagram_file", PStr (path_str filepath));
       ("diagram_type", PStr "sequence");
       ("content", PStr mermaid_content)].

(** Generate a mermaid class diagram. *)
Definition _generate_class_diagram (self : ChatMode) (prompt targets depth : string)
    (constraints : pyval) (user_name : string) : M dict :=
  let* now := datetime_now in
  let timestamp := strftime now in
  let filename := "class_" +:+ timestamp +:+ ".mmd" in
  let filepath := path_join (diagrams_folder self) filename in
  let mermaid_content := 
    "classDiagram
    class " +:+ targets +:+ " {
        +attributes
        +methods()
    }
    
    class Component {
        +process()
        +validate()
    }
    
    " +:+ targets +:+ " --> Component : uses
    
    note " +:+ dq +:+ _generate_footer user_name +:+ dq +:+ "
" in
  let* _ := write_text filepath mermaid_content in
  ret [("diagram_file", PStr (path_str filepath));
       ("diagram_type", PStr "class");
       ("content", PStr mermaid_content)].

(** Generate a mermaid entity-relationship diagram. *)
Definition _generate_er_diagram (self : ChatMode) (prompt targets depth : string)
    (constraints : pyval) (user_name : string) : M dict :=
  let* now := datetime_now in
  let timestamp := strftime now in
  let filename := "er_" +:+ timestamp +:+ ".mmd" in
  let filepath := path_join (diagrams_folder self) filename in
  let mermaid_content := 
    "erDiagram
    Entity1 ||--o{ Entity2 : relationship
    Entity1 {
        string id PK
        string name
    }
    Entity2 {
        string id PK
        string entity1_id FK
        string data
    }
    
    note " +:+ dq +:+ _generate_footer user_name +:+ dq +:+ "
" in
  let* _ := write_text filepath mermaid_content in
  ret [("diagram_file", PStr (path_str filepath));
       ("diagram_type", PStr "er");
       ("content", PStr mermaid_content)].

(** Generate a mermaid state diagram. *)
Definition _generate_state_diagram (self : ChatMode) (prompt targets depth : string)
    (constraints : pyval) (user_name : string) : M dict :=
  let* now := datetime_now in
  let timestamp := strftime now in
  let filename := "state_" +:+ timestamp +:+ ".mmd" in
  let filepath := path_join (diagrams_folder self) filename in
  let mermaid_content := 
    "stateDiagram-v2
    [*] --> Initial
    Initial --> Processing : " +:+ prompt +:+ "
    Processing --> Complete : Success
    Processing --> Error : Failure
    Error --> Processing : Retry
    Complete --> [*]
    
    note " +:+ dq +:+ _generate_footer user_name +:+ dq +:+ "
" in
  let* _ := write_text filepath mermaid_content in
  ret [("diagram_file", PStr (path_str filepath));
       ("diagram_type", PStr "state");
       ("content", PStr mermaid_content)].

(** Generate test cases artifact. *)
Definition _generate_testcases (self : ChatMode) (prompt targets depth : string)
    (constraints : pyval) (user_name : string) : M dict :=
  let* now := datetime_now in
  let timestamp := strftime now in
  let filename := "testcases_" +:+ timestamp +:+ ".md" in
  let filepath := path_join (docs_folder self) filename in
  let content := 
    "# Test Cases for " +:+ targets +:+ "

## Overview
Test cases generated for: " +:+ prompt +:+ "

## Test Categories

### 1. Unit Tests
- Component functionality tests
- Input validation tests
- Error handling tests

### 2. Integration Tests
- System integration tests
- API endpoint tests
- Data flow tests

### 3. Performance Tests
- Load testing
- Stress testing
- Scalability testing

## Test Cases

### TC001 - Basic Functionality
**Objective**: Verify basic functionality of " +:+ targets +:+ "
**Prerequisites**: System is running
**Steps**:
1. Initialize " +:+ targets +:+ "
2. Execute primary function
3. Verify expected output

**Expected Result**: System responds correctly

### TC002 - Error Handling
**Objective**: Verify error handling in " +:+ targets +:+ "
**Prerequisites**: System is running
**Steps**:
1. Provide invalid input
2. Observe system response
3. Verify error message

**Expected Result**: Appropriate error message displayed

" +:+ _generate_footer user_name +:+ "
" in
  let* _ := write_text filepath content in
  ret [("document", PStr (path_str filepath));
       ("diagramFiles", PList []);
       ("content", PStr content)].

(** Generate gap scan artifact. *)
Definition _generate_gapscan (self : ChatMode) (prompt targets depth : string)
    (constraints : pyval) (user_name : string) : M dict :=
  let* now := datetime_now in
  let timestamp := strftime now in
  let filename := "gapscan_" +:+ timestamp +:+ ".md" in
  let filepath := path_join (docs_folder self) filename in
  let content := 
    "# Gap Analysis for " +:+ targets +:+ "

## Executive Summary
Gap analysis conducted for: " +:+ prompt +:+ "

## Current State Assessment

### Strengths
- Existing functionality
- Working components
- Established patterns

### Identified Gaps

#### 1. Documentation Gaps
- Missing API documentation
- Incomplete user guides
- Outdated technical specifications

#### 2. Testing Gaps
- Insufficient test coverage
- Missing integration tests
- No performance benchmarks

#### 3. Architecture Gaps
- Unclear component boundaries
- Missing error handling
- Scalability concerns

#### 4. Security Gaps
- Authentication mechanisms
- Authorization controls
- Data protection measures

## Recommendations

### High Priority
1. Implement comprehensive testing strategy
2. Create detailed API documentation
3. Establish error handling patterns

### Medium Priority
1. Improve component architecture
2. Add security measures
3. Performance optimization

### Low Priority
1. Code refactoring
2. Documentation updates
3. Tool improvements

## Action Plan

| Priority | Action Item | Timeline | Owner |
|----------|-------------|----------|-------|
| High | Testing Strategy | 2 weeks | TBD |
| High | API Documentation | 1 week | TBD |
| Medium | Security Review | 4 weeks | TBD |

" +:+ _generate_footer user_name +:+ "
" in
  let* _ := write_text filepath content in
  ret [("document", PStr (path_str filepath));
       ("diagramFiles", PList []);
       ("content", PStr content)].

(** Generate use cases artifact: the sequence diagram is written before the
    document. *)
Definition _generate_usecases (self : ChatMode) (prompt targets depth : string)
    (constraints : pyval) (user_name : string) : M dict :=
  let* now := datetime_now in
  let timestamp := strftime now in
  let filename := "usecases_" +:+ timestamp +:+ ".md" in
  let filepath := path_join (docs_folder self) filename in
  let content :=
    "# Use Cases for " +:+ targets +:+ "

## Overview
Use cases defined for: " +:+ prompt +:+ "

## Actors
- Primary User
- System Administrator
- External System

## Use Cases

### UC001 - Primary User Interaction
**Actor**: Primary User
**Goal**: " +:+ prompt +:+ "
**Preconditions**: User is authenticated
**Main Flow**:
1. User accesses " +:+ targets +:+ "
2. System presents interface
3. User provides input
4. System processes request
5. System returns result

**Alternative Flows**:
- 4a. Invalid input provided
  - 4a1. System displays error message
  - 4a2. Return to step 3

**Postconditions**: Request is processed successfully

### UC002 - System Administration
**Actor**: System Administrator
**Goal**: Manage " +:+ targets +:+ " configuration
**Preconditions**: Administrator has access
**Main Flow**:
1. Administrator accesses admin interface
2. System displays configuration options
3. Administrator modifies settings
4. System validates changes
5. System applies configuration

**Alternative Flows**:
- 4a. Invalid configuration
  - 4a1. System rejects changes
  - 4a2. Return to step 3

**Postconditions**: System is configured correctly

### UC003 - External System Integration
**Actor**: External System
**Goal**: Integrate with " +:+ targets +:+ "
**Preconditions**: API credentials configured
**Main Flow**:
1. External system sends request
2. System validates credentials
3. System processes request
4. System returns response

**Alternative Flows**:
- 2a. Invalid credentials
  - 2a1. System returns authentication error
  - 2a2. End use case

**Postconditions**: Integration is successful

" +:+ _generate_footer user_name +:+ "
" in
  let* diagram_result :=
    _generate_sequence_diagram self prompt targets depth constraints user_name in
  let* _ := write_text filepath content in
  let* diagram_file := subscript diagram_result "diagram_file" in
  ret [("document", PStr (path_str filepath));
       ("diagramFiles", PList [diagram_file]);
       ("content", PStr content)].

(** Generate documentation artifact, with its accompanying flowchart. *)
Definition _generate_documentation (self : ChatMode) (prompt targets depth : string)
    (constraints : pyval) (user_name : string) : M dict :=
  let scan_result := _scan_codebase targets in
  let* now := datetime_now in
  let timestamp := strftime now in
  let filename := "architecture_doc_" +:+ timestamp +:+ ".md" in
  let filepath := path_join (docs_folder self) filename in
  let content :=
    _create_documentation_content prompt targets depth scan_result user_name in
  let* _ := write_text filepath content in
  let* diagram_result :=
    _generate_flowchart_diagram self prompt targets depth constraints user_name in
  let* diagramFiles :=
    if truthy (PDict diagram_result)
    then let* diagram_file := subscript diagram_result "diagram_file" in
         ret [diagram_file]
    else ret [] in
  ret [("document", PStr (path_str filepath));
       ("diagramFiles", PList diagramFiles);
       ("content", PStr content)].

(** [constraints and "diagram" in constraints]: the membership test is only
    evaluated on a truthy value; it is a key test on a dict, a substring
    test on a str, an element test on a list, and a [TypeError] on a bool
    or an int. *)
Definition has_diagram_key (constraints : pyval) : M bool :=
  if truthy constraints then
    match constraints with
    | PDict d => ret (Dict.mem "diagram" d)
    | PStr s => ret (contains "diagram" s)
    | PList l => ret (existsb (fun v => eq_str v "diagram") l)
    | _ => raise (TypeError ("argument of type '" +:+ type_name constraints
                             +:+ "' is not iterable"))
    end
  else ret false.

(** [constraints["diagram"]]. *)
Definition diagram_of (constraints : pyval) : M pyval :=
  match constraints with
  | PDict d => subscript d "diagram"
  | PStr _ => raise (TypeError "string indices must be integers, not 'str'")
  | PList _ => raise (TypeError "list indices must be integers or slices, not str")
  | _ => raise (TypeError ("'" +:+ type_name constraints
                           +:+ "' object is not subscriptable"))
  end.

(** Generate diagram artifact. *)
Definition _generate_diagram (self : ChatMode) (prompt targets depth : string)
    (constraints : pyval) (user_name : string) : M dict :=
  let* has_key := has_diagram_key constraints in
  let* diagram_type :=
    if has_key then diagram_of constraints else ret (PStr "flowchart") in
  if eq_str diagram_type "sequence" then
    _generate_sequence_diagram self prompt targets depth constraints user_name
  else if eq_str diagram_type "flowchart" then
    _generate_flowchart_diagram self prompt targets depth constraints user_name
  else if eq_str diagram_type "class" then
    _generate_class_diagram self prompt targets depth constraints user_name
  else if eq_str diagram_type "er" then
    _generate_er_diagram self prompt targets depth constraints user_name
  else if eq_str diagram_type "state" then
    _generate_state_diagram self prompt targets depth constraints user_name
  else
    _generate_flowchart_diagram self prompt targets depth constraints user_name.

(** Process a request using the High-Level Architect ChatMode.  The
    defaults of the signature ([depth="overview"], [constraints=None],
    [user_name="User"]) are supplied by the callers; the logging call has no
    effect on the world. *)
Definition process (self : ChatMode) (prompt targets artifact_type depth : string)
    (constraints : pyval) (user_name : string) : M dict :=
  if negb (str_in artifact_type ["doc"; "diagram"; "testcases"; "gapscan"; "usecases"])
  then raise (ValueError ("Invalid artifact_type: " +:+ artifact_type))
  else if negb (str_in depth ["overview"; "subsystem"; "interface-only"])
  then raise (ValueError ("Invalid depth: " +:+ depth))
  else
    let* _ := _ensure_directories self in
    if String.eqb artifact_type "doc" then
      _generate_documentation self prompt targets depth constraints user_name
    else if String.eqb artifact_type "diagram" then
      _generate_diagram self prompt targets depth constraints user_name
    else if String.eqb artifact_type "testcases" then
      _generate_testcases self prompt targets depth constraints user_name
    else if String.eqb artifact_type "gapscan" then
      _generate_gapscan self prompt targets depth constraints user_name
    else if String.eqb artifact_type "usecases" then
      _generate_usecases self prompt targets depth constraints user_name
    else raise (ValueError ("Unsupported artifact_type: " +:+ artifact_type)).

End HighLevelArchitectChatMode.

(** ** The request adapter *)

(** [d.get(k, default)]. *)
Definition get_default (k : string) (default : pyval) (d : dict) : pyval :=
  match Dict.get k d with
  | Some v => v
  | None => default
  end.

Module ArchitecturalDocumentationAgent.

(** The agent object: [chatmode] is [None] until [initialize] has run. *)
Record Agent : Type := {
  agent_id : string;
  chatmode : option HighLevelArchitectChatMode.ChatMode;
  workspace_path : path
}.

(** [ArchitecturalDocumentationAgent(agent_id, **kwargs)]: the workspace is
    [kwargs.get('workspace_path', '.')]. *)
Definition __init__ (agent_id : string) (workspace : option path) : Agent :=
  {| agent_id := agent_id;
     chatmode := None;
     workspace_path := default [] workspace |}.

(** Initialize the architectural documentation agent. *)
Definition initialize (self : Agent) : Agent :=
  {| agent_id := agent_id self;
     chatmode := Some (HighLevelArchitectChatMode.__init__ (workspace_path self));
     workspace_path := workspace_path self |}.

(** One turn of the loop over the lines of the input: a line with an [=]
    is cut at its first [=] and stored, key and value stripped. *)
Definition parse_line (params : dict) (line : string) : result dict :=
  let line := strip line in
  if contains "=" line then
    match split1 "="%char line with
    | [key; value] => Ok (Dict.set (strip key) (PStr (strip value)) params)
    | _ => Raise (ValueError "not enough values to unpack (expected 2, got 1)")
    end
  else Ok params.

(** [for line in lines: ...] over the parameters gathered so far. *)
Fixpoint parse_lines (lines : list string) (params : dict) : result dict :=
  match lines with
  | [] => Ok params
  | line :: rest =>
      match parse_line params line with
      | Ok params' => parse_lines rest params'
      | Raise e => Raise e
      end
  end.

(** Parse input data and context to extract parameters. *)
Definition _parse_input (input_data : string) (context : option dict) : result dict :=
  let params : dict := [] in
  let params :=
    match context with
    | Some c => if truthy (PDict c) then Dict.update params c else params
    | None => params
    end in
  if contains "=" input_data then
    parse_lines (split nl input_data) params
  else if negb (Dict.mem "prompt" params) then
    Ok (Dict.set "prompt" (PStr input_data) params)
  else Ok params.

(** The body of the [try] block of [process].  The dispatcher only formats
    its string arguments and compares them with string literals, so each of
    them is handed over as its [str()] (see [py_str_literal] below: no
    comparison is changed by that). *)
Definition process_body (self : Agent) (input_data : string)
    (context : option dict) : M dict :=
  let* params := lift (_parse_input input_data context) in
  if negb (truthy (get_default "prompt" PNone params)) then
    raise (ValueError "'prompt' parameter is required")
  else if negb (truthy (get_default "targets" PNone params)) then
    raise (ValueError "'targets' parameter is required")
  else if negb (truthy (get_default "artifactType" PNone params)) then
    raise (ValueError "'artifactType' parameter is required")
  else
    let* cm :=
      match chatmode self with
      | Some cm => ret cm
      | None => raise (AttributeError "'NoneType' object has no attribute 'process'")
      end in
    let* prompt := subscript params "prompt" in
    let* targets := subscript params "targets" in
    let* artifact_type := subscript params "artifactType" in
    let depth := get_default "depth" (PStr "overview") params in
    let constraints := get_default "constraints" PNone params in
    let user_name := get_default "user_name" (PStr "User") params in
    let* result :=
      HighLevelArchitectChatMode.process cm (py_str prompt) (py_str targets)
        (py_str artifact_type) (py_str depth) constraints (py_str user_name) in
    let* artifact_type := subscript params "artifactType" in
    let* targets := subscript params "targets" in
    ret [("success", PBool true);
         ("result", PDict result);
         ("metadata",
          PDict [("agent_id", PStr (agent_id self));
                 ("artifact_type", artifact_type);
                 ("targets", targets);
                 ("depth", get_default "depth" (PStr "overview") params)])].

(** The [except Exception as e] handler: the failure envelope. *)
Definition failure (self : Agent) (e : exn) : M dict :=
  ret [("success", PBool false);
       ("error", PStr (exn_str e));
       ("metadata", PDict [("agent_id", PStr (agent_id self))])].

(** Process a request for architectural documentation. *)
Definition process (self : Agent) (input_data : string)
    (context : option dict) : M dict :=
  try_except (process_body self input_data context) (failure self).

(** Get list of supported artifact types. *)
Definition get_supported_artifact_types (self : Agent) : list string :=
  ["doc"; "diagram"; "testcases"; "gapscan"; "usecases"].

(** Get list of supported depth levels. *)
Definition get_supported_depths (self : Agent) : list string :=
  ["overview"; "subsystem"; "interface-only"].

(** Get list of supported diagram types. *)
Definition get_supported_diagram_types (self : Agent) : list string :=
  ["sequence"; "flowchart"; "class"; "er"; "state"].

End ArchitecturalDocumentationAgent.

(** Factory function to create an ArchitecturalDocumentationAgent. *)
Definition create_architectural_documentation_agent (agent_id : string)
    (workspace : option path) : ArchitecturalDocumentationAgent.Agent :=
  ArchitecturalDocumentationAgent.__init__ agent_id workspace.

(** ** Vocabulary of the statements *)

(** The shape shared by the simple generators: read the clock, name the
    file [stem ++ timestamp ++ ext] in [folder], write [content] there and
    return the result built from the file path. *)
Definition emit (folder : path) (stem ext content : string)
    (res : path -> dict) : M dict :=
  let* now := datetime_now in
  let filepath := path_join folder (stem +:+ strftime now +:+ ext) in
  let* _ := write_text filepath content in
  ret (res filepath).

(** The result of a diagram generator. *)
Definition diagram_result (kind content : string) (f : path) : dict :=
  [("diagram_file", PStr (path_str f));
   ("diagram_type", PStr kind);
   ("content", PStr content)].

(** The result of a document generator. *)
Definition document_result (diagrams : list pyval) (content : string) (f : path) : dict :=
  [("document", PStr (path_str f));
   ("diagramFiles", PList diagrams);
   ("content", PStr content)].

(** The supported artifact types, depths and diagram types, as the
    validation of [process] and the agent list them. *)
Definition artifact_types : list string :=
  ["doc"; "diagram"; "testcases"; "gapscan"; "usecases"].

Definition depths : list string := ["overview"; "subsystem"; "interface-only"].

Definition diagram_types : list string :=
  ["sequence"; "flowchart"; "class"; "er"; "state"].

(** The substring every artifact is said to carry. *)
Definition directed_by (user_name : string) : string :=
  "as directed by " +:+ user_name.

(** The output folders of a workspace. *)
Definition docs_of (ws : path) : path := path_join ws "docs".
Definition diagrams_of (ws : path) : path := path_join (docs_of ws) "diagrams".

(** Both output folders exist, the documents folder holds no directory but
    [diagrams], and the diagrams folder holds no directory. *)
Definition prepared (ws : path) (w : World) : Prop :=
  docs_of ws ∈ dirs w /\ diagrams_of ws ∈ dirs w /\
  (forall name, path_join (docs_of ws) name ∈ dirs w -> name = "diagrams") /\
  (forall name, path_join (diagrams_of ws) name ∉ dirs w).

(** A world in which [process] can create what it needs: each output folder
    is there or can be made, and no directory sits where a file will go. *)
Definition ready (ws : path) (w : World) : Prop :=
  (docs_of ws ∈ dirs w \/ (ws ∈ dirs w /\ files w !! docs_of ws = None)) /\
  (diagrams_of ws ∈ dirs w \/ files w !! diagrams_of ws = None) /\
  (forall name, path_join (docs_of ws) name ∈ dirs w -> name = "diagrams") /\
  (forall name, path_join (diagrams_of ws) name ∉ dirs w).

(** A temporary directory as the tests make one: [ws] exists and is empty. *)
Definition fresh_world (ws : path) (clk : nat -> datetime) : World :=
  {| dirs := {[ws]}; files := ∅; clock := clk; reads := 0 |}.

(** The diagram types with their generators. *)
Definition diagram_generators :
    list (string * (HighLevelArchitectChatMode.ChatMode -> string -> string ->
                    string -> pyval -> string -> M dict)) :=
  [("sequence", HighLevelArchitectChatMode._generate_sequence_diagram);
   ("flowchart", HighLevelArchitectChatMode._generate_flowchart_diagram);
   ("class", HighLevelArchitectChatMode._generate_class_diagram);
   ("er", HighLevelArchitectChatMode._generate_er_diagram);
   ("state", HighLevelArchitectChatMode._generate_state_diagram)].

(** The artifact types with their generators. *)
Definition artifact_generators :
    list (string * (HighLevelArchitectChatMode.ChatMode -> string -> string ->
                    string -> pyval -> string -> M dict)) :=
  [("doc", HighLevelArchitectChatMode._generate_documentation);
   ("diagram", HighLevelArchitectChatMode._generate_diagram);
   ("testcases", HighLevelArchitectChatMode._generate_testcases);
   ("gapscan", HighLevelArchitectChatMode._generate_gapscan);
   ("usecases", HighLevelArchitectChatMode._generate_usecases)].

(** The root keyword of each diagram skeleton. *)
Definition root_keywords : list (string * string) :=
  [("sequence", "sequenceDiagram");
   ("flowchart", "flowchart TD");
   ("class", "classDiagram");
   ("er", "erDiagram");
   ("state", "stateDiagram-v2")].

(** The value under the [diagram] key of a [constraints] argument that is
    [None] or a dict. *)
Definition requested_diagram (constraints : pyval) : option pyval :=
  match constraints with
  | PDict d => Dict.get "diagram" d
  | _ => None
  end.

(** [constraints] is of its declared type, [Optional[Dict[str, Any]]]. *)
Definition well_typed_constraints (constraints : pyval) : Prop :=
  match constraints with
  | PNone | PDict _ => True
  | _ => False
  end.

(** Exceptions other than [ValueError]. *)
Definition not_value_error (e : exn) : Prop :=
  match e with
  | ValueError _ | UnicodeEncodeError _ => False
  | _ => True
  end.

(** The key and the value a line of the input text stands for, if it has
    an [=]. *)
Definition kv_of (line : string) : option (string * string) :=
  let line := strip line in
  if contains "=" line then
    match split1 "="%char line with
    | [key; value] => Some (strip key, strip value)
    | _ => None
    end
  else None.

(** The [key=value] pairs of a text, in the order of its lines. *)
Definition text_pairs (input_data : string) : list (string * string) :=
  omap kv_of (split nl input_data).

(** The value the text gives to a key: the one of the last line with it. *)
Definition text_value (k : string) (pairs : list (string * string)) : option string :=
  fold_left (fun acc kv => if String.eqb k (fst kv) then Some (snd kv) else acc)
    pairs None.

(** The parameters [process] requires, in the order it checks them. *)
Definition required_fields : list string := ["prompt"; "targets"; "artifactType"].

(** A parameter that is absent, or present with a falsy value. *)
Definition missing (params : dict) (field : string) : bool :=
  negb (truthy (get_default field PNone params)).

(** The first required parameter that is missing. *)
Definition first_missing (params : dict) : option string :=
  find (missing params) required_fields.

(** The message of the missing-parameter error. *)
Definition required_message (field : string) : string :=
  "'" +:+ field +:+ "' parameter is required".

(** The failure envelope of an agent for a message. *)
Definition failure_envelope (self : ArchitecturalDocumentationAgent.Agent)
    (msg : string) : dict :=
  [("success", PBool false);
   ("error", PStr msg);
   ("metadata", PDict [("agent_id", PStr (ArchitecturalDocumentationAgent.agent_id self))])].

(** An association list that is a dict: no key twice. *)
Definition is_dict (d : dict) : Prop := NoDup (map fst d).

(** The context as a dict: [None] counts as empty. *)
Definition context_dict (context : option dict) : dict := default [] context.

(** A line of a structured text that gives [value] under [key]: stripped,
    it is [k=v] with no [=] in [k], the key is [k] stripped and the value
    is [v] stripped. *)
Definition gives (line key value : string) : Prop :=
  exists k v,
    strip line = k +:+ "=" +:+ v
    /\ contains "=" k = false
    /\ key = strip k
    /\ value = strip v.

(** A free text with an assignment in it: code quoted in a question. *)
Definition quoted_code : string :=
  "Explain this code:" +:+ String nl
    ("prompt = build_prompt(x)" +:+ String nl "result = run(prompt)").

(** A clock for the examples: the [n]-th reading is [n] seconds after
    2025-03-09 07:05:00. *)
Definition sample_clock (n : nat) : datetime :=
  {| year := 2025; month := 3; day := 9; hour := 7; minute := 5; second := n |}.

(** The world of the examples: an empty workspace [ws]. *)
Definition sample_world : World := fresh_world ["ws"] sample_clock.

(** The same workspace half a minute later. *)
Definition later_world : World :=
  fresh_world ["ws"] (fun n => sample_clock (n + 30)).

(** The agent of the examples, initialized on the workspace [ws]. *)
Definition sample_agent : ArchitecturalDocumentationAgent.Agent :=
  ArchitecturalDocumentationAgent.initialize
    (ArchitecturalDocumentationAgent.__init__ "test-agent" (Some ["ws"])).

(** ** Vocabulary of the further properties *)

(** What a run may have done to the world of a workspace: directories are
    only added, and only the two output folders; files are only added or
    replaced, and only directly inside the two output folders; the clock is
    the same and has only been read. *)
Definition confined (ws : path) (w w' : World) : Prop :=
  dirs w ⊆ dirs w'
  /\ (forall p, p ∈ dirs w' -> p ∈ dirs w \/ p = docs_of ws \/ p = diagrams_of ws)
  /\ (forall p, path_parent p <> docs_of ws -> path_parent p <> diagrams_of ws ->
                files w' !! p = files w !! p)
  /\ (forall p, is_Some (files w !! p) -> is_Some (files w' !! p))
  /\ clock w' = clock w
  /\ reads w <= reads w'.

(** A computation that keeps to the output folders, whatever it returns or
    raises. *)
Definition keeps_to {A : Type} (ws : path) (m : M A) : Prop :=
  forall w x w', m w = (x, w') -> confined ws w w'.




(** The diagram kind a value under the [diagram] key stands for. *)
Definition kind_of_value (v : pyval) : string :=
  match v with
  | PStr k => if str_in k diagram_types then k else "flowchart"
  | _ => "flowchart"
  end.

(** The diagram kind a [constraints] argument selects when the request
    returns. *)
Definition selected_kind (constraints : pyval) : string :=
  kind_of_value (default (PStr "flowchart") (requested_diagram constraints)).

(** The key under which a result names its own file. *)
Definition primary_key (artifact_type : string) : string :=
  if String.eqb artifact_type "diagram" then "diagram_file" else "document".

(** The file of an artifact, for the timestamp of its name. *)
Definition primary_file (ws : path) (artifact_type : string) (constraints : pyval)
    (stamp : string) : path :=
  if String.eqb artifact_type "doc" then
    path_join (docs_of ws) ("architecture_doc_" +:+ stamp +:+ ".md")
  else if String.eqb artifact_type "diagram" then
    path_join (diagrams_of ws) ((selected_kind constraints +:+ "_") +:+ stamp +:+ ".mmd")
  else
    path_join (docs_of ws) ((artifact_type +:+ "_") +:+ stamp +:+ ".md").

(** A workspace whose clock stands still. *)
Definition frozen_world : World := fresh_world ["ws"] (fun _ => sample_clock 0).

(** The call of the dispatcher the adapter makes for its merged
    parameters. *)
Definition dispatch (cm : HighLevelArchitectChatMode.ChatMode) (params : dict) : M dict :=
  HighLevelArchitectChatMode.process cm
    (py_str (get_default "prompt" PNone params))
    (py_str (get_default "targets" PNone params))
    (py_str (get_default "artifactType" PNone params))
    (py_str (get_default "depth" (PStr "overview") params))
    (get_default "constraints" PNone params)
    (py_str (get_default "user_name" (PStr "User") params)).

(** The success envelope of an agent for its merged parameters and the
    result of the dispatcher. *)
Definition success_envelope (self : ArchitecturalDocumentationAgent.Agent)
    (params result : dict) : dict :=
  [("success", PBool true);
   ("result", PDict result);
   ("metadata",
    PDict [("agent_id", PStr (ArchitecturalDocumentationAgent.agent_id self));
           ("artifact_type", get_default "artifactType" PNone params);
           ("targets", get_default "targets" PNone params);
           ("depth", get_default "depth" (PStr "overview") params)])].

(** The message of the error an agent meets when it was not initialized. *)
Definition no_chatmode_message : string :=
  "'NoneType' object has no attribute 'process'".

(** The six parameters the adapter reads, with the defaults of the three
    optional ones. *)
Definition read_parameters (params : dict) : list pyval :=
  [get_default "prompt" PNone params;
   get_default "targets" PNone params;
   get_default "artifactType" PNone params;
   get_default "depth" (PStr "overview") params;
   get_default "constraints" PNone params;
   get_default "user_name" (PStr "User") params].

(** The values the configuration declares for an input, under [enum]. *)
Definition declared_enum (cfg : ChatModeConfig) (input : string) : list pyval :=
  match Dict.get input (inputs cfg) with
  | Some (PDict d) =>
      match Dict.get "enum" d with
      | Some (PList l) => l
      | _ => []
      end
  | _ => []
  end.

(** ** Containers, as an untyped caller uses them *)

(** [k in v] for a string [k]. *)
Definition py_in (k : string) (v : pyval) : result bool :=
  match v with
  | PDict d => Ok (Dict.mem k d)
  | PStr s => Ok (contains k s)
  | PList l => Ok (existsb (fun x => eq_str x k) l)
  | _ => Raise (TypeError ("argument of type '" +:+ type_name v
                           +:+ "' is not iterable"))
  end.

(** [v[k]] for a string [k]. *)
Definition py_getitem (v : pyval) (k : string) : result pyval :=
  match v with
  | PDict d =>
      match Dict.get k d with
      | Some x => Ok x
      | None => Raise (KeyError k)
      end
  | PStr _ => Raise (TypeError "string indices must be integers, not 'str'")
  | PList _ => Raise (TypeError "list indices must be integers or slices, not str")
  | _ => Raise (TypeError ("'" +:+ type_name v +:+ "' object is not subscriptable"))
  end.

(** The items [for x in v] goes through. *)
Definition py_iter (v : pyval) : result (list pyval) :=
  match v with
  | PList l => Ok l
  | PDict d => Ok (map (fun kv => PStr (fst kv)) d)
  | PStr s => Ok (map (fun c => PStr (String c EmptyString)) (list_ascii_of_string s))
  | _ => Raise (TypeError ("'" +:+ type_name v +:+ "' object is not iterable"))
  end.

(** ** The command line *)

Module ChatmodeCli.

(** The emoji that open the messages of the command.  They lie outside the
    code points the strings of this development range over, so a printed
    line keeps its emoji apart from the text that follows it. *)
Inductive emoji : Type :=
  | CheckMark
  | PageFacingUp
  | BarChart
  | CrossMark.

(** One line written by [print]. *)
Record line : Type := {
  mark : option emoji;
  text : string
}.

(** The functions [set_defaults(func=...)] can have put in a namespace. *)
Inductive handler : Type :=
  | HandleArchitect.

(** The [argparse.Namespace] of the architect command.  [workspace] is the
    path [args.workspace] denotes; [json] and [func] are [None] for a
    namespace without the attribute. *)
Record Namespace : Type := {
  prompt : string;
  targets : string;
  artifact_type : string;
  depth : string;
  diagram_type : option string;
  output_dir : string;
  format : string;
  user_name : string;
  workspace : path;
  json : option pyval;
  func : option handler
}.

(** What a command works on: the world, what was printed so far, and the
    standard output it prints to.  [stdout c l] is the exception the stream
    raises when [l] is printed after the lines [c], if it raises one: a
    [UnicodeEncodeError] when its encoding lacks a character of the line,
    or whatever else a stream can raise. *)
Record Session : Type := {
  world : World;
  console : list line;
  stdout : list line -> line -> option exn
}.

(** Computations of the command line: they may print as well. *)
Definition IO (A : Type) : Type := Session -> result A * Session.

Definition io_ret {A} (a : A) : IO A := fun s => (Ok a, s).

Definition io_bind {A B} (m : IO A) (k : A -> IO B) : IO B :=
  fun s =>
    match m s with
    | (Ok a, s') => k a s'
    | (Raise e, s') => (Raise e, s')
    end.

(** [try: m except Exception as e: h e]. *)
Definition io_try {A} (m : IO A) (h : exn -> IO A) : IO A :=
  fun s =>
    match m s with
    | (Ok a, s') => (Ok a, s')
    | (Raise e, s') => h e s'
    end.

(** A computation that only may raise. *)
Definition io_lift {A} (r : result A) : IO A := fun s => (r, s).

(** A computation on the world, run by a command. *)
Definition run {A} (m : M A) : IO A :=
  fun s =>
    match m (world s) with
    | (r, w') => (r, {| world := w'; console := console s; stdout := stdout s |})
    end.

(** [print(...)]: the line is written, unless the stream raises; then
    nothing of it is. *)
Definition print (l : line) : IO unit :=
  fun s =>
    match stdout s (console s) l with
    | Some e => (Raise e, s)
    | None =>
        (Ok tt, {| world := world s; console := console s ++ [l];
                   stdout := stdout s |})
    end.

Notation "'let!' x ':=' m 'in' k" := (io_bind m (fun x => k))
  (at level 10, x name, m at level 100, k at level 200).

(** [for x in items: print(f"   - {x}")]. *)
Fixpoint print_items (items : list pyval) : IO unit :=
  match items with
  | [] => io_ret tt
  | x :: rest =>
      let! _ := print {| mark := None; text := "   - " +:+ py_str x |} in
      print_items rest
  end.

Section Commands.

(** [json.dumps(v, indent=2)], left open. *)
Variable json_dumps : pyval -> string.

(** Handle the architect command. *)
Definition handle_architect_command (args : Namespace) : IO Z :=
  io_try
    (let agent :=
       ArchitecturalDocumentationAgent.__init__ "architect-agent"
         (Some (workspace args)) in
     let agent := ArchitecturalDocumentationAgent.initialize agent in
     let constraints : dict :=
       [("format", PStr (format args));
        ("outputDir", PStr (output_dir args))] in
     let constraints :=
       match diagram_type args with
       | Some d =>
           if truthy (PStr d) then Dict.set "diagram" (PStr d) constraints
           else constraints
       | None => constraints
       end in
     let context : dict :=
       [("prompt", PStr (prompt args));
        ("targets", PStr (targets args));
        ("artifactType", PStr (artifact_type args));
        ("depth", PStr (depth args));
        ("constraints", PDict constraints);
        ("user_name", PStr (user_name args))] in
     let! result :=
       run (ArchitecturalDocumentationAgent.process agent (prompt args)
              (Some context)) in
     if truthy (get_default "success" PNone result) then
       let! _ :=
         print {| mark := Some CheckMark;
                  text := " Successfully generated architectural documentation!" |} in
       let! artifact_result := io_lift (py_getitem (PDict result) "result") in
       let! has_document := io_lift (py_in "document" artifact_result) in
       let! _ :=
         if has_document then
           let! document := io_lift (py_getitem artifact_result "document") in
           print {| mark := Some PageFacingUp;
                    text := " Document: " +:+ py_str document |}
         else io_ret tt in
       let! has_diagrams := io_lift (py_in "diagramFiles" artifact_result) in
       let! any_diagram :=
         if has_diagrams then
           let! files := io_lift (py_getitem artifact_result "diagramFiles") in
           io_ret (truthy files)
         else io_ret false in
       let! _ :=
         if any_diagram then
           let! _ := print {| mark := Some BarChart; text := " Diagrams:" |} in
           let! files := io_lift (py_getitem artifact_result "diagramFiles") in
           let! items := io_lift (py_iter files) in
           print_items items
         else io_ret tt in
       let! _ :=
         match json args with
         | Some flag =>
             if truthy flag then
               print {| mark := None; text := json_dumps (PDict result) |}
             else io_ret tt
         | None => io_ret tt
         end in
       io_ret 0%Z
     else
       let! _ :=
         print {| mark := Some CrossMark;
                  text := " Error: "
                          +:+ py_str (get_default "error" (PStr "Unknown error")
                                        result) |} in
       io_ret 1%Z)
    (fun e =>
       let! _ := print {| mark := Some CrossMark;
                          text := " Error: " +:+ exn_str e |} in
       io_ret 1%Z).

(** Run a chatmode command asynchronously. *)
Definition run_chatmode_command (args : Namespace) : IO Z :=
  match func args with
  | Some HandleArchitect => handle_architect_command args
  | None =>
      let! _ := print {| mark := None; text := "No command specified" |} in
      io_ret 1%Z
  end.

End Commands.

(** The namespace the parser of [setup_chatmode_command] gives for
    [chatmode architect PROMPT TARGETS] with none of the options: each one
    has its default. *)
Definition architect_defaults (prompt targets : string) : Namespace :=
  {| prompt := prompt;
     targets := targets;
     artifact_type := "doc";
     depth := "overview";
     diagram_type := None;
     output_dir := "docs";
     format := "markdown";
     user_name := "User";
     workspace := [];
     json := None;
     func := Some HandleArchitect |}.

End ChatmodeCli.

(** ** Vocabulary of the command line *)

(** The agent a command makes for its namespace. *)
Definition cli_agent (args : ChatmodeCli.Namespace) :
    ArchitecturalDocumentationAgent.Agent :=
  ArchitecturalDocumentationAgent.initialize
    (ArchitecturalDocumentationAgent.__init__ "architect-agent"
       (Some (ChatmodeCli.workspace args))).

(** The constraints a command builds from its options. *)
Definition cli_constraints (args : ChatmodeCli.Namespace) : dict :=
  let constraints : dict :=
    [("format", PStr (ChatmodeCli.format args));
     ("outputDir", PStr (ChatmodeCli.output_dir args))] in
  match ChatmodeCli.diagram_type args with
  | Some d =>
      if truthy (PStr d) then Dict.set "diagram" (PStr d) constraints
      else constraints
  | None => constraints
  end.

(** The context a command hands to its agent. *)
Definition cli_context (args : ChatmodeCli.Namespace) : dict :=
  [("prompt", PStr (ChatmodeCli.prompt args));
   ("targets", PStr (ChatmodeCli.targets args));
   ("artifactType", PStr (ChatmodeCli.artifact_type args));
   ("depth", PStr (ChatmodeCli.depth args));
   ("constraints", PDict (cli_constraints args));
   ("user_name", PStr (ChatmodeCli.user_name args))].

(** The request a command makes of its agent. *)
Definition cli_request (args : ChatmodeCli.Namespace) : M dict :=
  ArchitecturalDocumentationAgent.process (cli_agent args)
    (ChatmodeCli.prompt args) (Some (cli_context args)).

(** The lines of the messages. *)
Definition success_line : ChatmodeCli.line :=
  {| ChatmodeCli.mark := Some ChatmodeCli.CheckMark;
     ChatmodeCli.text := " Successfully generated architectural documentation!" |}.

Definition error_line (msg : string) : ChatmodeCli.line :=
  {| ChatmodeCli.mark := Some ChatmodeCli.CrossMark;
     ChatmodeCli.text := " Error: " +:+ msg |}.

Definition document_line (file : string) : ChatmodeCli.line :=
  {| ChatmodeCli.mark := Some ChatmodeCli.PageFacingUp;
     ChatmodeCli.text := " Document: " +:+ file |}.

Definition diagrams_line : ChatmodeCli.line :=
  {| ChatmodeCli.mark := Some ChatmodeCli.BarChart;
     ChatmodeCli.text := " Diagrams:" |}.

Definition item_line (file : string) : ChatmodeCli.line :=
  {| ChatmodeCli.mark := None; ChatmodeCli.text := "   - " +:+ file |}.

(** The dump a namespace asks for, if it has a true [json]. *)
Definition json_lines (json_dumps : pyval -> string) (args : ChatmodeCli.Namespace)
    (envelope : dict) : list ChatmodeCli.line :=
  match ChatmodeCli.json args with
  | Some flag =>
      if truthy flag then
        [{| ChatmodeCli.mark := None;
            ChatmodeCli.text := json_dumps (PDict envelope) |}]
      else []
  | None => []
  end.

(** A session after more lines were printed, in a world that may have
    changed. *)
Definition printed (s : ChatmodeCli.Session) (w : World)
    (lines : list ChatmodeCli.line) : ChatmodeCli.Session :=
  {| ChatmodeCli.world := w;
     ChatmodeCli.console := ChatmodeCli.console s ++ lines;
     ChatmodeCli.stdout := ChatmodeCli.stdout s |}.

(** A standard output that takes every line. *)
Definition takes_all (s : ChatmodeCli.Session) : Prop :=
  forall c l, ChatmodeCli.stdout s c l = None.

(** A standard output that takes no line with an emoji. *)
Definition takes_no_emoji (s : ChatmodeCli.Session) : Prop :=
  forall c l, ChatmodeCli.mark l <> None -> ChatmodeCli.stdout s c l <> None.

(** The [except] handler of a command. *)
Definition on_error (e : exn) : ChatmodeCli.IO Z :=
  ChatmodeCli.io_bind (ChatmodeCli.print (error_line (exn_str e)))
    (fun _ => ChatmodeCli.io_ret 1%Z).

(** Printing lines one after the other. *)
Fixpoint say (lines : list ChatmodeCli.line) : ChatmodeCli.IO unit :=
  match lines with
  | [] => ChatmodeCli.io_ret tt
  | l :: rest => ChatmodeCli.io_bind (ChatmodeCli.print l) (fun _ => say rest)
  end.

(** Printing lines and returning a code, inside the [try] of a command. *)
Definition finish (lines : list ChatmodeCli.line) (code : Z) : ChatmodeCli.IO Z :=
  ChatmodeCli.io_try
    (ChatmodeCli.io_bind (say lines) (fun _ => ChatmodeCli.io_ret code))
    on_error.

(** The escape Python writes for an emoji in a message. *)
Definition escape_of (e : ChatmodeCli.emoji) : string :=
  match e with
  | ChatmodeCli.CheckMark => "\u2705"
  | ChatmodeCli.PageFacingUp => "\U0001f4c4"
  | ChatmodeCli.BarChart => "\U0001f4ca"
  | ChatmodeCli.CrossMark => "\u274c"
  end.

(** A session that starts in the world of the examples, on a standard
    output that takes every line. *)
Definition sample_session : ChatmodeCli.Session :=
  {| ChatmodeCli.world := fresh_world [] sample_clock;
     ChatmodeCli.console := [];
     ChatmodeCli.stdout := fun _ _ => None |}.

(** The same session on a standard output encoded in ASCII, when the text
    of the lines is ASCII: a line with an emoji cannot be encoded. *)
Definition ascii_session : ChatmodeCli.Session :=
  {| ChatmodeCli.world := fresh_world [] sample_clock;
     ChatmodeCli.console := [];
     ChatmodeCli.stdout :=
       fun _ l =>
         match ChatmodeCli.mark l with
         | Some e =>
             Some (UnicodeEncodeError
                     ("'ascii' codec can't encode character '" +:+ escape_of e
                      +:+ "' in position 0: ordinal not in range(128)"))
         | None => None
         end |}.

(** A session after the world changed. *)
Definition moved (s : ChatmodeCli.Session) (w : World) : ChatmodeCli.Session :=
  {| ChatmodeCli.world := w;
     ChatmodeCli.console := ChatmodeCli.console s;
     ChatmodeCli.stdout := ChatmodeCli.stdout s |}.

(** What the text of the prompt gives to a key, when the agent reads it as
    key-value lines. *)
Definition cli_text_value (args : ChatmodeCli.Namespace) (k : string) : option string :=
  if contains "=" (ChatmodeCli.prompt args)
  then text_value k (text_pairs (ChatmodeCli.prompt args))
  else None.

(** A namespace with other values for [--output-dir] and [--format]. *)
Definition with_output (output_dir format : string) (args : ChatmodeCli.Namespace) :
    ChatmodeCli.Namespace :=
  {| ChatmodeCli.prompt := ChatmodeCli.prompt args;
     ChatmodeCli.targets := ChatmodeCli.targets args;
     ChatmodeCli.artifact_type := ChatmodeCli.artifact_type args;
     ChatmodeCli.depth := ChatmodeCli.depth args;
     ChatmodeCli.diagram_type := ChatmodeCli.diagram_type args;
     ChatmodeCli.output_dir := output_dir;
     ChatmodeCli.format := format;
     ChatmodeCli.user_name := ChatmodeCli.user_name args;
     ChatmodeCli.workspace := ChatmodeCli.workspace args;
     ChatmodeCli.json := ChatmodeCli.json args;
     ChatmodeCli.func := ChatmodeCli.func args |}.

(** A namespace with another value for the option behind a key of the
    context: [targets], [artifactType], [depth] or [user_name]. *)
Definition with_option (k v : string) (args : ChatmodeCli.Namespace) :
    ChatmodeCli.Namespace :=
  {| ChatmodeCli.prompt := ChatmodeCli.prompt args;
     ChatmodeCli.targets :=
       if String.eqb k "targets" then v else ChatmodeCli.targets args;
     ChatmodeCli.artifact_type :=
       if String.eqb k "artifactType" then v else ChatmodeCli.artifact_type args;
     ChatmodeCli.depth :=
       if String.eqb k "depth" then v else ChatmodeCli.depth args;
     ChatmodeCli.diagram_type := ChatmodeCli.diagram_type args;
     ChatmodeCli.output_dir := ChatmodeCli.output_dir args;
     ChatmodeCli.format := ChatmodeCli.format args;
     ChatmodeCli.user_name :=
       if String.eqb k "user_name" then v else ChatmodeCli.user_name args;
     ChatmodeCli.workspace := ChatmodeCli.workspace args;
     ChatmodeCli.json := ChatmodeCli.json args;
     ChatmodeCli.func := ChatmodeCli.func args |}.

(** The options a line of the prompt can stand in for. *)
Definition overridable : list string :=
  ["targets"; "artifactType"; "depth"; "user_name"].

(** The line of a command without a handler. *)
Definition no_command_line : ChatmodeCli.line :=
  {| ChatmodeCli.mark := None; ChatmodeCli.text := "No command specified" |}.

(** * Properties *)

(** ** Strings *)

Section StringFacts.

Lemma app_cons (a : ascii) (s t : string) :
  String a s +:+ t = String a (s +:+ t).
Proof. reflexivity. Qed.

Lemma app_nil_l (s : string) : EmptyString +:+ s = s.
Proof. reflexivity. Qed.

Lemma app_assoc_str (a b c : string) : (a +:+ b) +:+ c = a +:+ (b +:+ c).
Proof.
  induction a as [|x a IH]; [reflexivity|].
  rewrite !app_cons. now rewrite IH.
Qed.

Lemma prefix_app (a b : string) : String.prefix a (a +:+ b) = true.
Proof.
  induction a as [|x a IH].
  - now destruct b.
  - rewrite app_cons. simpl. destruct (ascii_dec x x); [exact IH|congruence].
Qed.

Lemma prefix_app_l (n a b : string) :
  String.prefix n a = true -> String.prefix n (a +:+ b) = true.
Proof.
  revert a. induction n as [|x n IH]; intros a H.
  - now destruct (a +:+ b).
  - destruct a as [|y a]; [discriminate|].
    rewrite app_cons. simpl in *.
    destruct (ascii_dec x y); [now apply IH|discriminate].
Qed.

Lemma contains_unfold (n s : string) :
  contains n s =
  if String.prefix n s then true
  else match s with
       | EmptyString => false
       | String _ s' => contains n s'
       end.
Proof. now destruct s. Qed.

Lemma contains_prefix (n s : string) :
  String.prefix n s = true -> contains n s = true.
Proof. intros H. rewrite contains_unfold. now rewrite H. Qed.

Lemma contains_here (n b : string) : contains n (n +:+ b) = true.
Proof. apply contains_prefix, prefix_app. Qed.

Lemma prefix_refl (s : string) : String.prefix s s = true.
Proof.
  induction s as [|x s IH]; [reflexivity|].
  simpl. destruct (ascii_dec x x); [exact IH|congruence].
Qed.

Lemma contains_self (s : string) : contains s s = true.
Proof. apply contains_prefix, prefix_refl. Qed.

Lemma contains_app_r (n a b : string) :
  contains n b = true -> contains n (a +:+ b) = true.
Proof.
  intros H. induction a as [|x a IH]; [exact H|].
  rewrite app_cons, contains_unfold.
  destruct (String.prefix n (String x (a +:+ b))); [reflexivity|exact IH].
Qed.

Lemma contains_app_l (n a b : string) :
  contains n a = true -> contains n (a +:+ b) = true.
Proof.
  induction a as [|x a IH]; intros H; rewrite contains_unfold in H.
  - destruct (String.prefix n EmptyString) eqn:E; [|discriminate].
    apply contains_prefix. now apply (prefix_app_l n EmptyString b).
  - destruct (String.prefix n (String x a)) eqn:E.
    + apply contains_prefix. now apply prefix_app_l.
    + rewrite app_cons, contains_unfold.
      destruct (String.prefix n (String x (a +:+ b))); [reflexivity|now apply IH].
Qed.

End StringFacts.

(** ** Python values *)

Section ValueFacts.

(** Only a string prints as one of the literals [process] compares its
    arguments with: handing [str(v)] over instead of [v] changes no
    comparison. *)
Lemma py_str_literal (v : pyval) (s : string) :
  In s (artifact_types ++ depths) -> py_str v = s -> v = PStr s.
Proof.
  intros Hin Hs. destruct v as [|b|z|s'|l|d]; simpl in Hs.
  - subst s. simpl in Hin. intuition discriminate.
  - destruct b; subst s; simpl in Hin; intuition discriminate.
  - exfalso. destruct (Z.to_int z) as [u|u]; simpl in Hs;
      destruct u; simpl in Hs; subst s; simpl in Hin; intuition discriminate.
  - now subst.
  - exfalso. rewrite app_cons in Hs. subst s. simpl in Hin. intuition discriminate.
  - exfalso. rewrite app_cons in Hs. subst s. simpl in Hin. intuition discriminate.
Qed.

End ValueFacts.

(** ** The monad and the world *)

Section MonadFacts.

Context {A B : Type}.

Lemma bind_ok (m : M A) (k : A -> M B) w a w1 :
  m w = (Ok a, w1) -> bind m k w = k a w1.
Proof. intros H. unfold bind. now rewrite H. Qed.


Lemma bind_ok_inv (m : M A) (k : A -> M B) w b w' :
  bind m k w = (Ok b, w') ->
  exists a w1, m w = (Ok a, w1) /\ k a w1 = (Ok b, w').
Proof.
  unfold bind. destruct (m w) as [[a|e] w1]; intros H.
  - now exists a, w1.
  - discriminate.
Qed.

End MonadFacts.

Section WorldFacts.

Lemma path_parent_join (p : path) (name : string) :
  path_parent (path_join p name) = p.
Proof. apply removelast_last. Qed.

Lemma path_join_inj (p q : path) (a b : string) :
  path_join p a = path_join q b -> p = q /\ a = b.
Proof. apply app_inj_tail. Qed.

Lemma path_join_ne (p : path) (a : string) : path_join p a <> p.
Proof.
  intros H. apply (f_equal (@length string)) in H.
  unfold path_join in H. rewrite length_app in H. simpl in H. lia.
Qed.

Lemma path_join2_ne (p : path) (a b : string) : path_join (path_join p a) b <> p.
Proof.
  intros H. apply (f_equal (@length string)) in H.
  unfold path_join in H. rewrite !length_app in H. simpl in H. lia.
Qed.

Lemma write_text_ok (p : path) (name text : string) (w : World) :
  p ∈ dirs w -> path_join p name ∉ dirs w ->
  write_text (path_join p name) text w = (Ok tt, put_file (path_join p name) text w).
Proof.
  intros Hp Hn. unfold write_text.
  rewrite bool_decide_eq_false_2 by exact Hn.
  rewrite path_parent_join. now rewrite bool_decide_eq_true_2 by exact Hp.
Qed.

Lemma write_text_inv (p : path) (text : string) (w w' : World) (u : unit) :
  write_text p text w = (Ok u, w') -> w' = put_file p text w.
Proof.
  unfold write_text. intros Hrun.
  repeat case_bool_decide; now inversion Hrun.
Qed.

Lemma mkdir_exist_ok_inv (p : path) (w w' : World) (u : unit) :
  mkdir_exist_ok p w = (Ok u, w') -> w' = w \/ w' = add_dir p w.
Proof.
  unfold mkdir_exist_ok. intros Hrun.
  repeat case_bool_decide; inversion Hrun; auto.
Qed.

Lemma emit_inv folder stem ext content res w r w' :
  emit folder stem ext content res w = (Ok r, w') ->
  let f := path_join folder (stem +:+ strftime (clock w (reads w)) +:+ ext) in
  r = res f /\ w' = put_file f content (tick w).
Proof.
  unfold emit. intros H.
  apply bind_ok_inv in H as (now & w1 & Hnow & H).
  unfold datetime_now in Hnow. inversion Hnow; subst now w1; clear Hnow.
  apply bind_ok_inv in H as (u & w2 & Hw & H).
  apply write_text_inv in Hw. unfold ret in H. inversion H; subst. now split.
Qed.

Lemma emit_ok folder stem ext content res w :
  folder ∈ dirs w ->
  path_join folder (stem +:+ strftime (clock w (reads w)) +:+ ext) ∉ dirs w ->
  let f := path_join folder (stem +:+ strftime (clock w (reads w)) +:+ ext) in
  emit folder stem ext content res w = (Ok (res f), put_file f content (tick w)).
Proof.
  intros Hf Hn. unfold emit.
  rewrite (bind_ok _ _ w (clock w (reads w)) (tick w)) by reflexivity.
  rewrite (bind_ok _ _ (tick w) tt
             (put_file (path_join folder (stem +:+ strftime (clock w (reads w)) +:+ ext))
                content (tick w))).
  - reflexivity.
  - now apply write_text_ok.
Qed.

End WorldFacts.

(** ** The generators *)

Section GeneratorFacts.

Import HighLevelArchitectChatMode.

Lemma footer_directed_by (user_name rest : string) :
  contains (directed_by user_name) (_generate_footer user_name +:+ rest) = true.
Proof.
  unfold _generate_footer, directed_by.
  change "_Generated with GitHub Copilot as directed by "
    with ("_Generated with GitHub Copilot " +:+ "as directed by ").
  rewrite !app_assoc_str. apply contains_app_r.
  rewrite <- !app_assoc_str. rewrite app_assoc_str.
  apply contains_here.
Qed.

(** Walk down a template to its footer. *)
Ltac find_footer :=
  repeat lazymatch goal with
    | |- contains _ (_generate_footer _ +:+ _) = true => apply footer_directed_by
    | |- contains _ (_ +:+ _) = true => apply contains_app_r
    end.

Ltac shape := eexists; split; [reflexivity|]; split;
  [find_footer | apply prefix_app_l; reflexivity].

Lemma sequence_shape self prompt targets depth constraints user_name :
  exists content,
    _generate_sequence_diagram self prompt targets depth constraints user_name
    = emit (diagrams_folder self) "sequence_" ".mmd" content
        (diagram_result "sequence" content)
    /\ contains (directed_by user_name) content = true
    /\ String.prefix "sequenceDiagram" content = true.
Proof. shape. Qed.

Lemma class_shape self prompt targets depth constraints user_name :
  exists content,
    _generate_class_diagram self prompt targets depth constraints user_name
    = emit (diagrams_folder self) "class_" ".mmd" content
        (diagram_result "class" content)
    /\ contains (directed_by user_name) content = true
    /\ String.prefix "classDiagram" content = true.
Proof. shape. Qed.

Lemma er_shape self prompt targets depth constraints user_name :
  exists content,
    _generate_er_diagram self prompt targets depth constraints user_name
    = emit (diagrams_folder self) "er_" ".mmd" content
        (diagram_result "er" content)
    /\ contains (directed_by user_name) content = true
    /\ String.prefix "erDiagram" content = true.
Proof. shape. Qed.

Lemma state_shape self prompt targets depth constraints user_name :
  exists content,
    _generate_state_diagram self prompt targets depth constraints user_name
    = emit (diagrams_folder self) "state_" ".mmd" content
        (diagram_result "state" content)
    /\ contains (directed_by user_name) content = true
    /\ String.prefix "stateDiagram-v2" content = true.
Proof. shape. Qed.

Lemma testcases_shape self prompt targets depth constraints user_name :
  exists content,
    _generate_testcases self prompt targets depth constraints user_name
    = emit (docs_folder self) "testcases_" ".md" content
        (document_result [] content)
    /\ contains (directed_by user_name) content = true
    /\ String.prefix "# Test Cases for " content = true.
Proof. shape. Qed.

Lemma gapscan_shape self prompt targets depth constraints user_name :
  exists content,
    _generate_gapscan self prompt targets depth constraints user_name
    = emit (docs_folder self) "gapscan_" ".md" content
        (document_result [] content)
    /\ contains (directed_by user_name) content = true
    /\ String.prefix "# Gap Analysis for " content = true.
Proof. shape. Qed.

Lemma flowchart_shape self prompt targets depth constraints user_name :
  _generate_flowchart_diagram self prompt targets depth constraints user_name
  = emit (diagrams_folder self) "flowchart_" ".mmd"
      (_create_flowchart_content prompt targets depth)
      (diagram_result "flowchart" (_create_flowchart_content prompt targets depth)).
Proof. reflexivity. Qed.

Lemma flowchart_keyword prompt targets depth :
  String.prefix "flowchart TD" (_create_flowchart_content prompt targets depth) = true.
Proof. unfold _create_flowchart_content. apply prefix_app_l. reflexivity. Qed.

Lemma documentation_footer prompt targets depth scan_result user_name :
  contains (directed_by user_name)
    (_create_documentation_content prompt targets depth scan_result user_name) = true.
Proof. unfold _create_documentation_content. find_footer. Qed.

End GeneratorFacts.

(** ** Preparing the output folders *)

Section EnsureFacts.

Import HighLevelArchitectChatMode.

Variable ws : path.

Lemma docs_folder_init : docs_folder (__init__ ws) = docs_of ws.
Proof. reflexivity. Qed.

Lemma diagrams_folder_init : diagrams_folder (__init__ ws) = diagrams_of ws.
Proof. reflexivity. Qed.

Lemma path_parent_docs : path_parent (docs_of ws) = ws.
Proof. apply path_parent_join. Qed.

Lemma path_parent_diagrams : path_parent (diagrams_of ws) = docs_of ws.
Proof. apply path_parent_join. Qed.

Lemma prepared_same_dirs (w w' : World) :
  dirs w' = dirs w -> prepared ws w -> prepared ws w'.
Proof. unfold prepared. intros ->. auto. Qed.

Lemma prepared_add_diagrams (w : World) :
  docs_of ws ∈ dirs w ->
  (forall name, path_join (docs_of ws) name ∈ dirs w -> name = "diagrams") ->
  (forall name, path_join (diagrams_of ws) name ∉ dirs w) ->
  prepared ws (add_dir (diagrams_of ws) w).
Proof.
  intros Hin Hdocs Hdia. unfold prepared, add_dir; simpl.
  repeat split.
  - set_solver.
  - set_solver.
  - intros name [H|H]%elem_of_union; [|now apply Hdocs].
    apply elem_of_singleton in H. unfold diagrams_of in H.
    now apply path_join_inj in H as [_ ->].
  - intros name [H|H]%elem_of_union; [|now apply Hdia in H].
    apply elem_of_singleton in H. now apply path_join_ne in H.
Qed.

(** In a ready world both folders get made, and nothing else changes. *)
Lemma ensure_ready (w : World) :
  ready ws w ->
  exists w1, _ensure_directories (__init__ ws) w = (Ok tt, w1)
             /\ prepared ws w1 /\ files w1 = files w
             /\ clock w1 = clock w /\ reads w1 = reads w.
Proof.
  intros Hr. pose proof Hr as (Hd & Hg & Hdocs & Hdia).
  unfold _ensure_directories. rewrite docs_folder_init, diagrams_folder_init.
  assert (Hstep1 : exists w0, mkdir_exist_ok (docs_of ws) w = (Ok tt, w0)
            /\ docs_of ws ∈ dirs w0 /\ files w0 = files w
            /\ clock w0 = clock w /\ reads w0 = reads w
            /\ (w0 = w \/ w0 = add_dir (docs_of ws) w)).
  { unfold mkdir_exist_ok. case_bool_decide as Hin.
    - exists w. auto 10.
    - destruct Hd as [Hd|[Hw Hnone]]; [contradiction|].
      rewrite bool_decide_eq_false_2
        by (rewrite Hnone; intros [? ?]; discriminate).
      rewrite path_parent_docs.
      rewrite bool_decide_eq_true_2 by exact Hw.
      exists (add_dir (docs_of ws) w). unfold add_dir; simpl.
      repeat split; auto.
      apply elem_of_union. left. now apply elem_of_singleton. }
  destruct Hstep1 as (w0 & Hrun0 & Hin0 & Hf0 & Hc0 & Hn0 & Hcase).
  rewrite (bind_ok _ _ w tt w0 Hrun0).
  assert (Hdocs0 : forall name, path_join (docs_of ws) name ∈ dirs w0 -> name = "diagrams").
  { destruct Hcase as [->| ->]; [exact Hdocs|].
    intros name [H|H]%elem_of_union; [|now apply Hdocs].
    apply elem_of_singleton in H. now apply path_join_ne in H. }
  assert (Hdia0 : forall name, path_join (diagrams_of ws) name ∉ dirs w0).
  { destruct Hcase as [->| ->]; [exact Hdia|].
    intros name [H|H]%elem_of_union; [|now apply Hdia in H].
    apply elem_of_singleton in H. unfold diagrams_of in H.
    now apply path_join2_ne in H. }
  unfold mkdir_exist_ok. case_bool_decide as Hin.
  - exists w0. split; [reflexivity|]. split; [|auto].
    unfold prepared. auto.
  - assert (Hnone : files w0 !! diagrams_of ws = None).
    { rewrite Hf0. destruct Hg as [Hg|Hg]; [|exact Hg].
      destruct Hcase as [->| ->]; [contradiction|].
      exfalso. apply Hin. unfold add_dir; simpl.
      apply elem_of_union. now right. }
    rewrite bool_decide_eq_false_2
      by (rewrite Hnone; intros [? ?]; discriminate).
    rewrite path_parent_diagrams.
    rewrite bool_decide_eq_true_2 by exact Hin0.
    exists (add_dir (diagrams_of ws) w0). split; [reflexivity|].
    split; [now apply prepared_add_diagrams|]. auto.
Qed.

(** A fresh workspace is ready. *)
Lemma fresh_ready (clk : nat -> datetime) : ready ws (fresh_world ws clk).
Proof.
  unfold ready, fresh_world; simpl. repeat split.
  - right. split; [set_solver|apply lookup_empty].
  - right. apply lookup_empty.
  - intros name H. apply elem_of_singleton in H.
    unfold docs_of in H. now apply path_join2_ne in H.
  - intros name H. apply elem_of_singleton in H.
    unfold diagrams_of, docs_of in H.
    apply (f_equal (@length string)) in H. unfold path_join in H.
    rewrite !length_app in H. simpl in H. lia.
Qed.

End EnsureFacts.

(** ** Runs of the generators *)

Section RunFacts.

Import HighLevelArchitectChatMode.

Lemma usecases_shape self prompt targets depth constraints user_name :
  exists content,
    _generate_usecases self prompt targets depth constraints user_name
    = (let* now := datetime_now in
       let filepath :=
         path_join (docs_folder self) ("usecases_" +:+ strftime now +:+ ".md") in
       let* diagram :=
         _generate_sequence_diagram self prompt targets depth constraints user_name in
       let* _ := write_text filepath content in
       let* diagram_file := subscript diagram "diagram_file" in
       ret (document_result [diagram_file] content filepath))
    /\ contains (directed_by user_name) content = true
    /\ String.prefix "# Use Cases for " content = true.
Proof.
  eexists; split; [reflexivity|]; split;
    [|apply prefix_app_l; reflexivity].
  repeat lazymatch goal with
    | |- contains _ (_generate_footer _ +:+ _) = true => apply footer_directed_by
    | |- contains _ (_ +:+ _) = true => apply contains_app_r
    end.
Qed.

(** What a run of the use-case generator returns and leaves behind. *)
Lemma usecases_inv self prompt targets depth constraints user_name :
  exists content seq,
    contains (directed_by user_name) content = true
    /\ String.prefix "sequenceDiagram" seq = true
    /\ _generate_sequence_diagram self prompt targets depth constraints user_name
       = emit (diagrams_folder self) "sequence_" ".mmd" seq
           (diagram_result "sequence" seq)
    /\ forall w r w',
        _generate_usecases self prompt targets depth constraints user_name w
        = (Ok r, w') ->
        let fdoc := path_join (docs_folder self)
                      ("usecases_" +:+ strftime (clock w (reads w)) +:+ ".md") in
        let fseq := path_join (diagrams_folder self)
                      ("sequence_" +:+ strftime (clock w (S (reads w))) +:+ ".mmd") in
        r = document_result [PStr (path_str fseq)] content fdoc
        /\ w' = put_file fdoc content (put_file fseq seq (tick (tick w))).
Proof.
  destruct (usecases_shape self prompt targets depth constraints user_name)
    as (content & Heq & Hfoot & _).
  destruct (sequence_shape self prompt targets depth constraints user_name)
    as (seq & Hseq & _ & Hkw).
  exists content, seq. split; [exact Hfoot|]. split; [exact Hkw|].
  split; [exact Hseq|].
  intros w r w' Hrun. rewrite Heq in Hrun. clear Heq.
  apply bind_ok_inv in Hrun as (now & w1 & Hnow & Hrun).
  unfold datetime_now in Hnow. inversion Hnow; subst now w1; clear Hnow.
  apply bind_ok_inv in Hrun as (dr & w2 & Hd & Hrun).
  rewrite Hseq in Hd. apply emit_inv in Hd as [-> ->].
  apply bind_ok_inv in Hrun as (x & w3 & Hw & Hrun).
  apply write_text_inv in Hw. subst w3.
  unfold subscript, diagram_result in Hrun. simpl in Hrun.
  unfold bind, ret in Hrun. inversion Hrun; subst. split; reflexivity.
Qed.

(** What a run of the documentation generator returns and leaves behind. *)
Lemma documentation_inv self prompt targets depth constraints user_name w r w' :
  _generate_documentation self prompt targets depth constraints user_name w
  = (Ok r, w') ->
  let content :=
    _create_documentation_content prompt targets depth (_scan_codebase targets)
      user_name in
  let flow := _create_flowchart_content prompt targets depth in
  let fdoc := path_join (docs_folder self)
                ("architecture_doc_" +:+ strftime (clock w (reads w)) +:+ ".md") in
  let fflow := path_join (diagrams_folder self)
                 ("flowchart_" +:+ strftime (clock w (S (reads w))) +:+ ".mmd") in
  r = document_result [PStr (path_str fflow)] content fdoc
  /\ w' = put_file fflow flow (tick (put_file fdoc content (tick w))).
Proof.
  unfold _generate_documentation. intros Hrun.
  apply bind_ok_inv in Hrun as (now & w1 & Hnow & Hrun).
  unfold datetime_now in Hnow. inversion Hnow; subst now w1; clear Hnow.
  apply bind_ok_inv in Hrun as (x & w2 & Hw & Hrun).
  apply write_text_inv in Hw. subst w2.
  apply bind_ok_inv in Hrun as (dr & w3 & Hd & Hrun).
  rewrite flowchart_shape in Hd. apply emit_inv in Hd as [-> ->].
  unfold subscript, diagram_result in Hrun. simpl in Hrun.
  unfold bind, ret in Hrun. inversion Hrun; subst. split; reflexivity.
Qed.

End RunFacts.

(** ** Routing *)

Section RoutingFacts.

Import HighLevelArchitectChatMode.

Lemma has_diagram_key_typed (constraints : pyval) :
  well_typed_constraints constraints ->
  has_diagram_key constraints
  = ret (match requested_diagram constraints with Some _ => true | None => false end).
Proof.
  destruct constraints as [| | | | |d]; simpl; try contradiction; intros _.
  - reflexivity.
  - unfold has_diagram_key. destruct d; reflexivity.
Qed.

(** The routing of [_generate_diagram] on a [constraints] of the declared
    type: the value under [diagram], or [flowchart] without one. *)
Lemma generate_diagram_typed self prompt targets depth constraints user_name :
  well_typed_constraints constraints ->
  _generate_diagram self prompt targets depth constraints user_name
  = let diagram_type := default (PStr "flowchart") (requested_diagram constraints) in
    if eq_str diagram_type "sequence" then
      _generate_sequence_diagram self prompt targets depth constraints user_name
    else if eq_str diagram_type "flowchart" then
      _generate_flowchart_diagram self prompt targets depth constraints user_name
    else if eq_str diagram_type "class" then
      _generate_class_diagram self prompt targets depth constraints user_name
    else if eq_str diagram_type "er" then
      _generate_er_diagram self prompt targets depth constraints user_name
    else if eq_str diagram_type "state" then
      _generate_state_diagram self prompt targets depth constraints user_name
    else
      _generate_flowchart_diagram self prompt targets depth constraints user_name.
Proof.
  intros Hty. unfold _generate_diagram.
  rewrite (has_diagram_key_typed _ Hty).
  destruct constraints as [| | | | |d]; simpl in Hty; try contradiction.
  - reflexivity.
  - unfold requested_diagram.
    destruct (Dict.get "diagram" d) as [v|] eqn:Hget.
    + unfold diagram_of, subscript. rewrite Hget. reflexivity.
    + reflexivity.
Qed.

Lemma generate_diagram_requested self prompt targets depth constraints user_name k g :
  well_typed_constraints constraints ->
  In (k, g) diagram_generators ->
  requested_diagram constraints = Some (PStr k) ->
  _generate_diagram self prompt targets depth constraints user_name
  = g self prompt targets depth constraints user_name.
Proof.
  intros Hty Hin Hreq. rewrite generate_diagram_typed by exact Hty.
  rewrite Hreq. simpl in Hin.
  destruct Hin as [Hin|[Hin|[Hin|[Hin|[Hin|[]]]]]];
    inversion Hin; subst k g; reflexivity.
Qed.

Lemma process_valid self prompt targets artifact_type depth constraints user_name :
  str_in artifact_type artifact_types = true ->
  str_in depth depths = true ->
  process self prompt targets artifact_type depth constraints user_name
  = (let* _ := _ensure_directories self in
     if String.eqb artifact_type "doc" then
       _generate_documentation self prompt targets depth constraints user_name
     else if String.eqb artifact_type "diagram" then
       _generate_diagram self prompt targets depth constraints user_name
     else if String.eqb artifact_type "testcases" then
       _generate_testcases self prompt targets depth constraints user_name
     else if String.eqb artifact_type "gapscan" then
       _generate_gapscan self prompt targets depth constraints user_name
     else
       _generate_usecases self prompt targets depth constraints user_name).
Proof.
  intros Ha Hd. unfold process.
  unfold artifact_types in Ha. unfold depths in Hd. rewrite Ha, Hd.
  cbn [negb]. f_equal.
  unfold str_in in Ha. cbn [existsb] in Ha.
  destruct (String.eqb artifact_type "doc"); [reflexivity|].
  destruct (String.eqb artifact_type "diagram"); [reflexivity|].
  destruct (String.eqb artifact_type "testcases"); [reflexivity|].
  destruct (String.eqb artifact_type "gapscan"); [reflexivity|].
  destruct (String.eqb artifact_type "usecases"); [reflexivity|discriminate].
Qed.

(** Validation comes before anything else. *)
Lemma process_invalid_type self prompt targets artifact_type depth constraints user_name w :
  str_in artifact_type artifact_types = false ->
  process self prompt targets artifact_type depth constraints user_name w
  = (Raise (ValueError ("Invalid artifact_type: " +:+ artifact_type)), w).
Proof.
  intros Ha. unfold process. unfold artifact_types in Ha. now rewrite Ha.
Qed.

Lemma process_invalid_depth self prompt targets artifact_type depth constraints user_name w :
  str_in artifact_type artifact_types = true ->
  str_in depth depths = false ->
  process self prompt targets artifact_type depth constraints user_name w
  = (Raise (ValueError ("Invalid depth: " +:+ depth)), w).
Proof.
  intros Ha Hd. unfold process.
  unfold artifact_types in Ha. unfold depths in Hd. now rewrite Ha, Hd.
Qed.

End RoutingFacts.

(** ** Runs in a prepared workspace *)

Section PreparedFacts.

Import HighLevelArchitectChatMode.

Variable ws : path.

Lemma prepared_tick w : prepared ws w -> prepared ws (tick w).
Proof. now apply prepared_same_dirs. Qed.

Lemma prepared_put_file f text w : prepared ws w -> prepared ws (put_file f text w).
Proof. now apply prepared_same_dirs. Qed.

Lemma emit_diagrams_ok stem ext content res w :
  prepared ws w ->
  let f := path_join (diagrams_of ws) (stem +:+ strftime (clock w (reads w)) +:+ ext) in
  emit (diagrams_of ws) stem ext content res w
  = (Ok (res f), put_file f content (tick w)).
Proof.
  intros (_ & Hdia & _ & Hnone). apply emit_ok; [exact Hdia|apply Hnone].
Qed.

Lemma emit_docs_ok stem ext content res w :
  prepared ws w ->
  (forall x, stem +:+ x <> "diagrams") ->
  let f := path_join (docs_of ws) (stem +:+ strftime (clock w (reads w)) +:+ ext) in
  emit (docs_of ws) stem ext content res w
  = (Ok (res f), put_file f content (tick w)).
Proof.
  intros (Hdocs & _ & Hsub & _) Hstem. apply emit_ok; [exact Hdocs|].
  intros Hin. apply Hsub in Hin. now apply Hstem in Hin.
Qed.

(** Every diagram generator: one content per request, carrying the root
    keyword of its kind; in a prepared workspace the run succeeds, and any
    run that succeeds returns that content under a name of its kind. *)
Lemma diagram_generator_run k g kw prompt targets depth constraints user_name :
  In (k, g) diagram_generators -> In (k, kw) root_keywords ->
  exists content,
    String.prefix kw content = true
    /\ (forall w r w',
         g (__init__ ws) prompt targets depth constraints user_name w = (Ok r, w') ->
         let f := path_join (diagrams_of ws)
                    ((k +:+ "_") +:+ strftime (clock w (reads w)) +:+ ".mmd") in
         r = diagram_result k content f /\ w' = put_file f content (tick w))
    /\ (forall w, prepared ws w ->
         exists r w',
           g (__init__ ws) prompt targets depth constraints user_name w = (Ok r, w')).
Proof.
  intros Hg Hkw. simpl in Hg, Hkw.
  destruct Hg as [Hg|[Hg|[Hg|[Hg|[Hg|[]]]]]]; inversion Hg; subst k g; clear Hg;
    destruct Hkw as [Hk|[Hk|[Hk|[Hk|[Hk|[]]]]]]; inversion Hk; subst kw; clear Hk.
  - destruct (sequence_shape (__init__ ws) prompt targets depth constraints user_name)
      as (content & -> & _ & Hp).
    exists content. split; [exact Hp|]. split.
    + intros w r w' Hrun. now apply emit_inv in Hrun.
    + intros w Hw. eexists _, _. now apply emit_diagrams_ok.
  - rewrite flowchart_shape.
    exists (_create_flowchart_content prompt targets depth).
    split; [apply flowchart_keyword|]. split.
    + intros w r w' Hrun. now apply emit_inv in Hrun.
    + intros w Hw. eexists _, _. now apply emit_diagrams_ok.
  - destruct (class_shape (__init__ ws) prompt targets depth constraints user_name)
      as (content & -> & _ & Hp).
    exists content. split; [exact Hp|]. split.
    + intros w r w' Hrun. now apply emit_inv in Hrun.
    + intros w Hw. eexists _, _. now apply emit_diagrams_ok.
  - destruct (er_shape (__init__ ws) prompt targets depth constraints user_name)
      as (content & -> & _ & Hp).
    exists content. split; [exact Hp|]. split.
    + intros w r w' Hrun. now apply emit_inv in Hrun.
    + intros w Hw. eexists _, _. now apply emit_diagrams_ok.
  - destruct (state_shape (__init__ ws) prompt targets depth constraints user_name)
      as (content & -> & _ & Hp).
    exists content. split; [exact Hp|]. split.
    + intros w r w' Hrun. now apply emit_inv in Hrun.
    + intros w Hw. eexists _, _. now apply emit_diagrams_ok.
Qed.

Lemma documentation_ok prompt targets depth constraints user_name w :
  prepared ws w ->
  exists r w',
    _generate_documentation (__init__ ws) prompt targets depth constraints user_name w
    = (Ok r, w').
Proof.
  intros Hw. pose proof Hw as (Hdocs & Hdia & Hsub & Hnone).
  unfold _generate_documentation.
  rewrite (bind_ok _ _ w (clock w (reads w)) (tick w)) by reflexivity.
  rewrite docs_folder_init.
  erewrite bind_ok; cycle 1.
  { apply write_text_ok; [exact Hdocs|].
    intros Hin. apply Hsub in Hin. discriminate Hin. }
  erewrite bind_ok; cycle 1.
  { rewrite flowchart_shape. apply emit_diagrams_ok.
    now apply prepared_put_file, prepared_tick. }
  eexists _, _. reflexivity.
Qed.

Lemma usecases_ok prompt targets depth constraints user_name w :
  prepared ws w ->
  exists r w',
    _generate_usecases (__init__ ws) prompt targets depth constraints user_name w
    = (Ok r, w').
Proof.
  intros Hw. pose proof Hw as (Hdocs & Hdia & Hsub & Hnone).
  destruct (usecases_shape (__init__ ws) prompt targets depth constraints user_name)
    as (content & -> & _ & _).
  destruct (sequence_shape (__init__ ws) prompt targets depth constraints user_name)
    as (seq & -> & _ & _).
  rewrite (bind_ok _ _ w (clock w (reads w)) (tick w)) by reflexivity.
  rewrite docs_folder_init.
  erewrite bind_ok; cycle 1.
  { apply emit_diagrams_ok. now apply prepared_tick. }
  erewrite bind_ok; cycle 1.
  { apply write_text_ok; [exact Hdocs|].
    intros Hin. apply Hsub in Hin. discriminate Hin. }
  eexists _, _. reflexivity.
Qed.

Lemma testcases_ok prompt targets depth constraints user_name w :
  prepared ws w ->
  exists r w',
    _generate_testcases (__init__ ws) prompt targets depth constraints user_name w
    = (Ok r, w').
Proof.
  intros Hw.
  destruct (testcases_shape (__init__ ws) prompt targets depth constraints user_name)
    as (content & -> & _ & _).
  eexists _, _. apply emit_docs_ok; [exact Hw|]. intros x Hx. discriminate Hx.
Qed.

Lemma gapscan_ok prompt targets depth constraints user_name w :
  prepared ws w ->
  exists r w',
    _generate_gapscan (__init__ ws) prompt targets depth constraints user_name w
    = (Ok r, w').
Proof.
  intros Hw.
  destruct (gapscan_shape (__init__ ws) prompt targets depth constraints user_name)
    as (content & -> & _ & _).
  eexists _, _. apply emit_docs_ok; [exact Hw|]. intros x Hx. discriminate Hx.
Qed.

End PreparedFacts.

(** ** What can be raised after validation *)

Section RaiseFacts.

Import HighLevelArchitectChatMode.

Lemma bind_raise_inv {A B} (m : M A) (k : A -> M B) w e w' :
  bind m k w = (Raise e, w') ->
  m w = (Raise e, w') \/ exists a w1, m w = (Ok a, w1) /\ k a w1 = (Raise e, w').
Proof.
  unfold bind. destruct (m w) as [[a|e0] w1]; intros H.
  - right. now exists a, w1.
  - left. now inversion H.
Qed.

Lemma write_text_raise p text w e w' :
  write_text p text w = (Raise e, w') -> not_value_error e.
Proof.
  unfold write_text. intros Hrun.
  repeat case_bool_decide; inversion Hrun; exact I.
Qed.

Lemma mkdir_raise p w e w' :
  mkdir_exist_ok p w = (Raise e, w') -> not_value_error e.
Proof.
  unfold mkdir_exist_ok. intros Hrun.
  repeat case_bool_decide; inversion Hrun; exact I.
Qed.

Lemma subscript_raise d k w e w' :
  subscript d k w = (Raise e, w') -> not_value_error e.
Proof.
  unfold subscript. destruct (Dict.get k d); intros Hrun; inversion Hrun; exact I.
Qed.

Lemma ensure_raise self w e w' :
  _ensure_directories self w = (Raise e, w') -> not_value_error e.
Proof.
  unfold _ensure_directories. intros Hrun.
  apply bind_raise_inv in Hrun as [Hrun|(a & w1 & _ & Hrun)];
    now apply mkdir_raise in Hrun.
Qed.

Lemma emit_raise folder stem ext content res w e w' :
  emit folder stem ext content res w = (Raise e, w') -> not_value_error e.
Proof.
  unfold emit. intros Hrun.
  apply bind_raise_inv in Hrun as [Hrun|(now & w1 & _ & Hrun)];
    [discriminate Hrun|].
  apply bind_raise_inv in Hrun as [Hrun|(a & w2 & _ & Hrun)];
    [now apply write_text_raise in Hrun|discriminate Hrun].
Qed.

Lemma diagram_generator_raise k g self prompt targets depth constraints user_name w e w' :
  In (k, g) diagram_generators ->
  g self prompt targets depth constraints user_name w = (Raise e, w') ->
  not_value_error e.
Proof.
  intros Hg. simpl in Hg.
  destruct Hg as [Hg|[Hg|[Hg|[Hg|[Hg|[]]]]]]; inversion Hg; subst k g; clear Hg.
  - destruct (sequence_shape self prompt targets depth constraints user_name)
      as (content & -> & _). apply emit_raise.
  - rewrite flowchart_shape. apply emit_raise.
  - destruct (class_shape self prompt targets depth constraints user_name)
      as (content & -> & _). apply emit_raise.
  - destruct (er_shape self prompt targets depth constraints user_name)
      as (content & -> & _). apply emit_raise.
  - destruct (state_shape self prompt targets depth constraints user_name)
      as (content & -> & _). apply emit_raise.
Qed.

Lemma has_diagram_key_raise constraints w e w' :
  has_diagram_key constraints w = (Raise e, w') -> not_value_error e.
Proof.
  unfold has_diagram_key. intros Hrun.
  destruct (truthy constraints); [|discriminate Hrun].
  destruct constraints; inversion Hrun; exact I.
Qed.

Lemma diagram_of_raise constraints w e w' :
  diagram_of constraints w = (Raise e, w') -> not_value_error e.
Proof.
  unfold diagram_of. intros Hrun.
  destruct constraints; try (inversion Hrun; exact I).
  now apply subscript_raise in Hrun.
Qed.

Lemma generate_diagram_raise self prompt targets depth constraints user_name w e w' :
  _generate_diagram self prompt targets depth constraints user_name w = (Raise e, w') ->
  not_value_error e.
Proof.
  unfold _generate_diagram. intros Hrun.
  apply bind_raise_inv in Hrun as [Hrun|(has_key & w1 & _ & Hrun)];
    [now apply has_diagram_key_raise in Hrun|].
  apply bind_raise_inv in Hrun as [Hrun|(ty & w2 & _ & Hrun)].
  { destruct has_key; [now apply diagram_of_raise in Hrun|discriminate Hrun]. }
  repeat match type of Hrun with
    | (if ?b then _ else _) _ = _ => destruct b
    end;
    (eapply diagram_generator_raise; [|exact Hrun]); simpl; auto 10.
Qed.

Lemma artifact_generator_raise a g self prompt targets depth constraints user_name w e w' :
  In (a, g) artifact_generators ->
  g self prompt targets depth constraints user_name w = (Raise e, w') ->
  not_value_error e.
Proof.
  intros Hg. simpl in Hg.
  destruct Hg as [Hg|[Hg|[Hg|[Hg|[Hg|[]]]]]]; inversion Hg; subst a g; clear Hg.
  - unfold _generate_documentation. intros Hrun.
    apply bind_raise_inv in Hrun as [Hrun|(now & w1 & _ & Hrun)];
      [discriminate Hrun|].
    apply bind_raise_inv in Hrun as [Hrun|(x & w2 & _ & Hrun)];
      [now apply write_text_raise in Hrun|].
    apply bind_raise_inv in Hrun as [Hrun|(dr & w3 & _ & Hrun)].
    { rewrite flowchart_shape in Hrun. now apply emit_raise in Hrun. }
    apply bind_raise_inv in Hrun as [Hrun|(dfs & w4 & _ & Hrun)];
      [|discriminate Hrun].
    destruct (truthy (PDict dr)); [|discriminate Hrun].
    apply bind_raise_inv in Hrun as [Hrun|(df & w5 & _ & Hrun)];
      [now apply subscript_raise in Hrun|discriminate Hrun].
  - apply generate_diagram_raise.
  - destruct (testcases_shape self prompt targets depth constraints user_name)
      as (content & -> & _). apply emit_raise.
  - destruct (gapscan_shape self prompt targets depth constraints user_name)
      as (content & -> & _). apply emit_raise.
  - destruct (usecases_shape self prompt targets depth constraints user_name)
      as (content & -> & _). intros Hrun.
    apply bind_raise_inv in Hrun as [Hrun|(now & w1 & _ & Hrun)];
      [discriminate Hrun|].
    apply bind_raise_inv in Hrun as [Hrun|(dr & w2 & _ & Hrun)].
    { eapply diagram_generator_raise; [|exact Hrun]. simpl; auto. }
    apply bind_raise_inv in Hrun as [Hrun|(x & w3 & _ & Hrun)];
      [now apply write_text_raise in Hrun|].
    apply bind_raise_inv in Hrun as [Hrun|(df & w4 & _ & Hrun)];
      [now apply subscript_raise in Hrun|discriminate Hrun].
Qed.

End RaiseFacts.

(** ** Dictionaries *)

Section DictFacts.

Lemma get_set_eq k v d : Dict.get k (Dict.set k v d) = Some v.
Proof.
  induction d as [|[k' v'] d IH]; simpl.
  - now rewrite String.eqb_refl.
  - destruct (String.eqb k k') eqn:E; simpl.
    + now rewrite String.eqb_refl.
    + now rewrite E.
Qed.

Lemma get_set_ne k k' v d : k <> k' -> Dict.get k' (Dict.set k v d) = Dict.get k' d.
Proof.
  intros Hne. induction d as [|[k0 v0] d IH]; simpl.
  - destruct (String.eqb k' k) eqn:E; [|reflexivity].
    apply String.eqb_eq in E. congruence.
  - destruct (String.eqb k k0) eqn:E; simpl.
    + apply String.eqb_eq in E. subst k0.
      destruct (String.eqb k' k) eqn:E'; [|reflexivity].
      apply String.eqb_eq in E'. congruence.
    + destruct (String.eqb k' k0); [reflexivity|exact IH].
Qed.

Lemma get_none_not_in k (d : dict) : k ∉ map fst d -> Dict.get k d = None.
Proof.
  induction d as [|[k' v'] d IH]; simpl; intros Hn; [reflexivity|].
  destruct (String.eqb k k') eqn:E.
  - apply String.eqb_eq in E. subst. exfalso. apply Hn. left.
  - apply IH. intros Hin. apply Hn. now right.
Qed.

Lemma get_update k (d other : dict) :
  is_dict other ->
  Dict.get k (Dict.update d other)
  = match Dict.get k other with Some v => Some v | None => Dict.get k d end.
Proof.
  unfold Dict.update, is_dict. revert d.
  induction other as [|[k0 v0] other IH]; intros d Hnd; simpl; [reflexivity|].
  inversion Hnd as [|? ? Hnotin Hnd']; subst.
  rewrite IH by exact Hnd'.
  destruct (String.eqb k k0) eqn:E.
  - apply String.eqb_eq in E. subst k0.
    rewrite (get_none_not_in k other Hnotin). apply get_set_eq.
  - destruct (Dict.get k other); [reflexivity|].
    apply get_set_ne. intros ->. now rewrite String.eqb_refl in E.
Qed.

End DictFacts.

(** ** Parsing the input of the adapter *)

Section ParseFacts.

Import ArchitecturalDocumentationAgent.

Lemma contains_char_cons (c a : ascii) (s : string) :
  contains (String c EmptyString) (String a s)
  = if Ascii.eqb a c then true else contains (String c EmptyString) s.
Proof.
  rewrite contains_unfold. simpl.
  destruct (ascii_dec c a) as [->|Hne].
  - rewrite Ascii.eqb_refl. now destruct s.
  - destruct (Ascii.eqb a c) eqn:E; [|reflexivity].
    apply Ascii.eqb_eq in E. congruence.
Qed.

Lemma split1_contains (c : ascii) (s : string) :
  contains (String c EmptyString) s = true ->
  exists k v, split1 c s = [k; v]
              /\ String.length s = String.length k + S (String.length v).
Proof.
  induction s as [|a s IH]; intros H; [discriminate H|].
  rewrite contains_char_cons in H. simpl.
  destruct (Ascii.eqb a c).
  - now exists EmptyString, s.
  - destruct (IH H) as (k & v & -> & Hlen).
    exists (String a k), v. split; [reflexivity|]. simpl. now rewrite Hlen.
Qed.

Lemma parse_line_kv (params : dict) (line : string) :
  parse_line params line
  = Ok (match kv_of line with
        | Some kv => Dict.set (fst kv) (PStr (snd kv)) params
        | None => params
        end).
Proof.
  unfold parse_line, kv_of.
  destruct (contains "=" (strip line)) eqn:E; [|reflexivity].
  destruct (split1_contains "="%char (strip line) E) as (k & v & -> & _).
  reflexivity.
Qed.

Lemma parse_lines_fold (lines : list string) (params : dict) :
  parse_lines lines params
  = Ok (fold_left (fun acc kv => Dict.set (fst kv) (PStr (snd kv)) acc)
          (omap kv_of lines) params).
Proof.
  revert params. induction lines as [|line lines IH]; intros params; simpl.
  - reflexivity.
  - rewrite parse_line_kv. destruct (kv_of line) as [kv|]; simpl; apply IH.
Qed.

Lemma text_value_snoc k pairs kv :
  text_value k (pairs ++ [kv])
  = if String.eqb k (fst kv) then Some (snd kv) else text_value k pairs.
Proof. unfold text_value. now rewrite fold_left_app. Qed.

Lemma get_fold_pairs k (pairs : list (string * string)) (d : dict) :
  Dict.get k (fold_left (fun acc kv => Dict.set (fst kv) (PStr (snd kv)) acc) pairs d)
  = match text_value k pairs with
    | Some v => Some (PStr v)
    | None => Dict.get k d
    end.
Proof.
  induction pairs as [|kv pairs IH] using rev_ind; [reflexivity|].
  rewrite fold_left_app, text_value_snoc. simpl.
  destruct (String.eqb k (fst kv)) eqn:E.
  - apply String.eqb_eq in E. subst k. apply get_set_eq.
  - rewrite get_set_ne; [exact IH|].
    intros <-. now rewrite String.eqb_refl in E.
Qed.

(** The parameters before the text is looked at. *)
Lemma get_context_stage k (context : option dict) :
  is_dict (context_dict context) ->
  Dict.get k
    (match context with
     | Some c => if truthy (PDict c) then Dict.update [] c else []
     | None => []
     end)
  = Dict.get k (context_dict context).
Proof.
  destruct context as [c|]; simpl; [|reflexivity].
  intros Hd. destruct c as [|kv c]; [reflexivity|].
  simpl truthy. cbv iota. rewrite get_update by exact Hd.
  now destruct (Dict.get k (kv :: c)).
Qed.

Lemma parse_input_structured (input_data : string) (context : option dict) :
  contains "=" input_data = true ->
  _parse_input input_data context
  = Ok (fold_left (fun acc kv => Dict.set (fst kv) (PStr (snd kv)) acc)
          (text_pairs input_data)
          (match context with
           | Some c => if truthy (PDict c) then Dict.update [] c else []
           | None => []
           end)).
Proof.
  intros H. unfold _parse_input. rewrite H. apply parse_lines_fold.
Qed.

Lemma parse_input_total (input_data : string) (context : option dict) :
  exists params, _parse_input input_data context = Ok params.
Proof.
  unfold _parse_input. destruct (contains "=" input_data).
  - rewrite parse_lines_fold. eauto.
  - destruct (negb _); eauto.
Qed.

End ParseFacts.

(** ** The adapter *)

Section AdapterFacts.

Import ArchitecturalDocumentationAgent.

(** A missing required parameter ends the request before the dispatcher is
    called: the failure envelope names the first one, the world is as it
    was. *)
Lemma process_missing self input_data context w params field :
  _parse_input input_data context = Ok params ->
  first_missing params = Some field ->
  process self input_data context w
  = (Ok (failure_envelope self (required_message field)), w).
Proof.
  intros Hparse Hmiss.
  unfold process, try_except, process_body, bind, lift. rewrite Hparse.
  unfold first_missing, required_fields in Hmiss. simpl in Hmiss.
  unfold missing in Hmiss.
  destruct (negb (truthy (get_default "prompt" PNone params))).
  { inversion Hmiss; subst field. reflexivity. }
  destruct (negb (truthy (get_default "targets" PNone params))).
  { inversion Hmiss; subst field. reflexivity. }
  destruct (negb (truthy (get_default "artifactType" PNone params))).
  { inversion Hmiss; subst field. reflexivity. }
  discriminate Hmiss.
Qed.

(** Whatever happens inside, [process] returns an envelope. *)
Lemma process_returns self input_data context w :
  exists envelope w', process self input_data context w = (Ok envelope, w').
Proof.
  unfold process, try_except.
  destruct (process_body self input_data context w) as [[r|e] w'].
  - now exists r, w'.
  - unfold failure, ret. eauto.
Qed.

Lemma absent_is_missing params field :
  Dict.get field params = None -> missing params field = true.
Proof. intros H. unfold missing, get_default. now rewrite H. Qed.

Lemma first_missing_some params field :
  In field required_fields -> missing params field = true ->
  exists f, first_missing params = Some f.
Proof.
  intros Hin Hm. unfold first_missing.
  destruct (find (missing params) required_fields) as [f|] eqn:E; [eauto|].
  apply (find_none _ _ E) in Hin. congruence.
Qed.

End AdapterFacts.

(** ** Lengths of the pieces of a text *)

Section LengthFacts.

Lemma length_lstrip s : String.length (lstrip s) <= String.length s.
Proof.
  induction s as [|a s IH]; simpl; [lia|].
  destruct (isspace a); simpl; lia.
Qed.

Lemma length_rstrip s : String.length (rstrip s) <= String.length s.
Proof.
  induction s as [|a s IH]; simpl; [lia|].
  destruct (rstrip s) eqn:E.
  - destruct (isspace a); simpl; lia.
  - simpl in *. lia.
Qed.

Lemma length_strip s : String.length (strip s) <= String.length s.
Proof.
  unfold strip. pose proof (length_rstrip (lstrip s)).
  pose proof (length_lstrip s). lia.
Qed.

Lemma length_split_line c s line :
  In line (split c s) -> String.length line <= String.length s.
Proof.
  revert line. induction s as [|a s IH]; simpl; intros line Hin.
  - destruct Hin as [<-|[]]. simpl. lia.
  - destruct (Ascii.eqb a c).
    + destruct Hin as [<-|Hin]; [simpl; lia|]. apply IH in Hin. lia.
    + destruct (split c s) as [|h t] eqn:E.
      * destruct Hin as [<-|[]]. simpl. lia.
      * destruct Hin as [<-|Hin].
        -- specialize (IH h (or_introl eq_refl)). simpl. lia.
        -- specialize (IH line (or_intror Hin)). lia.
Qed.

Lemma kv_of_shorter line k v :
  kv_of line = Some (k, v) -> String.length v < String.length line.
Proof.
  unfold kv_of. destruct (contains "=" (strip line)) eqn:E; [|discriminate].
  destruct (split1_contains "="%char (strip line) E) as (k0 & v0 & -> & Hlen).
  intros H. inversion H; subst.
  pose proof (length_strip v0). pose proof (length_strip line). lia.
Qed.

Lemma text_value_in k pairs v :
  text_value k pairs = Some v -> In (k, v) pairs.
Proof.
  induction pairs as [|kv pairs IH] using rev_ind; [discriminate|].
  rewrite text_value_snoc. destruct (String.eqb k (fst kv)) eqn:E.
  - intros H. inversion H; subst. apply String.eqb_eq in E. subst.
    apply in_or_app. right. left. now destruct kv.
  - intros H. apply in_or_app. left. now apply IH.
Qed.

(** A value taken from a line of the text is shorter than the text. *)
Lemma text_value_shorter k input_data v :
  text_value k (text_pairs input_data) = Some v ->
  String.length v < String.length input_data.
Proof.
  intros H. apply text_value_in in H. unfold text_pairs in H.
  apply list_elem_of_In in H. apply list_elem_of_omap in H as (line & Hline & Hkv).
  apply list_elem_of_In in Hline.
  apply kv_of_shorter in Hkv. apply length_split_line in Hline. lia.
Qed.

End LengthFacts.

(** ** The result of a request depends on the request and the clock only *)

Section ResultFacts.

Import HighLevelArchitectChatMode.

Lemma diagram_generator_inv k g self prompt targets depth constraints user_name :
  In (k, g) diagram_generators ->
  exists content,
    forall w r w',
      g self prompt targets depth constraints user_name w = (Ok r, w') ->
      let f := path_join (diagrams_folder self)
                 ((k +:+ "_") +:+ strftime (clock w (reads w)) +:+ ".mmd") in
      r = diagram_result k content f /\ w' = put_file f content (tick w).
Proof.
  intros Hg. simpl in Hg.
  destruct Hg as [Hg|[Hg|[Hg|[Hg|[Hg|[]]]]]]; inversion Hg; subst k g; clear Hg.
  - destruct (sequence_shape self prompt targets depth constraints user_name)
      as (content & -> & _).
    exists content. intros w r w' Hrun. now apply emit_inv in Hrun.
  - rewrite flowchart_shape. eexists. intros w r w' Hrun.
    apply emit_inv in Hrun. exact Hrun.
  - destruct (class_shape self prompt targets depth constraints user_name)
      as (content & -> & _).
    exists content. intros w r w' Hrun. now apply emit_inv in Hrun.
  - destruct (er_shape self prompt targets depth constraints user_name)
      as (content & -> & _).
    exists content. intros w r w' Hrun. now apply emit_inv in Hrun.
  - destruct (state_shape self prompt targets depth constraints user_name)
      as (content & -> & _).
    exists content. intros w r w' Hrun. now apply emit_inv in Hrun.
Qed.

(** The choice made by [_generate_diagram] is a function of [constraints]. *)
Lemma generate_diagram_selects self prompt targets depth constraints user_name :
  exists k g,
    In (k, g) diagram_generators
    /\ forall w r w',
        _generate_diagram self prompt targets depth constraints user_name w
        = (Ok r, w') ->
        g self prompt targets depth constraints user_name w = (Ok r, w').
Proof.
  assert (Hvac : forall e (rest : bool -> M dict),
            exists k g, In (k, g) diagram_generators
              /\ forall w r w',
                  bind (raise e) rest w = (Ok r, w') ->
                  g self prompt targets depth constraints user_name w = (Ok r, w')).
  { intros e rest. exists "sequence", _generate_sequence_diagram.
    split; [simpl; auto|]. intros w r w' Hrun. discriminate Hrun. }
  assert (Hvac2 : forall e (rest : pyval -> M dict),
            exists k g, In (k, g) diagram_generators
              /\ forall w r w',
                  bind (raise e) rest w = (Ok r, w') ->
                  g self prompt targets depth constraints user_name w = (Ok r, w')).
  { intros e rest. exists "sequence", _generate_sequence_diagram.
    split; [simpl; auto|]. intros w r w' Hrun. discriminate Hrun. }
  assert (Hpick : forall v,
            exists k g, In (k, g) diagram_generators
              /\ forall w r w',
                  (if eq_str v "sequence" then
                     _generate_sequence_diagram self prompt targets depth constraints user_name
                   else if eq_str v "flowchart" then
                     _generate_flowchart_diagram self prompt targets depth constraints user_name
                   else if eq_str v "class" then
                     _generate_class_diagram self prompt targets depth constraints user_name
                   else if eq_str v "er" then
                     _generate_er_diagram self prompt targets depth constraints user_name
                   else if eq_str v "state" then
                     _generate_state_diagram self prompt targets depth constraints user_name
                   else
                     _generate_flowchart_diagram self prompt targets depth constraints user_name)
                    w = (Ok r, w') ->
                  g self prompt targets depth constraints user_name w = (Ok r, w')).
  { intros v.
    destruct (eq_str v "sequence");
      [eexists _, _; split; [|intros w r w' Hrun; exact Hrun]; simpl; auto 10|].
    destruct (eq_str v "flowchart");
      [eexists _, _; split; [|intros w r w' Hrun; exact Hrun]; simpl; auto 10|].
    destruct (eq_str v "class");
      [eexists _, _; split; [|intros w r w' Hrun; exact Hrun]; simpl; auto 10|].
    destruct (eq_str v "er");
      [eexists _, _; split; [|intros w r w' Hrun; exact Hrun]; simpl; auto 10|].
    destruct (eq_str v "state");
      eexists _, _; (split; [|intros w r w' Hrun; exact Hrun]); simpl; auto 10. }
  assert (Hkey : forall b,
            exists k g, In (k, g) diagram_generators
              /\ forall w r w',
                  bind (if b : bool then diagram_of constraints else ret (PStr "flowchart"))
                    (fun diagram_type =>
                       if eq_str diagram_type "sequence" then
                         _generate_sequence_diagram self prompt targets depth constraints user_name
                       else if eq_str diagram_type "flowchart" then
                         _generate_flowchart_diagram self prompt targets depth constraints user_name
                       else if eq_str diagram_type "class" then
                         _generate_class_diagram self prompt targets depth constraints user_name
                       else if eq_str diagram_type "er" then
                         _generate_er_diagram self prompt targets depth constraints user_name
                       else if eq_str diagram_type "state" then
                         _generate_state_diagram self prompt targets depth constraints user_name
                       else
                         _generate_flowchart_diagram self prompt targets depth constraints user_name)
                    w = (Ok r, w') ->
                  g self prompt targets depth constraints user_name w = (Ok r, w')).
  { intros [|]; [|apply (Hpick (PStr "flowchart"))].
    unfold diagram_of.
    destruct constraints as [| | | | |d]; try apply Hvac2.
    unfold subscript. destruct (Dict.get "diagram" d) as [v|]; [|apply Hvac2].
    apply (Hpick v). }
  unfold _generate_diagram, has_diagram_key.
  destruct (truthy constraints); [|apply (Hkey false)].
  destruct constraints; try apply Hvac; apply Hkey.
Qed.

(** Every artifact generator: the result of a run is a function of the two
    readings of the clock it may take, and its content does not even depend
    on those. *)
Lemma artifact_generator_result a g self prompt targets depth constraints user_name :
  In (a, g) artifact_generators ->
  exists (content : string) (result : datetime -> datetime -> dict),
    forall w r w',
      g self prompt targets depth constraints user_name w = (Ok r, w') ->
      r = result (clock w (reads w)) (clock w (S (reads w)))
      /\ Dict.get "content" r = Some (PStr content).
Proof.
  intros Hg. simpl in Hg.
  destruct Hg as [Hg|[Hg|[Hg|[Hg|[Hg|[]]]]]]; inversion Hg; subst a g; clear Hg.
  - exists (_create_documentation_content prompt targets depth
              (_scan_codebase targets) user_name),
           (fun t0 t1 => document_result
              [PStr (path_str (path_join (diagrams_folder self)
                                 ("flowchart_" +:+ strftime t1 +:+ ".mmd")))]
              (_create_documentation_content prompt targets depth
                 (_scan_codebase targets) user_name)
              (path_join (docs_folder self)
                 ("architecture_doc_" +:+ strftime t0 +:+ ".md"))).
    intros w r w' Hrun. apply documentation_inv in Hrun as [-> _].
    split; reflexivity.
  - destruct (generate_diagram_selects self prompt targets depth constraints user_name)
      as (k & g & Hin & Hsel).
    destruct (diagram_generator_inv k g self prompt targets depth constraints
                user_name Hin) as (content & Hinv).
    exists content, (fun t0 _ => diagram_result k content
                       (path_join (diagrams_folder self)
                          ((k +:+ "_") +:+ strftime t0 +:+ ".mmd"))).
    intros w r w' Hrun. apply Hsel, Hinv in Hrun as [-> _]. split; reflexivity.
  - destruct (testcases_shape self prompt targets depth constraints user_name)
      as (content & -> & _).
    exists content, (fun t0 _ => document_result [] content
                       (path_join (docs_folder self)
                          ("testcases_" +:+ strftime t0 +:+ ".md"))).
    intros w r w' Hrun. apply emit_inv in Hrun as [-> _]. split; reflexivity.
  - destruct (gapscan_shape self prompt targets depth constraints user_name)
      as (content & -> & _).
    exists content, (fun t0 _ => document_result [] content
                       (path_join (docs_folder self)
                          ("gapscan_" +:+ strftime t0 +:+ ".md"))).
    intros w r w' Hrun. apply emit_inv in Hrun as [-> _]. split; reflexivity.
  - destruct (usecases_inv self prompt targets depth constraints user_name)
      as (content & seq & _ & _ & _ & Hinv).
    exists content, (fun t0 t1 => document_result
                       [PStr (path_str (path_join (diagrams_folder self)
                                          ("sequence_" +:+ strftime t1 +:+ ".mmd")))]
                       content
                       (path_join (docs_folder self)
                          ("usecases_" +:+ strftime t0 +:+ ".md"))).
    intros w r w' Hrun. apply Hinv in Hrun as [-> _]. split; reflexivity.
Qed.

(** The footer is in the content of every diagram but the flowchart. *)
Lemma footer_in_diagram_content k g self prompt targets depth constraints user_name
    w r w' :
  In (k, g) diagram_generators -> k <> "flowchart" ->
  g self prompt targets depth constraints user_name w = (Ok r, w') ->
  exists content,
    Dict.get "content" r = Some (PStr content)
    /\ contains (directed_by user_name) content = true.
Proof.
  intros Hg Hk. simpl in Hg.
  destruct Hg as [Hg|[Hg|[Hg|[Hg|[Hg|[]]]]]]; inversion Hg; subst k g; clear Hg;
    [|congruence| | |].
  - destruct (sequence_shape self prompt targets depth constraints user_name)
      as (content & -> & Hfoot & _).
    intros Hrun. apply emit_inv in Hrun as [-> _]. now exists content.
  - destruct (class_shape self prompt targets depth constraints user_name)
      as (content & -> & Hfoot & _).
    intros Hrun. apply emit_inv in Hrun as [-> _]. now exists content.
  - destruct (er_shape self prompt targets depth constraints user_name)
      as (content & -> & Hfoot & _).
    intros Hrun. apply emit_inv in Hrun as [-> _]. now exists content.
  - destruct (state_shape self prompt targets depth constraints user_name)
      as (content & -> & Hfoot & _).
    intros Hrun. apply emit_inv in Hrun as [-> _]. now exists content.
Qed.

(** The footer is in the content of every document. *)
Lemma footer_in_document_content a g self prompt targets depth constraints user_name
    w r w' :
  In (a, g) artifact_generators -> a <> "diagram" ->
  g self prompt targets depth constraints user_name w = (Ok r, w') ->
  exists content,
    Dict.get "content" r = Some (PStr content)
    /\ contains (directed_by user_name) content = true.
Proof.
  intros Hg Ha. simpl in Hg.
  destruct Hg as [Hg|[Hg|[Hg|[Hg|[Hg|[]]]]]]; inversion Hg; subst a g; clear Hg;
    [|congruence| | |].
  - intros Hrun. apply documentation_inv in Hrun as [-> _].
    eexists. split; [reflexivity|apply documentation_footer].
  - destruct (testcases_shape self prompt targets depth constraints user_name)
      as (content & -> & Hfoot & _).
    intros Hrun. apply emit_inv in Hrun as [-> _]. now exists content.
  - destruct (gapscan_shape self prompt targets depth constraints user_name)
      as (content & -> & Hfoot & _).
    intros Hrun. apply emit_inv in Hrun as [-> _]. now exists content.
  - destruct (usecases_inv self prompt targets depth constraints user_name)
      as (content & seq & Hfoot & _ & _ & Hinv).
    intros Hrun. apply Hinv in Hrun as [-> _]. now exists content.
Qed.

(** A run of [process] that returns is the preparation of the folders
    followed by a run of the generator of the artifact type. *)
Lemma process_ok_inv self prompt targets artifact_type depth constraints user_name :
  exists a g,
    In (a, g) artifact_generators
    /\ forall w r w',
        process self prompt targets artifact_type depth constraints user_name w
        = (Ok r, w') ->
        exists w1 (u : unit),
          _ensure_directories self w = (Ok u, w1)
          /\ g self prompt targets depth constraints user_name w1 = (Ok r, w').
Proof.
  destruct (str_in artifact_type artifact_types) eqn:Ha; cycle 1.
  { exists "doc", _generate_documentation. split; [simpl; auto|].
    intros w r w' Hrun. rewrite process_invalid_type in Hrun by exact Ha.
    discriminate Hrun. }
  destruct (str_in depth depths) eqn:Hd; cycle 1.
  { exists "doc", _generate_documentation. split; [simpl; auto|].
    intros w r w' Hrun. rewrite process_invalid_depth in Hrun by assumption.
    discriminate Hrun. }
  rewrite process_valid by assumption.
  assert (Hpick : forall a g,
            In (a, g) artifact_generators ->
            exists a0 g0,
              In (a0, g0) artifact_generators
              /\ forall w r w',
                  (let* _ := _ensure_directories self in
                   g self prompt targets depth constraints user_name) w = (Ok r, w') ->
                  exists w1 (u : unit),
                    _ensure_directories self w = (Ok u, w1)
                    /\ g0 self prompt targets depth constraints user_name w1
                       = (Ok r, w')).
  { intros a g Hin. exists a, g. split; [exact Hin|].
    intros w r w' Hrun. apply bind_ok_inv in Hrun as (u & w1 & He & Hrun).
    now exists w1, u. }
  destruct (String.eqb artifact_type "doc");
    [apply (Hpick "doc"); simpl; auto 10|].
  destruct (String.eqb artifact_type "diagram");
    [apply (Hpick "diagram"); simpl; auto 10|].
  destruct (String.eqb artifact_type "testcases");
    [apply (Hpick "testcases"); simpl; auto 10|].
  destruct (String.eqb artifact_type "gapscan");
    [apply (Hpick "gapscan"); simpl; auto 10|].
  apply (Hpick "usecases"); simpl; auto 10.
Qed.

End ResultFacts.

(** ** Small facts used by the statements *)

Section StatementFacts.

Import HighLevelArchitectChatMode.

Lemma ensure_inv self w w1 (u : unit) :
  _ensure_directories self w = (Ok u, w1) ->
  files w1 = files w /\ clock w1 = clock w /\ reads w1 = reads w.
Proof.
  unfold _ensure_directories. intros Hrun.
  apply bind_ok_inv in Hrun as (x & w0 & H0 & H1).
  apply mkdir_exist_ok_inv in H0. apply mkdir_exist_ok_inv in H1.
  destruct H0 as [->| ->], H1 as [->| ->]; auto.
Qed.

Lemma eq_str_PStr s : eq_str (PStr s) s = true.
Proof. simpl. apply String.eqb_refl. Qed.

Lemma eq_str_false v s : v <> PStr s -> eq_str v s = false.
Proof.
  destruct v as [| | |s'| |]; try reflexivity. simpl. intros Hne.
  destruct (String.eqb s' s) eqn:E; [|reflexivity].
  apply String.eqb_eq in E. congruence.
Qed.

Lemma get_update_none k (d other : dict) :
  Dict.get k other = None -> Dict.get k (Dict.update d other) = Dict.get k d.
Proof.
  unfold Dict.update. revert d.
  induction other as [|[k0 v0] other IH]; intros d; simpl; [reflexivity|].
  destruct (String.eqb k k0) eqn:E; [discriminate|]. intros Hnone.
  rewrite IH by exact Hnone. apply get_set_ne.
  intros ->. now rewrite String.eqb_refl in E.
Qed.

Lemma docs_file_ne_diagrams_file ws a b :
  path_join (docs_of ws) a <> path_join (diagrams_of ws) b.
Proof.
  intros H. apply path_join_inj in H as [H _].
  symmetry in H. now apply path_join_ne in H.
Qed.

Lemma str_in_true_iff x l : str_in x l = true <-> In x l.
Proof.
  unfold str_in. rewrite existsb_exists. split.
  - intros (y & Hy & E). apply String.eqb_eq in E. now subst.
  - intros H. exists x. split; [exact H|apply String.eqb_refl].
Qed.

End StatementFacts.

(** ** The adapter, case by case *)

Section AgentFacts.

Import ArchitecturalDocumentationAgent.

Lemma present_of_truthy params field default :
  missing params field = false ->
  exists v, Dict.get field params = Some v
            /\ truthy v = true
            /\ get_default field default params = v.
Proof.
  unfold missing, get_default. destruct (Dict.get field params) as [v|].
  - intros H. exists v. split; [reflexivity|]. split; [|reflexivity].
    now destruct (truthy v).
  - discriminate.
Qed.

Lemma none_missing params :
  first_missing params = None ->
  missing params "prompt" = false
  /\ missing params "targets" = false
  /\ missing params "artifactType" = false.
Proof.
  unfold first_missing, required_fields. simpl.
  destruct (missing params "prompt"); [discriminate|].
  destruct (missing params "targets"); [discriminate|].
  destruct (missing params "artifactType"); [discriminate|].
  auto.
Qed.

Lemma first_missing_in params field :
  first_missing params = Some field -> In field required_fields.
Proof. intros H. now apply find_some in H. Qed.

(** With its three required parameters, an initialized agent wraps the
    outcome of the dispatcher. *)
Lemma process_dispatch self input_data context w params cm :
  _parse_input input_data context = Ok params ->
  first_missing params = None ->
  chatmode self = Some cm ->
  ArchitecturalDocumentationAgent.process self input_data context w
  = match dispatch cm params w with
    | (Ok r, w') => (Ok (success_envelope self params r), w')
    | (Raise e, w') => (Ok (failure_envelope self (exn_str e)), w')
    end.
Proof.
  intros Hparse Hnone Hcm.
  destruct (none_missing params Hnone) as (Hp & Ht & Ha).
  destruct (present_of_truthy params "prompt" PNone Hp) as (vp & Hgp & Htp & Hdp).
  destruct (present_of_truthy params "targets" PNone Ht) as (vt & Hgt & Htt & Hdt).
  destruct (present_of_truthy params "artifactType" PNone Ha) as (va & Hga & Hta & Hda).
  unfold ArchitecturalDocumentationAgent.process, try_except, process_body, bind, lift.
  rewrite Hparse. unfold dispatch, success_envelope.
  rewrite Hdp, Hdt, Hda, Htp, Htt, Hta, Hcm.
  unfold subscript, ret. rewrite Hgp, Hgt, Hga.
  cbn [negb].
  destruct (HighLevelArchitectChatMode.process cm (py_str vp) (py_str vt) (py_str va)
              (py_str (get_default "depth" (PStr "overview") params))
              (get_default "constraints" PNone params)
              (py_str (get_default "user_name" (PStr "User") params)) w)
    as [[r|e] w']; reflexivity.
Qed.

(** With its three required parameters, an agent that was not initialized
    fails on the call of the dispatcher. *)
Lemma process_no_chatmode self input_data context w params :
  _parse_input input_data context = Ok params ->
  first_missing params = None ->
  chatmode self = None ->
  ArchitecturalDocumentationAgent.process self input_data context w
  = (Ok (failure_envelope self no_chatmode_message), w).
Proof.
  intros Hparse Hnone Hcm.
  destruct (none_missing params Hnone) as (Hp & Ht & Ha).
  unfold missing in Hp, Ht, Ha.
  unfold ArchitecturalDocumentationAgent.process, try_except, process_body, bind, lift.
  rewrite Hparse, Hp, Ht, Ha, Hcm. reflexivity.
Qed.

End AgentFacts.

(** ** One line of a structured text *)

Section LineFacts.

Import ArchitecturalDocumentationAgent.

Lemma contains_char_tail (c a : ascii) (s : string) :
  contains (String c EmptyString) (String a s) = false ->
  Ascii.eqb a c = false /\ contains (String c EmptyString) s = false.
Proof.
  rewrite contains_char_cons. destruct (Ascii.eqb a c); [discriminate|auto].
Qed.

Lemma contains_char_app (c : ascii) (s t : string) :
  contains (String c EmptyString) (s +:+ t)
  = contains (String c EmptyString) s || contains (String c EmptyString) t.
Proof.
  induction s as [|a s IH].
  - rewrite app_nil_l. reflexivity.
  - rewrite app_cons, !contains_char_cons, IH. now destruct (Ascii.eqb a c).
Qed.

Lemma lstrip_suffix (c : ascii) (s : string) :
  contains (String c EmptyString) s = false ->
  contains (String c EmptyString) (lstrip s) = false.
Proof.
  induction s as [|a s IH]; intros H; [reflexivity|].
  simpl. destruct (isspace a); [|exact H].
  apply IH. now apply contains_char_tail in H.
Qed.

Lemma lstrip_app (s t : string) (c : ascii) :
  isspace c = false -> lstrip (s +:+ String c t) = lstrip s +:+ String c t.
Proof.
  intros Hc. induction s as [|a s IH].
  - simpl. now rewrite Hc.
  - rewrite app_cons. simpl. destruct (isspace a); [exact IH|].
    now rewrite app_cons.
Qed.

Lemma rstrip_cons_nonempty (a : ascii) (s : string) :
  rstrip s <> EmptyString -> rstrip (String a s) = String a (rstrip s).
Proof. simpl. now destruct (rstrip s). Qed.

Lemma rstrip_cons_char (c : ascii) (t : string) :
  isspace c = false -> rstrip (String c t) = String c (rstrip t).
Proof. intros Hc. simpl. rewrite Hc. now destruct (rstrip t). Qed.

Lemma rstrip_app (s t : string) (c : ascii) :
  isspace c = false -> rstrip (s +:+ String c t) = s +:+ String c (rstrip t).
Proof.
  intros Hc. induction s as [|a s IH].
  - now apply rstrip_cons_char.
  - rewrite !app_cons. rewrite rstrip_cons_nonempty; [now rewrite IH|].
    rewrite IH. now destruct s.
Qed.

Lemma lstrip_idem (s : string) : lstrip (lstrip s) = lstrip s.
Proof.
  induction s as [|a s IH]; [reflexivity|].
  simpl. destruct (isspace a) eqn:E; [exact IH|]. simpl. now rewrite E.
Qed.

Lemma rstrip_idem (s : string) : rstrip (rstrip s) = rstrip s.
Proof.
  induction s as [|a s IH]; [reflexivity|].
  simpl. destruct (rstrip s) as [|b r] eqn:E.
  - destruct (isspace a) eqn:Ea; [reflexivity|]. simpl. now rewrite Ea.
  - rewrite rstrip_cons_nonempty; [now rewrite IH|]. now rewrite IH.
Qed.

Lemma lstrip_rstrip (s : string) : lstrip (rstrip s) = rstrip (lstrip s).
Proof.
  induction s as [|a s IH]; [reflexivity|].
  destruct (isspace a) eqn:Ea.
  - simpl. rewrite Ea. destruct (rstrip s) as [|b r] eqn:E.
    + now rewrite <- IH.
    + rewrite <- IH. simpl. now rewrite Ea.
  - simpl lstrip at 2. rewrite Ea.
    rewrite rstrip_cons_char by exact Ea. simpl. now rewrite Ea.
Qed.

Lemma strip_lstrip (s : string) : strip (lstrip s) = strip s.
Proof. unfold strip. now rewrite lstrip_idem. Qed.

Lemma strip_rstrip (s : string) : strip (rstrip s) = strip s.
Proof. unfold strip. now rewrite lstrip_rstrip, rstrip_idem. Qed.

Lemma split1_app (c : ascii) (k v : string) :
  contains (String c EmptyString) k = false ->
  split1 c (k +:+ String c v) = [k; v].
Proof.
  induction k as [|a k IH]; intros H.
  - simpl. now rewrite Ascii.eqb_refl.
  - apply contains_char_tail in H as [Ha Hk].
    rewrite app_cons. simpl. rewrite Ha, (IH Hk). reflexivity.
Qed.

Lemma contains_strip (c : ascii) (s : string) :
  isspace c = false ->
  contains (String c EmptyString) (strip s) = contains (String c EmptyString) s.
Proof.
  intros Hc. unfold strip.
  assert (Hl : forall t, contains (String c EmptyString) (lstrip t)
                         = contains (String c EmptyString) t).
  { induction t as [|a t IH]; [reflexivity|].
    simpl lstrip. destruct (isspace a) eqn:Ea; [|reflexivity].
    rewrite IH, contains_char_cons.
    destruct (Ascii.eqb a c) eqn:E; [|reflexivity].
    apply Ascii.eqb_eq in E. congruence. }
  assert (Hr : forall t, contains (String c EmptyString) (rstrip t)
                         = contains (String c EmptyString) t).
  { induction t as [|a t IH]; [reflexivity|].
    rewrite contains_char_cons, <- IH. simpl rstrip.
    destruct (rstrip t) as [|b r] eqn:Er.
    - destruct (isspace a) eqn:Ea.
      + destruct (Ascii.eqb a c) eqn:E; [|reflexivity].
        apply Ascii.eqb_eq in E. congruence.
      + now rewrite contains_char_cons.
    - now rewrite contains_char_cons. }
  now rewrite Hr, Hl.
Qed.

End LineFacts.

(** ** The lines of a structured text *)

Section GivesFacts.

Lemma split1_inv (c : ascii) (s k v : string) :
  split1 c s = [k; v] ->
  s = k +:+ String c v /\ contains (String c EmptyString) k = false.
Proof.
  revert k. induction s as [|a s IH]; intros k H; [discriminate H|].
  simpl in H. destruct (Ascii.eqb a c) eqn:E.
  - apply Ascii.eqb_eq in E. subst a. injection H as <- <-.
    split; reflexivity.
  - destruct (split1 c s) as [|h t] eqn:Hs; [discriminate H|].
    injection H as <- ->.
    destruct (IH h eq_refl) as [-> Hk].
    split; [reflexivity|]. now rewrite contains_char_cons, E.
Qed.

Lemma kv_of_gives line key value :
  kv_of line = Some (key, value) <-> gives line key value.
Proof.
  unfold kv_of, gives. split.
  - destruct (contains "=" (strip line)) eqn:E; [|discriminate].
    destruct (split1_contains "="%char (strip line) E) as (k & v & Hs & _).
    rewrite Hs. intros [= <- <-].
    apply split1_inv in Hs as [Hs Hk]. now exists k, v.
  - intros (k & v & Hs & Hk & -> & ->). rewrite Hs.
    change (k +:+ "=" +:+ v) with (k +:+ String "="%char v).
    rewrite contains_char_app, contains_char_cons, Ascii.eqb_refl, orb_true_r.
    now rewrite split1_app.
Qed.

(** The pairs of a text are what its lines give. *)
Lemma text_pairs_gives input_data key value :
  In (key, value) (text_pairs input_data)
  <-> exists line, In line (split nl input_data) /\ gives line key value.
Proof.
  unfold text_pairs. rewrite <- list_elem_of_In, list_elem_of_omap. split.
  - intros (line & Hin & Hkv). exists line.
    split; [now apply list_elem_of_In|now apply kv_of_gives].
  - intros (line & Hin & Hg). exists line.
    split; [now apply list_elem_of_In|now apply kv_of_gives].
Qed.

Lemma text_value_absent k (pairs : list (string * string)) :
  (forall v, ~ In (k, v) pairs) -> text_value k pairs = None.
Proof.
  intros Hno. induction pairs as [|[k0 v0] pairs IH] using rev_ind; [reflexivity|].
  rewrite text_value_snoc. simpl.
  destruct (String.eqb k k0) eqn:E.
  - apply String.eqb_eq in E. subst k0. exfalso. apply (Hno v0).
    apply in_or_app. right. now left.
  - apply IH. intros v Hin. apply (Hno v). apply in_or_app. now left.
Qed.

Lemma text_value_present k (pairs : list (string * string)) :
  (exists v, In (k, v) pairs) -> exists v, text_value k pairs = Some v.
Proof.
  intros (v & Hin).
  destruct (text_value k pairs) as [v'|] eqn:E; [eauto|].
  exfalso. revert Hin E. clear.
  induction pairs as [|[k0 v0] pairs IH] using rev_ind; [now intros []|].
  rewrite text_value_snoc. simpl. intros Hin.
  destruct (String.eqb k k0) eqn:E; [discriminate|].
  apply in_app_or in Hin as [Hin|[[= <- <-]|[]]]; [now apply IH|].
  now rewrite String.eqb_refl in E.
Qed.

Lemma text_value_last k v (before after : list (string * string)) :
  (forall v', ~ In (k, v') after) ->
  text_value k (before ++ (k, v) :: after) = Some v.
Proof.
  intros Hno. induction after as [|[k0 v0] after IH] using rev_ind.
  - rewrite text_value_snoc. simpl. now rewrite String.eqb_refl.
  - replace (before ++ (k, v) :: after ++ [(k0, v0)])
      with ((before ++ (k, v) :: after) ++ [(k0, v0)])
      by now rewrite <- app_assoc.
    rewrite text_value_snoc. simpl.
    destruct (String.eqb k k0) eqn:E.
    + apply String.eqb_eq in E. subst k0. exfalso. apply (Hno v0).
      apply in_or_app. right. now left.
    + apply IH. intros v' Hin. apply (Hno v'). apply in_or_app. now left.
Qed.

(** The value of a key after its last line. *)
Lemma text_value_last_line input_data key value before line after :
  split nl input_data = before ++ line :: after ->
  gives line key value ->
  (forall l v, In l after -> ~ gives l key v) ->
  text_value key (text_pairs input_data) = Some value.
Proof.
  intros Hsplit Hg Hno. unfold text_pairs. rewrite Hsplit, omap_app. simpl.
  apply kv_of_gives in Hg. rewrite Hg.
  apply text_value_last. intros v' Hin.
  apply list_elem_of_In, list_elem_of_omap in Hin as (l & Hl & Hkv).
  apply (Hno l v'); [now apply list_elem_of_In|now apply kv_of_gives].
Qed.

End GivesFacts.

(** * The stated properties *)

Import HighLevelArchitectChatMode.

(** C1. The claim is that the content of every artifact kind carries
    [as directed by {user_name}], the flowchart included.  The flowchart
    generator receives the user name and drops it: on the request of the
    test suite (a diagram without constraints, user [TestUser]) the run
    succeeds and the returned content does not contain
    [as directed by TestUser]. *)
Theorem flowchart_content_lacks_footer :
  exists r w' content,
    process (__init__ ["ws"]) "Test prompt" "TestComponent" "diagram" "overview"
      PNone "TestUser" sample_world = (Ok r, w')
    /\ Dict.get "diagram_type" r = Some (PStr "flowchart")
    /\ Dict.get "content" r = Some (PStr content)
    /\ contains (directed_by "TestUser") content = false.
Proof.
  eexists _, _, _. split; [vm_compute; reflexivity|].
  split; [reflexivity|]. split; [reflexivity|]. vm_compute. reflexivity.
Qed.

(** C2. A request whose artifact type or depth is outside its enumeration
    fails with a [ValueError] that names the offending value, and the world
    it returns is the world it was given: no directory made, no file
    written, not even the clock read. *)
Theorem process_rejects_invalid self prompt targets artifact_type depth constraints
    user_name w :
  str_in artifact_type artifact_types = false \/ str_in depth depths = false ->
  exists offending msg,
    process self prompt targets artifact_type depth constraints user_name w
    = (Raise (ValueError msg), w)
    /\ contains offending msg = true
    /\ ((str_in artifact_type artifact_types = false
         /\ offending = artifact_type
         /\ msg = "Invalid artifact_type: " +:+ artifact_type)
        \/ (str_in artifact_type artifact_types = true
            /\ str_in depth depths = false
            /\ offending = depth
            /\ msg = "Invalid depth: " +:+ depth)).
Proof.
  intros H.
  destruct (str_in artifact_type artifact_types) eqn:Ha.
  - destruct H as [H|Hd]; [discriminate H|].
    exists depth, ("Invalid depth: " +:+ depth).
    split; [now apply process_invalid_depth|].
    split; [apply contains_app_r, contains_self|].
    right. auto.
  - exists artifact_type, ("Invalid artifact_type: " +:+ artifact_type).
    split; [now apply process_invalid_type|].
    split; [apply contains_app_r, contains_self|].
    left. auto.
Qed.

Lemma process_rejects_invalid_witness :
  (str_in "bogus" artifact_types = false \/ str_in "overview" depths = false)
  /\ exists offending msg,
      process (__init__ ["ws"]) "Test prompt" "TestComponent" "bogus" "overview"
        PNone "TestUser" sample_world
      = (Raise (ValueError msg), sample_world)
      /\ contains offending msg = true
      /\ ((str_in "bogus" artifact_types = false
           /\ offending = "bogus"
           /\ msg = "Invalid artifact_type: " +:+ "bogus")
          \/ (str_in "bogus" artifact_types = true
              /\ str_in "overview" depths = false
              /\ offending = "overview"
              /\ msg = "Invalid depth: " +:+ "overview")).
Proof.
  split; [left; reflexivity|].
  apply (process_rejects_invalid (__init__ ["ws"]) "Test prompt" "TestComponent"
           "bogus" "overview" PNone "TestUser" sample_world).
  left; reflexivity.
Defined.

(** C9. An artifact type that passes the membership test is the key of
    exactly one generator of the dispatch table, [process] is the
    preparation of the folders followed by that generator, and whatever a
    run of [process] raises, it is not the [Unsupported artifact_type] error
    of the final branch. *)
Theorem unsupported_branch_unreachable self prompt targets artifact_type depth
    constraints user_name :
  str_in artifact_type artifact_types = true ->
  (exists g,
     In (artifact_type, g) artifact_generators
     /\ (forall g', In (artifact_type, g') artifact_generators -> g' = g)
     /\ (str_in depth depths = true ->
         process self prompt targets artifact_type depth constraints user_name
         = (let* _ := _ensure_directories self in
            g self prompt targets depth constraints user_name)))
  /\ forall w e w',
       process self prompt targets artifact_type depth constraints user_name w
       = (Raise e, w') ->
       e <> ValueError ("Unsupported artifact_type: " +:+ artifact_type).
Proof.
  intros Ha.
  assert (Hcases : In artifact_type artifact_types) by now apply str_in_true_iff.
  assert (Htable :
    exists g,
      In (artifact_type, g) artifact_generators
      /\ (forall g', In (artifact_type, g') artifact_generators -> g' = g)
      /\ (str_in depth depths = true ->
          process self prompt targets artifact_type depth constraints user_name
          = (let* _ := _ensure_directories self in
             g self prompt targets depth constraints user_name))).
  { simpl in Hcases.
    destruct Hcases as [<-|[<-|[<-|[<-|[<-|[]]]]]];
      eexists; (split; [simpl; auto 10|]);
      (split; [intros g' Hg'; simpl in Hg';
               destruct Hg' as [Hg'|[Hg'|[Hg'|[Hg'|[Hg'|[]]]]]];
               inversion Hg'; reflexivity
              |intros Hd; now rewrite process_valid by (reflexivity || exact Hd)]). }
  split; [exact Htable|].
  intros w e w' Hrun Heq.
  destruct (str_in depth depths) eqn:Hd.
  - destruct Htable as (g & Hin & _ & Hproc).
    rewrite (Hproc eq_refl) in Hrun.
    apply bind_raise_inv in Hrun as [Hrun|(x & w1 & _ & Hrun)].
    + apply ensure_raise in Hrun. now rewrite Heq in Hrun.
    + apply (artifact_generator_raise _ _ _ _ _ _ _ _ _ _ _ Hin) in Hrun.
      now rewrite Heq in Hrun.
  - rewrite process_invalid_depth in Hrun by assumption.
    injection Hrun as <- _. injection Heq as Heq. discriminate Heq.
Qed.

Lemma unsupported_branch_unreachable_witness :
  str_in "gapscan" artifact_types = true
  /\ ((exists g,
        In ("gapscan", g) artifact_generators
        /\ (forall g', In ("gapscan", g') artifact_generators -> g' = g)
        /\ (str_in "overview" depths = true ->
            process (__init__ ["ws"]) "Test prompt" "TestComponent" "gapscan"
              "overview" PNone "TestUser"
            = (let* _ := _ensure_directories (__init__ ["ws"]) in
               g (__init__ ["ws"]) "Test prompt" "TestComponent" "overview" PNone
                 "TestUser")))
      /\ forall w e w',
           process (__init__ ["ws"]) "Test prompt" "TestComponent" "gapscan"
             "overview" PNone "TestUser" w = (Raise e, w') ->
           e <> ValueError ("Unsupported artifact_type: " +:+ "gapscan")).
Proof.
  split; [reflexivity|].
  apply (unsupported_branch_unreachable (__init__ ["ws"]) "Test prompt"
           "TestComponent" "gapscan" "overview" PNone "TestUser").
  reflexivity.
Defined.

(** C4. For a diagram request whose [constraints] is [None] or a dict: a
    recognized value under the [diagram] key selects the generator of that
    kind; without constraints, without the key, or with any other value the
    flowchart generator is selected, and the routing itself raises nothing:
    [process] is the preparation of the folders followed by the generator
    that was selected. *)
Theorem diagram_routing self prompt targets depth constraints user_name :
  well_typed_constraints constraints ->
  (forall k g,
     In (k, g) diagram_generators ->
     requested_diagram constraints = Some (PStr k) ->
     _generate_diagram self prompt targets depth constraints user_name
     = g self prompt targets depth constraints user_name)
  /\ ((requested_diagram constraints = None
       \/ exists v, requested_diagram constraints = Some v
                    /\ forall k, In k diagram_types -> v <> PStr k) ->
      _generate_diagram self prompt targets depth constraints user_name
      = _generate_flowchart_diagram self prompt targets depth constraints user_name)
  /\ (str_in depth depths = true ->
      process self prompt targets "diagram" depth constraints user_name
      = (let* _ := _ensure_directories self in
         _generate_diagram self prompt targets depth constraints user_name)).
Proof.
  intros Hty. split; [|split].
  - intros k g Hin Hreq. now apply (generate_diagram_requested _ _ _ _ _ _ k g).
  - intros Hreq. rewrite generate_diagram_typed by exact Hty.
    destruct Hreq as [->|(v & -> & Hv)]; [reflexivity|].
    simpl default. cbv zeta.
    rewrite (eq_str_false v "sequence") by (apply Hv; simpl; auto).
    rewrite (eq_str_false v "class") by (apply Hv; simpl; auto).
    rewrite (eq_str_false v "er") by (apply Hv; simpl; auto 10).
    rewrite (eq_str_false v "state") by (apply Hv; simpl; auto 10).
    now destruct (eq_str v "flowchart").
  - intros Hd. now rewrite process_valid by (reflexivity || exact Hd).
Qed.

Lemma diagram_routing_witness :
  well_typed_constraints (PDict [("diagram", PStr "er")])
  /\ ((forall k g,
        In (k, g) diagram_generators ->
        requested_diagram (PDict [("diagram", PStr "er")]) = Some (PStr k) ->
        _generate_diagram (__init__ ["ws"]) "Test prompt" "TestComponent" "overview"
          (PDict [("diagram", PStr "er")]) "TestUser"
        = g (__init__ ["ws"]) "Test prompt" "TestComponent" "overview"
            (PDict [("diagram", PStr "er")]) "TestUser")
      /\ ((requested_diagram (PDict [("diagram", PStr "er")]) = None
           \/ exists v, requested_diagram (PDict [("diagram", PStr "er")]) = Some v
                        /\ forall k, In k diagram_types -> v <> PStr k) ->
          _generate_diagram (__init__ ["ws"]) "Test prompt" "TestComponent" "overview"
            (PDict [("diagram", PStr "er")]) "TestUser"
          = _generate_flowchart_diagram (__init__ ["ws"]) "Test prompt"
              "TestComponent" "overview" (PDict [("diagram", PStr "er")]) "TestUser")
      /\ (str_in "overview" depths = true ->
          process (__init__ ["ws"]) "Test prompt" "TestComponent" "diagram"
            "overview" (PDict [("diagram", PStr "er")]) "TestUser"
          = (let* _ := _ensure_directories (__init__ ["ws"]) in
             _generate_diagram (__init__ ["ws"]) "Test prompt" "TestComponent"
               "overview" (PDict [("diagram", PStr "er")]) "TestUser"))).
Proof.
  split; [exact I|].
  apply (diagram_routing (__init__ ["ws"]) "Test prompt" "TestComponent" "overview"
           (PDict [("diagram", PStr "er")]) "TestUser").
  exact I.
Defined.

(** C3. A documentation request returns exactly one diagram file, the one
    into which the flowchart generator wrote its content; a use-case request
    returns exactly one, the one into which the sequence generator wrote
    its content, whatever [constraints] holds; and in a ready workspace both
    requests do return. *)
Theorem composite_diagram_files ws prompt targets depth constraints user_name w :
  str_in depth depths = true ->
  (forall r w',
     process (__init__ ws) prompt targets "doc" depth constraints user_name w
     = (Ok r, w') ->
     let f := path_join (diagrams_of ws)
                ("flowchart_" +:+ strftime (clock w (S (reads w))) +:+ ".mmd") in
     Dict.get "diagramFiles" r = Some (PList [PStr (path_str f)])
     /\ files w' !! f = Some (_create_flowchart_content prompt targets depth))
  /\ (exists seq,
       String.prefix "sequenceDiagram" seq = true
       /\ (forall w0 r0 w0',
            _generate_sequence_diagram (__init__ ws) prompt targets depth constraints
              user_name w0 = (Ok r0, w0') ->
            Dict.get "content" r0 = Some (PStr seq))
       /\ forall r w',
            process (__init__ ws) prompt targets "usecases" depth constraints
              user_name w = (Ok r, w') ->
            let f := path_join (diagrams_of ws)
                       ("sequence_" +:+ strftime (clock w (S (reads w))) +:+ ".mmd") in
            Dict.get "diagramFiles" r = Some (PList [PStr (path_str f)])
            /\ files w' !! f = Some seq)
  /\ (ready ws w ->
      (exists r w',
         process (__init__ ws) prompt targets "doc" depth constraints user_name w
         = (Ok r, w'))
      /\ (exists r w',
           process (__init__ ws) prompt targets "usecases" depth constraints
             user_name w = (Ok r, w'))).
Proof.
  intros Hd. split; [|split].
  - intros r w' Hrun.
    rewrite process_valid in Hrun by (reflexivity || exact Hd).
    apply bind_ok_inv in Hrun as (x & w1 & He & Hrun).
    apply ensure_inv in He as (_ & Hc & Hn).
    apply documentation_inv in Hrun as [-> ->].
    rewrite Hc, Hn. split; [reflexivity|].
    simpl. apply lookup_insert_eq.
  - destruct (usecases_inv (__init__ ws) prompt targets depth constraints user_name)
      as (content & seq & _ & Hkw & Hseq & Hinv).
    exists seq. split; [exact Hkw|]. split.
    + intros w0 r0 w0' Hrun. rewrite Hseq in Hrun.
      now apply emit_inv in Hrun as [-> _].
    + intros r w' Hrun.
      rewrite process_valid in Hrun by (reflexivity || exact Hd).
      apply bind_ok_inv in Hrun as (x & w1 & He & Hrun).
      apply ensure_inv in He as (_ & Hc & Hn).
      apply Hinv in Hrun as [-> ->].
      rewrite Hc, Hn. split; [reflexivity|].
      simpl. rewrite lookup_insert_ne by apply docs_file_ne_diagrams_file.
      apply lookup_insert_eq.
  - intros Hr. apply ensure_ready in Hr as (w1 & He & Hp & _).
    split.
    + rewrite process_valid by (reflexivity || exact Hd).
      rewrite (bind_ok _ _ w tt w1 He). now apply documentation_ok.
    + rewrite process_valid by (reflexivity || exact Hd).
      rewrite (bind_ok _ _ w tt w1 He). now apply usecases_ok.
Qed.

Lemma composite_diagram_files_witness :
  str_in "overview" depths = true
  /\ exists r w',
      process (__init__ ["ws"]) "Document auth" "AuthService" "doc" "overview"
        PNone "Alice" sample_world = (Ok r, w')
      /\ Dict.get "diagramFiles" r
         = Some (PList [PStr "ws/docs/diagrams/flowchart_20250309_070501.mmd"]).
Proof.
  split; [reflexivity|].
  destruct (composite_diagram_files ["ws"] "Document auth" "AuthService" "overview"
              PNone "Alice" sample_world eq_refl) as (Hdoc & _ & Hok).
  destruct (Hok (fresh_ready ["ws"] sample_clock)) as ((r & w' & Hrun) & _).
  exists r, w'. split; [exact Hrun|]. exact (proj1 (Hdoc r w' Hrun)).
Defined.

(** C5. In a ready workspace, a diagram request that names one of the five
    kinds under the [diagram] key returns a result whose [diagram_type] is
    that kind and whose content, which is also the text of the file it
    names, contains the root keyword of the kind. *)
Theorem diagram_kind_result ws prompt targets depth user_name w k kw :
  In (k, kw) root_keywords ->
  str_in depth depths = true ->
  ready ws w ->
  exists r w' content f,
    process (__init__ ws) prompt targets "diagram" depth
      (PDict [("diagram", PStr k)]) user_name w = (Ok r, w')
    /\ Dict.get "diagram_type" r = Some (PStr k)
    /\ Dict.get "content" r = Some (PStr content)
    /\ contains kw content = true
    /\ Dict.get "diagram_file" r = Some (PStr (path_str f))
    /\ files w' !! f = Some content.
Proof.
  intros Hkw Hd Hr.
  assert (Hg : exists g, In (k, g) diagram_generators).
  { simpl in Hkw.
    destruct Hkw as [Hk|[Hk|[Hk|[Hk|[Hk|[]]]]]]; inversion Hk; subst;
      eexists; simpl; auto 10. }
  destruct Hg as (g & Hg).
  destruct (diagram_generator_run ws k g kw prompt targets depth
              (PDict [("diagram", PStr k)]) user_name Hg Hkw)
    as (content & Hprefix & Hinv & Hok).
  apply ensure_ready in Hr as (w1 & He & Hp & _).
  destruct (Hok w1 Hp) as (r & w' & Hrun).
  pose proof (Hinv w1 r w' Hrun) as [Hres Hw'].
  exists r, w', content,
    (path_join (diagrams_of ws)
       ((k +:+ "_") +:+ strftime (clock w1 (reads w1)) +:+ ".mmd")).
  split.
  - rewrite process_valid by (reflexivity || exact Hd).
    rewrite (bind_ok _ _ w tt w1 He).
    change (_generate_diagram (__init__ ws) prompt targets depth
              (PDict [("diagram", PStr k)]) user_name w1 = (Ok r, w')).
    rewrite (generate_diagram_requested (__init__ ws) prompt targets depth
               (PDict [("diagram", PStr k)]) user_name k g I Hg eq_refl).
    exact Hrun.
  - subst r w'. repeat split; try reflexivity.
    + now apply contains_prefix.
    + simpl. apply lookup_insert_eq.
Qed.

Lemma diagram_kind_result_witness :
  In ("state", "stateDiagram-v2") root_keywords
  /\ str_in "overview" depths = true
  /\ ready ["ws"] sample_world
  /\ exists r w' content f,
      process (__init__ ["ws"]) "Test prompt" "TestComponent" "diagram" "overview"
        (PDict [("diagram", PStr "state")]) "TestUser" sample_world = (Ok r, w')
      /\ Dict.get "diagram_type" r = Some (PStr "state")
      /\ Dict.get "content" r = Some (PStr content)
      /\ contains "stateDiagram-v2" content = true
      /\ Dict.get "diagram_file" r = Some (PStr (path_str f))
      /\ files w' !! f = Some content.
Proof.
  split; [simpl; auto 10|]. split; [reflexivity|].
  split; [apply fresh_ready|].
  apply (diagram_kind_result ["ws"] "Test prompt" "TestComponent" "overview"
           "TestUser" sample_world "state" "stateDiagram-v2").
  - simpl; auto 10.
  - reflexivity.
  - apply fresh_ready.
Defined.

(** C8. Two calls of [process] with the same arguments that both return,
    in any two worlds, return the same content; when the clock readings
    they take are the same, they return the same result altogether.  The
    scan of the codebase returns the same empty structure for every target,
    and the documentation content does not depend on what is scanned. *)
Theorem content_is_deterministic self prompt targets artifact_type depth constraints
    user_name w1 w2 r1 r2 w1' w2' :
  process self prompt targets artifact_type depth constraints user_name w1
  = (Ok r1, w1') ->
  process self prompt targets artifact_type depth constraints user_name w2
  = (Ok r2, w2') ->
  (exists content,
     Dict.get "content" r1 = Some (PStr content)
     /\ Dict.get "content" r2 = Some (PStr content))
  /\ (clock w1 (reads w1) = clock w2 (reads w2) ->
      clock w1 (S (reads w1)) = clock w2 (S (reads w2)) ->
      r1 = r2)
  /\ (forall other, _scan_codebase other = _scan_codebase targets)
  /\ (forall scan1 scan2,
        _create_documentation_content prompt targets depth scan1 user_name
        = _create_documentation_content prompt targets depth scan2 user_name).
Proof.
  intros Hrun1 Hrun2.
  destruct (process_ok_inv self prompt targets artifact_type depth constraints
              user_name) as (a & g & Hin & Hinv).
  destruct (artifact_generator_result a g self prompt targets depth constraints
              user_name Hin) as (content & result & Hres).
  apply Hinv in Hrun1 as (v1 & u1 & He1 & Hg1).
  apply Hinv in Hrun2 as (v2 & u2 & He2 & Hg2).
  apply ensure_inv in He1 as (_ & Hc1 & Hn1).
  apply ensure_inv in He2 as (_ & Hc2 & Hn2).
  apply Hres in Hg1 as [Hr1 Hk1]. apply Hres in Hg2 as [Hr2 Hk2].
  rewrite Hc1, Hn1 in Hr1. rewrite Hc2, Hn2 in Hr2.
  split; [now exists content|]. split; [|split; reflexivity].
  intros E0 E1. rewrite Hr1, Hr2. now rewrite E0, E1.
Qed.

Lemma content_is_deterministic_witness :
  exists r1 w1' r2 w2',
    process (__init__ ["ws"]) "Test prompt" "TestComponent" "testcases" "overview"
      PNone "TestUser" sample_world = (Ok r1, w1')
    /\ process (__init__ ["ws"]) "Test prompt" "TestComponent" "testcases" "overview"
         PNone "TestUser" later_world = (Ok r2, w2')
    /\ Dict.get "document" r1 <> Dict.get "document" r2
    /\ Dict.get "content" r1 = Dict.get "content" r2.
Proof.
  assert (H1 : exists r w',
             process (__init__ ["ws"]) "Test prompt" "TestComponent" "testcases"
               "overview" PNone "TestUser" sample_world = (Ok r, w')
             /\ Dict.get "document" r
                = Some (PStr "ws/docs/testcases_20250309_070500.md"))
    by (eexists _, _; split; vm_compute; reflexivity).
  assert (H2 : exists r w',
             process (__init__ ["ws"]) "Test prompt" "TestComponent" "testcases"
               "overview" PNone "TestUser" later_world = (Ok r, w')
             /\ Dict.get "document" r
                = Some (PStr "ws/docs/testcases_20250309_070530.md"))
    by (eexists _, _; split; vm_compute; reflexivity).
  destruct H1 as (r1 & w1' & H1 & D1). destruct H2 as (r2 & w2' & H2 & D2).
  exists r1, w1', r2, w2'. split; [exact H1|]. split; [exact H2|].
  split; [rewrite D1, D2; discriminate|].
  destruct (content_is_deterministic (__init__ ["ws"]) "Test prompt" "TestComponent"
              "testcases" "overview" PNone "TestUser" sample_world later_world
              r1 r2 w1' w2' H1 H2) as ((content & -> & ->) & _).
  reflexivity.
Defined.

(** C6. For a text with an [=] and a context that is a dict, the merged
    parameters exist, and each key holds the value of the last line of the
    text that gives it one, whatever the context says; a key the text
    does not give keeps the value of the context. *)
Theorem text_overrides_context input_data context :
  contains "=" input_data = true ->
  is_dict (context_dict context) ->
  exists params,
    ArchitecturalDocumentationAgent._parse_input input_data context = Ok params
    /\ forall k,
         Dict.get k params
         = match text_value k (text_pairs input_data) with
           | Some v => Some (PStr v)
           | None => Dict.get k (context_dict context)
           end.
Proof.
  intros Heq Hdict. eexists. split; [now apply parse_input_structured|].
  intros k. rewrite get_fold_pairs.
  destruct (text_value k (text_pairs input_data)); [reflexivity|].
  now apply get_context_stage.
Qed.

Lemma text_overrides_context_witness :
  contains "=" "targets = FromText" = true
  /\ is_dict (context_dict (Some [("targets", PStr "FromContext");
                                  ("artifactType", PStr "doc")]))
  /\ exists params,
      ArchitecturalDocumentationAgent._parse_input "targets = FromText"
        (Some [("targets", PStr "FromContext"); ("artifactType", PStr "doc")])
      = Ok params
      /\ Dict.get "targets" params = Some (PStr "FromText")
      /\ Dict.get "artifactType" params = Some (PStr "doc").
Proof.
  assert (Hd : is_dict (context_dict (Some [("targets", PStr "FromContext");
                                            ("artifactType", PStr "doc")]))).
  { unfold is_dict. simpl. apply (bool_decide_unpack _). vm_compute. exact I. }
  split; [reflexivity|]. split; [exact Hd|].
  destruct (text_overrides_context "targets = FromText"
              (Some [("targets", PStr "FromContext"); ("artifactType", PStr "doc")])
              eq_refl Hd) as (params & Hparse & Hget).
  exists params. split; [exact Hparse|].
  split; [exact (Hget "targets")|exact (Hget "artifactType")].
Defined.

(** C7, as the code has it.  The claim is that an absent required field is
    the one the error names.  The three checks run in the order prompt,
    targets, artifactType and treat an empty value like an absent one, so
    the error names the first required field that is absent or empty: with
    the empty text and a context that only gives the artifact type, the
    targets are absent and the error names the prompt, which is present;
    with no prompt and no targets, only the prompt is named. *)
Lemma absent_field_not_named :
  (exists params envelope msg,
     ArchitecturalDocumentationAgent._parse_input ""
       (Some [("artifactType", PStr "doc")]) = Ok params
     /\ Dict.get "targets" params = None
     /\ Dict.get "prompt" params = Some (PStr "")
     /\ ArchitecturalDocumentationAgent.process sample_agent ""
          (Some [("artifactType", PStr "doc")]) sample_world
        = (Ok envelope, sample_world)
     /\ Dict.get "success" envelope = Some (PBool false)
     /\ Dict.get "error" envelope = Some (PStr msg)
     /\ contains "targets" msg = false)
  /\ (exists params envelope msg,
       ArchitecturalDocumentationAgent._parse_input "depth=overview"
         (Some [("artifactType", PStr "doc")]) = Ok params
       /\ Dict.get "targets" params = None
       /\ ArchitecturalDocumentationAgent.process sample_agent "depth=overview"
            (Some [("artifactType", PStr "doc")]) sample_world
          = (Ok envelope, sample_world)
       /\ Dict.get "success" envelope = Some (PBool false)
       /\ Dict.get "error" envelope = Some (PStr msg)
       /\ contains "targets" msg = false).
Proof.
  split.
  - eexists _, _, _. split; [reflexivity|]. split; [reflexivity|].
    split; [reflexivity|]. split; [reflexivity|]. split; [reflexivity|].
    split; reflexivity.
  - eexists _, _, _. split; [reflexivity|]. split; [reflexivity|].
    split; [reflexivity|]. split; [reflexivity|]. split; reflexivity.
Qed.

(** C7, amended.  When a required field is absent from the merged
    parameters, or empty, the adapter returns the failure envelope, in the
    world it was given, and the error names the first of prompt, targets,
    artifactType that is absent or empty: the field itself when no other
    required field is. *)
Theorem missing_field_envelope self input_data context w params field :
  ArchitecturalDocumentationAgent._parse_input input_data context = Ok params ->
  In field required_fields ->
  missing params field = true ->
  exists first,
    first_missing params = Some first
    /\ In first required_fields
    /\ missing params first = true
    /\ ArchitecturalDocumentationAgent.process self input_data context w
       = (Ok (failure_envelope self (required_message first)), w)
    /\ Dict.get "success" (failure_envelope self (required_message first))
       = Some (PBool false)
    /\ contains first (required_message first) = true
    /\ ((forall f, In f required_fields -> f <> field -> missing params f = false) ->
        first = field).
Proof.
  intros Hparse Hin Hmiss.
  destruct (first_missing_some params field Hin Hmiss) as (first & Hfirst).
  exists first. split; [exact Hfirst|].
  pose proof Hfirst as Hfind. unfold first_missing in Hfind.
  apply find_some in Hfind as [Hin1 Hm1].
  split; [exact Hin1|]. split; [exact Hm1|].
  split; [now apply (process_missing self input_data context w params)|].
  split; [reflexivity|].
  split.
  - unfold required_message. apply contains_app_r, contains_here.
  - intros Hothers. destruct (String.eqb first field) eqn:E.
    + now apply String.eqb_eq in E.
    + rewrite (Hothers first Hin1) in Hm1; [discriminate Hm1|].
      intros ->. now rewrite String.eqb_refl in E.
Qed.

Lemma missing_field_envelope_witness :
  ArchitecturalDocumentationAgent._parse_input "Test input"
    (Some [("prompt", PStr "Test prompt")])
  = Ok [("prompt", PStr "Test prompt")]
  /\ In "targets" required_fields
  /\ missing [("prompt", PStr "Test prompt")] "targets" = true
  /\ ArchitecturalDocumentationAgent.process sample_agent "Test input"
       (Some [("prompt", PStr "Test prompt")]) sample_world
     = (Ok (failure_envelope sample_agent (required_message "targets")),
        sample_world).
Proof.
  split; [reflexivity|]. split; [simpl; auto|]. split; [reflexivity|].
  destruct (missing_field_envelope sample_agent "Test input"
              (Some [("prompt", PStr "Test prompt")]) sample_world
              [("prompt", PStr "Test prompt")] "targets" eq_refl
              (or_intror (or_introl eq_refl)) eq_refl)
    as (first & Hfirst & _ & _ & Hrun & _).
  injection Hfirst as <-. exact Hrun.
Defined.

(** C10, a text the claim fails on.  The claim is that a free text with an
    [=] in it and no prompt in the context ends in the missing-prompt
    failure and generates nothing.  A question that quotes the line
    [prompt = build_prompt(x)] has an [=], the context gives no prompt, and
    the request succeeds: the quoted line is read as the prompt and a
    document about it is written. *)
Lemma prompt_line_generates :
  contains "=" quoted_code = true
  /\ Dict.get "prompt"
       (context_dict (Some [("targets", PStr "AuthService");
                            ("artifactType", PStr "doc")])) = None
  /\ exists envelope w' r f content,
      ArchitecturalDocumentationAgent.process sample_agent quoted_code
        (Some [("targets", PStr "AuthService"); ("artifactType", PStr "doc")])
        sample_world = (Ok envelope, w')
      /\ envelope <> failure_envelope sample_agent (required_message "prompt")
      /\ Dict.get "success" envelope = Some (PBool true)
      /\ Dict.get "result" envelope = Some (PDict r)
      /\ Dict.get "document" r = Some (PStr (path_str f))
      /\ files w' !! f = Some content
      /\ contains "build_prompt(x)" content = true.
Proof.
  split; [vm_compute; reflexivity|]. split; [reflexivity|].
  assert (H : exists envelope w' r f content,
             ArchitecturalDocumentationAgent.process sample_agent quoted_code
               (Some [("targets", PStr "AuthService"); ("artifactType", PStr "doc")])
               sample_world = (Ok envelope, w')
             /\ Dict.get "success" envelope = Some (PBool true)
             /\ Dict.get "result" envelope = Some (PDict r)
             /\ Dict.get "document" r = Some (PStr (path_str f))
             /\ files w' !! f = Some content
             /\ contains "build_prompt(x)" content = true).
  { eexists _, _, _, (path_join (docs_of ["ws"]) _), _.
    split; [vm_compute; reflexivity|].
    split; [vm_compute; reflexivity|].
    split; [vm_compute; reflexivity|].
    split; [vm_compute; reflexivity|].
    split; vm_compute; reflexivity. }
  destruct H as (envelope & w' & r & f & content & Hrun & Hok & Hres & Hdoc & Hfile & Hin).
  exists envelope, w', r, f, content.
  split; [exact Hrun|]. split; [|auto].
  intros Heq. rewrite Heq in Hok. discriminate Hok.
Qed.

(** C10, as the code has it.  When the text has an [=] and the context
    gives no prompt, the text itself is never the prompt: every line with
    an [=] is cut at its first [=] and stored in the merged parameters,
    and the last line that gives a key gives its value.  So the prompt is
    what the last [prompt = ...] line gives.  When no line gives a prompt,
    or the last one that does gives an empty value, the request ends in the
    missing-prompt failure envelope, in the world it was given.  When it
    gives a value that is not empty, that value is the prompt: the check of
    the prompt passes, and once targets and artifactType are there too the
    dispatcher is called with it and its outcome is wrapped. *)
Theorem structured_text_is_not_the_prompt self input_data context w :
  contains "=" input_data = true ->
  Dict.get "prompt" (context_dict context) = None ->
  exists params,
    ArchitecturalDocumentationAgent._parse_input input_data context = Ok params
    /\ Dict.get "prompt" params <> Some (PStr input_data)
    /\ (forall line,
          In line (split nl input_data) -> contains "=" line = true ->
          exists key value stored line',
            gives line key value
            /\ Dict.get key params = Some (PStr stored)
            /\ In line' (split nl input_data)
            /\ gives line' key stored)
    /\ (forall key before line after value,
          split nl input_data = before ++ line :: after ->
          gives line key value ->
          (forall l v, In l after -> ~ gives l key v) ->
          Dict.get key params = Some (PStr value))
    /\ ((forall line value,
           In line (split nl input_data) -> ~ gives line "prompt" value) ->
        Dict.get "prompt" params = None
        /\ ArchitecturalDocumentationAgent.process self input_data context w
           = (Ok (failure_envelope self (required_message "prompt")), w))
    /\ (forall before line after value,
          split nl input_data = before ++ line :: after ->
          gives line "prompt" value ->
          (forall l v, In l after -> ~ gives l "prompt" v) ->
          Dict.get "prompt" params = Some (PStr value)
          /\ (value = EmptyString ->
              ArchitecturalDocumentationAgent.process self input_data context w
              = (Ok (failure_envelope self (required_message "prompt")), w))
          /\ (value <> EmptyString ->
              missing params "prompt" = false
              /\ forall cm,
                   ArchitecturalDocumentationAgent.chatmode self = Some cm ->
                   missing params "targets" = false ->
                   missing params "artifactType" = false ->
                   dispatch cm params
                   = process cm value
                       (py_str (get_default "targets" PNone params))
                       (py_str (get_default "artifactType" PNone params))
                       (py_str (get_default "depth" (PStr "overview") params))
                       (get_default "constraints" PNone params)
                       (py_str (get_default "user_name" (PStr "User") params))
                   /\ ArchitecturalDocumentationAgent.process self input_data
                        context w
                      = match dispatch cm params w with
                        | (Ok r, w') => (Ok (success_envelope self params r), w')
                        | (Raise e, w') =>
                            (Ok (failure_envelope self (exn_str e)), w')
                        end)).
Proof.
  intros Heq Hctx.
  pose proof (parse_input_structured input_data context Heq) as Hparse.
  match type of Hparse with _ = Ok ?p => set (params := p) in * end.
  assert (Hget : forall k,
            Dict.get k params
            = match text_value k (text_pairs input_data) with
              | Some v => Some (PStr v)
              | None =>
                  Dict.get k
                    (match context with
                     | Some c => if truthy (PDict c) then Dict.update [] c else []
                     | None => []
                     end)
              end).
  { intros k. subst params. apply get_fold_pairs. }
  assert (Hprompt :
    Dict.get "prompt" params
    = match text_value "prompt" (text_pairs input_data) with
      | Some v => Some (PStr v)
      | None => None
      end).
  { rewrite Hget.
    destruct (text_value "prompt" (text_pairs input_data)); [reflexivity|].
    destruct context as [c|]; [|reflexivity]. simpl in Hctx.
    destruct (truthy (PDict c)); [|reflexivity].
    now rewrite get_update_none by exact Hctx. }
  assert (Hfail : forall v,
            Dict.get "prompt" params = v ->
            (v = None \/ v = Some (PStr EmptyString)) ->
            ArchitecturalDocumentationAgent.process self input_data context w
            = (Ok (failure_envelope self (required_message "prompt")), w)).
  { intros v Hv Hcase.
    apply (process_missing self input_data context w params "prompt" Hparse).
    unfold first_missing, required_fields, missing, get_default. cbn [find].
    rewrite Hv. now destruct Hcase as [->| ->]. }
  exists params. split; [exact Hparse|]. split; [|split; [|split; [|split]]].
  - rewrite Hprompt.
    destruct (text_value "prompt" (text_pairs input_data)) as [v|] eqn:Hv;
      [|discriminate].
    apply text_value_shorter in Hv. intros Hsame.
    injection Hsame as ->. lia.
  - intros line Hline Hhas.
    assert (Hkv : exists key value, kv_of line = Some (key, value)).
    { unfold kv_of. rewrite contains_strip by reflexivity. rewrite Hhas.
      assert (Hs : contains "=" (strip line) = true)
        by now rewrite contains_strip.
      destruct (split1_contains "="%char (strip line) Hs) as (k & v & -> & _).
      eauto. }
    destruct Hkv as (key & value & Hkv).
    assert (Hin : In (key, value) (text_pairs input_data)).
    { apply text_pairs_gives. exists line. split; [exact Hline|].
      now apply kv_of_gives. }
    destruct (text_value_present key (text_pairs input_data)
                (ex_intro _ value Hin)) as (stored & Hstored).
    pose proof (text_value_in _ _ _ Hstored) as Hin'.
    apply text_pairs_gives in Hin' as (line' & Hline' & Hg').
    exists key, value, stored, line'.
    split; [now apply kv_of_gives|]. split; [|split; assumption].
    now rewrite Hget, Hstored.
  - intros key before line after value Hsplit Hg Hno.
    now rewrite Hget, (text_value_last_line input_data key value before line after
                         Hsplit Hg Hno).
  - intros Hno.
    assert (Hnone : text_value "prompt" (text_pairs input_data) = None).
    { apply text_value_absent. intros v Hin.
      apply text_pairs_gives in Hin as (line & Hline & Hg).
      exact (Hno line v Hline Hg). }
    rewrite Hnone in Hprompt. split; [exact Hprompt|].
    apply (Hfail None Hprompt). now left.
  - intros before line after value Hsplit Hg Hno.
    rewrite (text_value_last_line input_data "prompt" value before line after
               Hsplit Hg Hno) in Hprompt.
    split; [exact Hprompt|]. split.
    + intros ->. apply (Hfail _ Hprompt). now right.
    + intros Hvalue.
      assert (Hm : missing params "prompt" = false).
      { unfold missing, get_default. rewrite Hprompt. cbn [truthy].
        destruct (String.eqb value EmptyString) eqn:E; [|reflexivity].
        apply String.eqb_eq in E. contradiction. }
      split; [exact Hm|].
      intros cm Hcm Ht Ha. split.
      * unfold dispatch. unfold get_default at 1. now rewrite Hprompt.
      * apply process_dispatch; [exact Hparse| |exact Hcm].
        unfold first_missing, required_fields. cbn [find].
        now rewrite Hm, Ht, Ha.
Qed.

Lemma structured_text_is_not_the_prompt_witness :
  contains "=" "Why is latency = 2x after the deploy?" = true
  /\ Dict.get "prompt"
       (context_dict (Some [("targets", PStr "Gateway"); ("artifactType", PStr "doc")]))
     = None
  /\ ArchitecturalDocumentationAgent.process sample_agent
       "Why is latency = 2x after the deploy?"
       (Some [("targets", PStr "Gateway"); ("artifactType", PStr "doc")])
       sample_world
     = (Ok (failure_envelope sample_agent (required_message "prompt")), sample_world).
Proof.
  split; [reflexivity|]. split; [reflexivity|].
  destruct (structured_text_is_not_the_prompt sample_agent
              "Why is latency = 2x after the deploy?"
              (Some [("targets", PStr "Gateway"); ("artifactType", PStr "doc")])
              sample_world eq_refl eq_refl)
    as (params & _ & _ & _ & _ & Hnone & _).
  apply Hnone. intros line value Hin Hg.
  apply kv_of_gives in Hg.
  simpl in Hin. destruct Hin as [<-|[]].
  vm_compute in Hg. discriminate Hg.
Defined.

(** * Further properties *)

Import HighLevelArchitectChatMode.

(** ** The output folders *)

Section FolderFacts.

Lemma mkdir_ok_in (p : path) (w w' : World) (u : unit) :
  mkdir_exist_ok p w = (Ok u, w') ->
  p ∈ dirs w' /\ dirs w ⊆ dirs w' /\ files w' = files w.
Proof.
  unfold mkdir_exist_ok. intros Hrun.
  repeat case_bool_decide; inversion Hrun; subst; clear Hrun.
  - auto.
  - unfold add_dir; simpl. split; [|split; [|reflexivity]].
    + apply elem_of_union. left. now apply elem_of_singleton.
    + intros q Hq. apply elem_of_union. now right.
Qed.

Lemma mkdir_again (p : path) (w : World) :
  p ∈ dirs w -> mkdir_exist_ok p w = (Ok tt, w).
Proof.
  intros Hin. unfold mkdir_exist_ok. now rewrite bool_decide_eq_true_2 by exact Hin.
Qed.

End FolderFacts.

(** X1. Preparing the folders is idempotent: once [_ensure_directories] has
    succeeded, both folders are directories, no file was touched, and
    running it again succeeds and changes nothing. *)
Theorem ensure_directories_idempotent self w w1 :
  _ensure_directories self w = (Ok tt, w1) ->
  docs_folder self ∈ dirs w1
  /\ diagrams_folder self ∈ dirs w1
  /\ files w1 = files w
  /\ _ensure_directories self w1 = (Ok tt, w1).
Proof.
  unfold _ensure_directories. intros Hrun.
  apply bind_ok_inv in Hrun as (x & w0 & H0 & H1).
  apply mkdir_ok_in in H0 as (Hin0 & Hsub0 & Hf0).
  apply mkdir_ok_in in H1 as (Hin1 & Hsub1 & Hf1).
  assert (Hdocs : docs_folder self ∈ dirs w1) by now apply Hsub1.
  split; [exact Hdocs|]. split; [exact Hin1|].
  split; [now rewrite Hf1|].
  rewrite (bind_ok _ _ w1 tt w1) by now apply mkdir_again.
  now apply mkdir_again.
Qed.

Lemma ensure_directories_idempotent_witness :
  exists w1,
    _ensure_directories (__init__ ["ws"]) sample_world = (Ok tt, w1)
    /\ ["ws"; "docs"] ∈ dirs w1
    /\ ["ws"; "docs"; "diagrams"] ∈ dirs w1
    /\ _ensure_directories (__init__ ["ws"]) w1 = (Ok tt, w1).
Proof.
  destruct (ensure_ready ["ws"] sample_world (fresh_ready ["ws"] sample_clock))
    as (w1 & Hrun & _).
  exists w1. split; [exact Hrun|].
  destruct (ensure_directories_idempotent (__init__ ["ws"]) sample_world w1 Hrun)
    as (Hdocs & Hdia & _ & Hagain).
  split; [exact Hdocs|]. split; [exact Hdia|exact Hagain].
Defined.



(** ** Keeping to the output folders *)

Section ConfinedFacts.

Variable ws : path.

Lemma confined_refl w : confined ws w w.
Proof. unfold confined. repeat split; auto. Qed.

Lemma confined_trans w1 w2 w3 :
  confined ws w1 w2 -> confined ws w2 w3 -> confined ws w1 w3.
Proof.
  intros (Hs1 & Hn1 & Hf1 & Hk1 & Hc1 & Hr1) (Hs2 & Hn2 & Hf2 & Hk2 & Hc2 & Hr2).
  unfold confined. repeat split.
  - intros p Hp. now apply Hs2, Hs1.
  - intros p Hp. apply Hn2 in Hp as [Hp|Hp]; [now apply Hn1|now right].
  - intros p H1 H2. rewrite Hf2 by assumption. now apply Hf1.
  - intros p Hp. now apply Hk2, Hk1.
  - now rewrite Hc2.
  - lia.
Qed.

Lemma keeps_ret {A} (a : A) : keeps_to ws (ret a).
Proof. intros w x w' H. inversion H. apply confined_refl. Qed.

Lemma keeps_raise {A} (e : exn) : keeps_to ws (@raise A e).
Proof. intros w x w' H. inversion H. apply confined_refl. Qed.

Lemma keeps_bind {A B} (m : M A) (k : A -> M B) :
  keeps_to ws m -> (forall a, keeps_to ws (k a)) -> keeps_to ws (bind m k).
Proof.
  intros Hm Hk w x w' Hrun. unfold bind in Hrun.
  destruct (m w) as [[a|e] w1] eqn:E.
  - apply (confined_trans w w1 w'); [now apply (Hm w (Ok a))|].
    now apply (Hk a w1 x).
  - inversion Hrun; subst. now apply (Hm w (Raise e)).
Qed.

Lemma keeps_now : keeps_to ws datetime_now.
Proof.
  intros w x w' H. inversion H; subst. unfold confined, tick; simpl.
  repeat split; auto.
Qed.

Lemma keeps_subscript d k : keeps_to ws (subscript d k).
Proof.
  unfold subscript. destruct (Dict.get k d); [apply keeps_ret|apply keeps_raise].
Qed.

Lemma keeps_mkdir p :
  p = docs_of ws \/ p = diagrams_of ws -> keeps_to ws (mkdir_exist_ok p).
Proof.
  intros Hp w x w' Hrun. unfold mkdir_exist_ok in Hrun.
  repeat case_bool_decide; inversion Hrun; subst x w'; try apply confined_refl.
  unfold confined, add_dir; simpl. repeat split; auto.
  - intros q Hq. apply elem_of_union. now right.
  - intros q [Hq|Hq]%elem_of_union; [|now left].
    apply elem_of_singleton in Hq. subst q. now right.
Qed.

Lemma keeps_write f text :
  path_parent f = docs_of ws \/ path_parent f = diagrams_of ws ->
  keeps_to ws (write_text f text).
Proof.
  intros Hf w x w' Hrun. unfold write_text in Hrun.
  repeat case_bool_decide; inversion Hrun; subst x w'; try apply confined_refl.
  unfold confined, put_file; simpl. repeat split; auto.
  - intros p H1 H2. apply lookup_insert_ne. intros ->. tauto.
  - intros p Hp. destruct (decide (f = p)) as [->|Hne].
    + rewrite lookup_insert_eq. eauto.
    + now rewrite lookup_insert_ne by exact Hne.
Qed.

Lemma keeps_emit folder stem ext content res :
  folder = docs_of ws \/ folder = diagrams_of ws ->
  keeps_to ws (emit folder stem ext content res).
Proof.
  intros Hf. unfold emit. apply keeps_bind; [apply keeps_now|]. intros now.
  apply keeps_bind; [|intros; apply keeps_ret].
  apply keeps_write. now rewrite path_parent_join.
Qed.

Lemma keeps_ensure : keeps_to ws (_ensure_directories (__init__ ws)).
Proof.
  unfold _ensure_directories. apply keeps_bind.
  - apply keeps_mkdir. now left.
  - intros _. apply keeps_mkdir. now right.
Qed.

Lemma keeps_diagram_generator k g prompt targets depth constraints user_name :
  In (k, g) diagram_generators ->
  keeps_to ws (g (__init__ ws) prompt targets depth constraints user_name).
Proof.
  intros Hg. simpl in Hg.
  destruct Hg as [Hg|[Hg|[Hg|[Hg|[Hg|[]]]]]]; inversion Hg; subst k g; clear Hg.
  - destruct (sequence_shape (__init__ ws) prompt targets depth constraints user_name)
      as (content & -> & _). apply keeps_emit. now right.
  - rewrite flowchart_shape. apply keeps_emit. now right.
  - destruct (class_shape (__init__ ws) prompt targets depth constraints user_name)
      as (content & -> & _). apply keeps_emit. now right.
  - destruct (er_shape (__init__ ws) prompt targets depth constraints user_name)
      as (content & -> & _). apply keeps_emit. now right.
  - destruct (state_shape (__init__ ws) prompt targets depth constraints user_name)
      as (content & -> & _). apply keeps_emit. now right.
Qed.

Lemma keeps_has_diagram_key constraints : keeps_to ws (has_diagram_key constraints).
Proof.
  unfold has_diagram_key. destruct (truthy constraints); [|apply keeps_ret].
  destruct constraints; first [apply keeps_ret|apply keeps_raise].
Qed.

Lemma keeps_diagram_of constraints : keeps_to ws (diagram_of constraints).
Proof.
  unfold diagram_of.
  destruct constraints; first [apply keeps_subscript|apply keeps_raise].
Qed.

Lemma keeps_generate_diagram prompt targets depth constraints user_name :
  keeps_to ws (_generate_diagram (__init__ ws) prompt targets depth constraints
                 user_name).
Proof.
  unfold _generate_diagram.
  apply keeps_bind; [apply keeps_has_diagram_key|]. intros has_key.
  apply keeps_bind.
  { destruct has_key; [apply keeps_diagram_of|apply keeps_ret]. }
  intros ty.
  repeat match goal with
    | |- keeps_to _ (if ?b then _ else _) => destruct b
    end;
    (eapply keeps_diagram_generator; simpl; auto 10).
Qed.

Lemma keeps_artifact_generator a g prompt targets depth constraints user_name :
  In (a, g) artifact_generators ->
  keeps_to ws (g (__init__ ws) prompt targets depth constraints user_name).
Proof.
  intros Hg. simpl in Hg.
  destruct Hg as [Hg|[Hg|[Hg|[Hg|[Hg|[]]]]]]; inversion Hg; subst a g; clear Hg.
  - unfold _generate_documentation.
    apply keeps_bind; [apply keeps_now|]. intros now.
    apply keeps_bind.
    { apply keeps_write. left. apply path_parent_join. }
    intros _. apply keeps_bind.
    { eapply keeps_diagram_generator. simpl; auto. }
    intros dr. apply keeps_bind; [|intros; apply keeps_ret].
    destruct (truthy (PDict dr)); [|apply keeps_ret].
    apply keeps_bind; [apply keeps_subscript|intros; apply keeps_ret].
  - apply keeps_generate_diagram.
  - destruct (testcases_shape (__init__ ws) prompt targets depth constraints user_name)
      as (content & -> & _). apply keeps_emit. now left.
  - destruct (gapscan_shape (__init__ ws) prompt targets depth constraints user_name)
      as (content & -> & _). apply keeps_emit. now left.
  - destruct (usecases_shape (__init__ ws) prompt targets depth constraints user_name)
      as (content & -> & _).
    apply keeps_bind; [apply keeps_now|]. intros now.
    apply keeps_bind.
    { eapply keeps_diagram_generator. simpl; auto. }
    intros dr. apply keeps_bind.
    { apply keeps_write. left. apply path_parent_join. }
    intros _. apply keeps_bind; [apply keeps_subscript|intros; apply keeps_ret].
Qed.

End ConfinedFacts.

(** X3. Whatever the request and whatever the outcome, returned or raised,
    [process] keeps to its two output folders: it removes no directory and
    no file, the only directories it may add are the two folders, every
    file outside them is as it was, and the clock is only read. *)
Theorem process_keeps_to_output_folders ws prompt targets artifact_type depth
    constraints user_name w outcome w' :
  process (__init__ ws) prompt targets artifact_type depth constraints user_name w
  = (outcome, w') ->
  confined ws w w'.
Proof.
  revert w outcome w'. change (keeps_to ws
    (process (__init__ ws) prompt targets artifact_type depth constraints user_name)).
  unfold process.
  destruct (negb (str_in artifact_type _)); [apply keeps_raise|].
  destruct (negb (str_in depth _)); [apply keeps_raise|].
  apply keeps_bind; [apply keeps_ensure|]. intros _.
  repeat match goal with
    | |- keeps_to _ (if ?b then _ else _) => destruct b
    end;
    first [apply keeps_raise
          |eapply keeps_artifact_generator; simpl; auto 10].
Qed.

Lemma process_keeps_to_output_folders_witness :
  exists r w',
    process (__init__ ["ws"]) "Test prompt" "TestComponent" "gapscan" "overview"
      PNone "TestUser" sample_world = (Ok r, w')
    /\ confined ["ws"] sample_world w'
    /\ ["ws"] ∈ dirs w'.
Proof.
  assert (H : exists r w',
             process (__init__ ["ws"]) "Test prompt" "TestComponent" "gapscan"
               "overview" PNone "TestUser" sample_world = (Ok r, w'))
    by (eexists _, _; vm_compute; reflexivity).
  destruct H as (r & w' & H). exists r, w'. split; [exact H|].
  pose proof (process_keeps_to_output_folders ["ws"] "Test prompt" "TestComponent"
                "gapscan" "overview" PNone "TestUser" sample_world (Ok r) w' H) as Hc.
  split; [exact Hc|].
  destruct Hc as (Hsub & _). apply (Hsub ["ws"]).
  unfold sample_world, fresh_world; simpl. now apply elem_of_singleton.
Defined.

(** ** The file of an artifact *)

Section FileFacts.

Lemma prefix_nonempty kw content :
  String.prefix kw content = true -> kw <> EmptyString -> content <> EmptyString.
Proof. intros H Hkw ->. destruct kw; [congruence|discriminate H]. Qed.

Lemma documentation_keyword prompt targets depth scan_result user_name :
  String.prefix "# Architecture Documentation for "
    (_create_documentation_content prompt targets depth scan_result user_name) = true.
Proof. unfold _create_documentation_content. apply prefix_app_l. reflexivity. Qed.

Lemma has_diagram_key_pure constraints w b w1 :
  has_diagram_key constraints w = (Ok b, w1) ->
  w1 = w
  /\ (b = false -> selected_kind constraints = "flowchart")
  /\ (b = true ->
      forall ty w2, diagram_of constraints w = (Ok ty, w2) ->
                    w2 = w /\ selected_kind constraints = kind_of_value ty).
Proof.
  assert (Hfalse : forall c w0,
            selected_kind c = "flowchart" ->
            w0 = w0
            /\ (false = false -> selected_kind c = "flowchart")
            /\ (false = true ->
                forall ty w2, diagram_of c w0 = (Ok ty, w2) ->
                              w2 = w0 /\ selected_kind c = kind_of_value ty)).
  { intros c w0 Hc. split; [reflexivity|]. split; [now intros _|].
    intros Hx. discriminate Hx. }
  assert (Htrue : forall c w0,
            (forall ty w2, diagram_of c w0 = (Ok ty, w2) ->
                           w2 = w0 /\ selected_kind c = kind_of_value ty) ->
            w0 = w0
            /\ (true = false -> selected_kind c = "flowchart")
            /\ (true = true ->
                forall ty w2, diagram_of c w0 = (Ok ty, w2) ->
                              w2 = w0 /\ selected_kind c = kind_of_value ty)).
  { intros c w0 Hc. split; [reflexivity|]. split; [intros Hx; discriminate Hx|].
    now intros _. }
  unfold has_diagram_key.
  destruct constraints as [|x|z|s|l|d]; cbn [truthy].
  - intros H. injection H as <- <-. now apply Hfalse.
  - destruct x; intros H; [discriminate H|].
    injection H as <- <-. now apply Hfalse.
  - destruct (negb (Z.eqb z 0)); intros H; [discriminate H|].
    injection H as <- <-. now apply Hfalse.
  - destruct (negb (String.eqb s EmptyString)); intros H; injection H as <- <-.
    + match goal with |- _ /\ (?b = false -> _) /\ _ => destruct b end.
      * apply Htrue. intros ty w2 H2. discriminate H2.
      * now apply Hfalse.
    + now apply Hfalse.
  - destruct l as [|v l]; intros H; injection H as <- <-.
    + now apply Hfalse.
    + match goal with |- _ /\ (?b = false -> _) /\ _ => destruct b end.
      * apply Htrue. intros ty w2 H2. discriminate H2.
      * now apply Hfalse.
  - destruct d as [|kv d]; intros H; injection H as <- <-.
    + now apply Hfalse.
    + unfold Dict.mem.
      destruct (Dict.get "diagram" (kv :: d)) as [v|] eqn:Hget.
      * apply Htrue. intros ty w2 H2.
        unfold diagram_of, subscript in H2. rewrite Hget in H2.
        injection H2 as <- <-. split; [reflexivity|].
        unfold selected_kind, requested_diagram. now rewrite Hget.
      * apply Hfalse. unfold selected_kind, requested_diagram. now rewrite Hget.
Qed.

Lemma kind_chain self prompt targets depth constraints user_name ty w r w' :
  (if eq_str ty "sequence" then
     _generate_sequence_diagram self prompt targets depth constraints user_name
   else if eq_str ty "flowchart" then
     _generate_flowchart_diagram self prompt targets depth constraints user_name
   else if eq_str ty "class" then
     _generate_class_diagram self prompt targets depth constraints user_name
   else if eq_str ty "er" then
     _generate_er_diagram self prompt targets depth constraints user_name
   else if eq_str ty "state" then
     _generate_state_diagram self prompt targets depth constraints user_name
   else
     _generate_flowchart_diagram self prompt targets depth constraints user_name)
    w = (Ok r, w') ->
  exists g,
    In (kind_of_value ty, g) diagram_generators
    /\ g self prompt targets depth constraints user_name w = (Ok r, w').
Proof.
  destruct ty as [| | |k| |]; simpl;
    try (intros H; eexists; split; [|exact H]; simpl; auto 10).
  unfold str_in, diagram_types. cbn [existsb].
  destruct (String.eqb k "sequence") eqn:E1.
  { apply String.eqb_eq in E1. subst k. intros H. eexists. split; [|exact H].
    simpl; auto 10. }
  destruct (String.eqb k "flowchart") eqn:E2.
  { apply String.eqb_eq in E2. subst k. intros H. eexists. split; [|exact H].
    simpl; auto 10. }
  destruct (String.eqb k "class") eqn:E3.
  { apply String.eqb_eq in E3. subst k. intros H. eexists. split; [|exact H].
    simpl; auto 10. }
  destruct (String.eqb k "er") eqn:E4.
  { apply String.eqb_eq in E4. subst k. intros H. eexists. split; [|exact H].
    simpl; auto 10. }
  destruct (String.eqb k "state") eqn:E5.
  { apply String.eqb_eq in E5. subst k. intros H. eexists. split; [|exact H].
    simpl; auto 10. }
  intros H. eexists. split; [|exact H]. simpl; auto 10.
Qed.

(** A diagram request that returns ran the generator of the selected
    kind. *)
Lemma generate_diagram_kind self prompt targets depth constraints user_name w r w' :
  _generate_diagram self prompt targets depth constraints user_name w = (Ok r, w') ->
  exists g,
    In (selected_kind constraints, g) diagram_generators
    /\ g self prompt targets depth constraints user_name w = (Ok r, w').
Proof.
  unfold _generate_diagram. intros Hrun.
  apply bind_ok_inv in Hrun as (has_key & w1 & Hk & Hrun).
  apply has_diagram_key_pure in Hk as (-> & Hno & Hyes).
  apply bind_ok_inv in Hrun as (ty & w2 & Hty & Hrun).
  destruct has_key.
  - destruct (Hyes eq_refl ty w2 Hty) as (-> & ->).
    now apply kind_chain in Hrun.
  - inversion Hty; subst ty w2. rewrite (Hno eq_refl).
    now apply kind_chain in Hrun.
Qed.

Lemma keyword_of_kind k g :
  In (k, g) diagram_generators ->
  exists kw, In (k, kw) root_keywords /\ kw <> EmptyString.
Proof.
  intros Hg. simpl in Hg.
  destruct Hg as [Hg|[Hg|[Hg|[Hg|[Hg|[]]]]]]; inversion Hg; subst;
    eexists; (split; [simpl; auto 10|discriminate]).
Qed.

(** Every request that returns names its own file, which then holds the
    content that is returned. *)
Lemma output_file ws prompt targets artifact_type depth constraints user_name w r w' :
  process (__init__ ws) prompt targets artifact_type depth constraints user_name w
  = (Ok r, w') ->
  exists content,
    Dict.get (primary_key artifact_type) r
    = Some (PStr (path_str (primary_file ws artifact_type constraints
                              (strftime (clock w (reads w))))))
    /\ Dict.get "content" r = Some (PStr content)
    /\ content <> EmptyString
    /\ files w' !! primary_file ws artifact_type constraints
                     (strftime (clock w (reads w)))
       = Some content.
Proof.
  intros Hrun.
  destruct (str_in artifact_type artifact_types) eqn:Ha; cycle 1.
  { rewrite process_invalid_type in Hrun by exact Ha. discriminate Hrun. }
  destruct (str_in depth depths) eqn:Hd; cycle 1.
  { rewrite process_invalid_depth in Hrun by assumption. discriminate Hrun. }
  rewrite process_valid in Hrun by assumption.
  apply bind_ok_inv in Hrun as (x & w1 & He & Hrun).
  apply ensure_inv in He as (_ & Hc & Hn). rewrite <- Hc, <- Hn.
  apply str_in_true_iff in Ha. simpl in Ha.
  destruct Ha as [<-|[<-|[<-|[<-|[<-|[]]]]]]; cbn [String.eqb Ascii.eqb Bool.eqb] in Hrun.
  - apply documentation_inv in Hrun as [-> ->].
    eexists. split; [reflexivity|]. split; [reflexivity|]. split.
    + eapply prefix_nonempty; [apply documentation_keyword|discriminate].
    + simpl. rewrite lookup_insert_ne
        by (intros E; symmetry in E; now apply docs_file_ne_diagrams_file in E).
      apply lookup_insert_eq.
  - apply generate_diagram_kind in Hrun as (g & Hg & Hrun).
    destruct (keyword_of_kind _ _ Hg) as (kw & Hkw & Hne).
    destruct (diagram_generator_run ws _ g kw prompt targets depth constraints
                user_name Hg Hkw) as (content & Hp & Hinv & _).
    apply Hinv in Hrun as [-> ->].
    exists content. split; [reflexivity|]. split; [reflexivity|]. split.
    + now apply (prefix_nonempty kw).
    + simpl. apply lookup_insert_eq.
  - destruct (testcases_shape (__init__ ws) prompt targets depth constraints user_name)
      as (content & Heq & _ & Hp).
    rewrite Heq in Hrun. apply emit_inv in Hrun as [-> ->].
    exists content. split; [reflexivity|]. split; [reflexivity|]. split.
    + eapply prefix_nonempty; [exact Hp|discriminate].
    + simpl. apply lookup_insert_eq.
  - destruct (gapscan_shape (__init__ ws) prompt targets depth constraints user_name)
      as (content & Heq & _ & Hp).
    rewrite Heq in Hrun. apply emit_inv in Hrun as [-> ->].
    exists content. split; [reflexivity|]. split; [reflexivity|]. split.
    + eapply prefix_nonempty; [exact Hp|discriminate].
    + simpl. apply lookup_insert_eq.
  - destruct (usecases_shape (__init__ ws) prompt targets depth constraints user_name)
      as (content0 & _ & _ & Hp0).
    destruct (usecases_inv (__init__ ws) prompt targets depth constraints user_name)
      as (content & seq & Hfoot & _ & _ & Hinv).
    apply Hinv in Hrun as [-> ->].
    exists content. split; [reflexivity|]. split; [reflexivity|]. split.
    + intros ->. discriminate Hfoot.
    + simpl. apply lookup_insert_eq.
Qed.

End FileFacts.

(** X4. Every request that returns names its own file under [document], or
    under [diagram_file] for a diagram; the file is
    [architecture_doc_{timestamp}.md] or [{artifact_type}_{timestamp}.md]
    in the documents folder, or [{kind}_{timestamp}.mmd] in the diagrams
    folder, for the first reading of the clock; and in the world that is left it holds the content that
    is returned, which is not empty. *)
Theorem result_names_its_file ws prompt targets artifact_type depth constraints
    user_name w r w' :
  process (__init__ ws) prompt targets artifact_type depth constraints user_name w
  = (Ok r, w') ->
  exists content,
    Dict.get (primary_key artifact_type) r
    = Some (PStr (path_str (primary_file ws artifact_type constraints
                              (strftime (clock w (reads w))))))
    /\ Dict.get "content" r = Some (PStr content)
    /\ content <> EmptyString
    /\ files w' !! primary_file ws artifact_type constraints
                     (strftime (clock w (reads w)))
       = Some content.
Proof. apply output_file. Qed.

Lemma result_names_its_file_witness :
  exists r w' content,
    process (__init__ ["ws"]) "Test prompt" "TestComponent" "diagram" "overview"
      (PDict [("diagram", PStr "class")]) "TestUser" sample_world = (Ok r, w')
    /\ Dict.get "diagram_file" r
       = Some (PStr "ws/docs/diagrams/class_20250309_070500.mmd")
    /\ Dict.get "content" r = Some (PStr content)
    /\ files w' !! ["ws"; "docs"; "diagrams"; "class_20250309_070500.mmd"]
       = Some content.
Proof.
  assert (H : exists r w',
             process (__init__ ["ws"]) "Test prompt" "TestComponent" "diagram"
               "overview" (PDict [("diagram", PStr "class")]) "TestUser" sample_world
             = (Ok r, w'))
    by (eexists _, _; vm_compute; reflexivity).
  destruct H as (r & w' & H).
  destruct (result_names_its_file ["ws"] "Test prompt" "TestComponent" "diagram"
              "overview" (PDict [("diagram", PStr "class")]) "TestUser"
              sample_world r w' H) as (content & Hname & Hcontent & _ & Hfile).
  exists r, w', content.
  split; [exact H|]. split; [exact Hname|]. split; [exact Hcontent|exact Hfile].
Defined.

(** X5. File names have the resolution of a second and nothing guards
    against a collision: when a request of the same artifact type and
    constraints follows a request within the same second, both results name
    the same file, and the content of the second request has replaced that
    of the first. *)
Theorem same_second_overwrites ws artifact_type constraints
    prompt1 targets1 depth1 user1 prompt2 targets2 depth2 user2 w r1 w1 r2 w2 :
  process (__init__ ws) prompt1 targets1 artifact_type depth1 constraints user1 w
  = (Ok r1, w1) ->
  process (__init__ ws) prompt2 targets2 artifact_type depth2 constraints user2 w1
  = (Ok r2, w2) ->
  strftime (clock w1 (reads w1)) = strftime (clock w (reads w)) ->
  exists f content1 content2,
    Dict.get (primary_key artifact_type) r1 = Some (PStr (path_str f))
    /\ Dict.get (primary_key artifact_type) r2 = Some (PStr (path_str f))
    /\ Dict.get "content" r1 = Some (PStr content1)
    /\ files w1 !! f = Some content1
    /\ Dict.get "content" r2 = Some (PStr content2)
    /\ files w2 !! f = Some content2.
Proof.
  intros H1 H2 Hstamp.
  apply output_file in H1 as (content1 & Hn1 & Hc1 & _ & Hf1).
  apply output_file in H2 as (content2 & Hn2 & Hc2 & _ & Hf2).
  rewrite Hstamp in Hn2, Hf2.
  eexists _, content1, content2. repeat split; eassumption.
Qed.

Lemma same_second_overwrites_witness :
  exists r1 w1 r2 w2 f content2,
    process (__init__ ["ws"]) "First" "TestComponent" "testcases" "overview" PNone
      "TestUser" frozen_world = (Ok r1, w1)
    /\ process (__init__ ["ws"]) "Second" "TestComponent" "testcases" "overview"
         PNone "TestUser" w1 = (Ok r2, w2)
    /\ strftime (clock w1 (reads w1))
       = strftime (clock frozen_world (reads frozen_world))
    /\ Dict.get "document" r1 = Some (PStr (path_str f))
    /\ Dict.get "document" r2 = Some (PStr (path_str f))
    /\ Dict.get "content" r2 = Some (PStr content2)
    /\ files w2 !! f = Some content2.
Proof.
  assert (H : exists r1 w1 r2 w2,
             process (__init__ ["ws"]) "First" "TestComponent" "testcases"
               "overview" PNone "TestUser" frozen_world = (Ok r1, w1)
             /\ process (__init__ ["ws"]) "Second" "TestComponent" "testcases"
                  "overview" PNone "TestUser" w1 = (Ok r2, w2)
             /\ strftime (clock w1 (reads w1))
                = strftime (clock frozen_world (reads frozen_world)))
    by (eexists _, _, _, _; split; [vm_compute; reflexivity|];
        split; vm_compute; reflexivity).
  destruct H as (r1 & w1 & r2 & w2 & H1 & H2 & Hstamp).
  destruct (same_second_overwrites ["ws"] "testcases" PNone
              "First" "TestComponent" "overview" "TestUser"
              "Second" "TestComponent" "overview" "TestUser"
              frozen_world r1 w1 r2 w2 H1 H2 Hstamp)
    as (f & c1 & c2 & Hn1 & Hn2 & _ & _ & Hc2 & Hf2).
  exists r1, w1, r2, w2, f, c2.
  split; [exact H1|]. split; [exact H2|]. split; [exact Hstamp|].
  split; [exact Hn1|]. split; [exact Hn2|]. split; [exact Hc2|exact Hf2].
Defined.

(** ** What the generators use of a request *)

Section RouteFacts.

(** Constraints the routing cannot tell apart give the same request. *)
Lemma same_route self prompt targets artifact_type depth
    user_name constraints1 constraints2 :
  artifact_type <> "diagram"
  \/ (well_typed_constraints constraints1
      /\ well_typed_constraints constraints2
      /\ requested_diagram constraints1 = requested_diagram constraints2) ->
  process self prompt targets artifact_type depth constraints1 user_name
  = process self prompt targets artifact_type depth constraints2 user_name.
Proof.
  intros H. unfold process.
  destruct (negb (str_in artifact_type _)); [reflexivity|].
  destruct (negb (str_in depth _)); [reflexivity|].
  assert (Hbody :
    (if String.eqb artifact_type "doc" then
       _generate_documentation self prompt targets depth constraints1 user_name
     else if String.eqb artifact_type "diagram" then
       _generate_diagram self prompt targets depth constraints1 user_name
     else if String.eqb artifact_type "testcases" then
       _generate_testcases self prompt targets depth constraints1 user_name
     else if String.eqb artifact_type "gapscan" then
       _generate_gapscan self prompt targets depth constraints1 user_name
     else if String.eqb artifact_type "usecases" then
       _generate_usecases self prompt targets depth constraints1 user_name
     else raise (ValueError ("Unsupported artifact_type: " +:+ artifact_type)))
    = (if String.eqb artifact_type "doc" then
         _generate_documentation self prompt targets depth constraints2 user_name
       else if String.eqb artifact_type "diagram" then
         _generate_diagram self prompt targets depth constraints2 user_name
       else if String.eqb artifact_type "testcases" then
         _generate_testcases self prompt targets depth constraints2 user_name
       else if String.eqb artifact_type "gapscan" then
         _generate_gapscan self prompt targets depth constraints2 user_name
       else if String.eqb artifact_type "usecases" then
         _generate_usecases self prompt targets depth constraints2 user_name
       else raise (ValueError ("Unsupported artifact_type: " +:+ artifact_type)))).
  { destruct (String.eqb artifact_type "doc"); [reflexivity|].
    destruct (String.eqb artifact_type "diagram") eqn:E; cycle 1.
    { destruct (String.eqb artifact_type "testcases"); [reflexivity|].
      destruct (String.eqb artifact_type "gapscan"); [reflexivity|].
      destruct (String.eqb artifact_type "usecases"); reflexivity. }
    apply String.eqb_eq in E.
    destruct H as [Hne|(H1 & H2 & Hreq)]; [contradiction|].
    rewrite (generate_diagram_typed self prompt targets depth constraints1 user_name H1).
    rewrite (generate_diagram_typed self prompt targets depth constraints2 user_name H2).
    rewrite Hreq. cbv zeta.
    repeat match goal with
      | |- (if ?b then _ else _) = _ => destruct b
      end; reflexivity. }
  now rewrite Hbody.
Qed.

End RouteFacts.

(** X6. The [constraints] argument is only used to route a diagram request,
    and only through its [diagram] key: for any other artifact type, and for
    two constraints of the declared type with the same value under
    [diagram], the request does the same with either of them.  The [format]
    and [outputDir] keys have no effect. *)
Theorem constraints_only_route_diagrams self prompt targets artifact_type depth
    user_name constraints1 constraints2 :
  artifact_type <> "diagram"
  \/ (well_typed_constraints constraints1
      /\ well_typed_constraints constraints2
      /\ requested_diagram constraints1 = requested_diagram constraints2) ->
  process self prompt targets artifact_type depth constraints1 user_name
  = process self prompt targets artifact_type depth constraints2 user_name.
Proof. apply same_route. Qed.

Lemma constraints_only_route_diagrams_witness :
  ("diagram" <> "diagram"
   \/ (well_typed_constraints PNone
       /\ well_typed_constraints
            (PDict [("format", PStr "confluence"); ("outputDir", PStr "out")])
       /\ requested_diagram PNone
          = requested_diagram
              (PDict [("format", PStr "confluence"); ("outputDir", PStr "out")])))
  /\ process (__init__ ["ws"]) "Test prompt" "TestComponent" "diagram" "overview"
       PNone "TestUser"
     = process (__init__ ["ws"]) "Test prompt" "TestComponent" "diagram" "overview"
         (PDict [("format", PStr "confluence"); ("outputDir", PStr "out")])
         "TestUser".
Proof.
  assert (H : "diagram" <> "diagram"
              \/ (well_typed_constraints PNone
                  /\ well_typed_constraints
                       (PDict [("format", PStr "confluence");
                               ("outputDir", PStr "out")])
                  /\ requested_diagram PNone
                     = requested_diagram
                         (PDict [("format", PStr "confluence");
                                 ("outputDir", PStr "out")])))
    by (right; split; [exact I|split; [exact I|reflexivity]]).
  split; [exact H|].
  exact (constraints_only_route_diagrams (__init__ ["ws"]) "Test prompt"
           "TestComponent" "diagram" "overview" "TestUser" PNone
           (PDict [("format", PStr "confluence"); ("outputDir", PStr "out")]) H).
Defined.

(** X7. The depth only reaches the documentation: every other artifact type
    does the same for any two depths of the enumeration. *)
Theorem depth_only_reaches_documentation self prompt targets artifact_type
    constraints user_name depth1 depth2 :
  artifact_type <> "doc" ->
  str_in depth1 depths = true ->
  str_in depth2 depths = true ->
  process self prompt targets artifact_type depth1 constraints user_name
  = process self prompt targets artifact_type depth2 constraints user_name.
Proof.
  intros Hne H1 H2. unfold process.
  destruct (negb (str_in artifact_type _)); [reflexivity|].
  unfold depths in H1, H2. rewrite H1, H2. cbn [negb].
  destruct (String.eqb artifact_type "doc") eqn:E.
  { apply String.eqb_eq in E. contradiction. }
  destruct (String.eqb artifact_type "diagram"); [reflexivity|].
  destruct (String.eqb artifact_type "testcases"); [reflexivity|].
  destruct (String.eqb artifact_type "gapscan"); [reflexivity|].
  destruct (String.eqb artifact_type "usecases"); reflexivity.
Qed.

Lemma depth_only_reaches_documentation_witness :
  "usecases" <> "doc"
  /\ str_in "overview" depths = true
  /\ str_in "interface-only" depths = true
  /\ process (__init__ ["ws"]) "Test prompt" "TestComponent" "usecases" "overview"
       PNone "TestUser"
     = process (__init__ ["ws"]) "Test prompt" "TestComponent" "usecases"
         "interface-only" PNone "TestUser".
Proof.
  assert (Hne : "usecases" <> "doc") by discriminate.
  split; [exact Hne|]. split; [reflexivity|]. split; [reflexivity|].
  exact (depth_only_reaches_documentation (__init__ ["ws"]) "Test prompt"
           "TestComponent" "usecases" PNone "TestUser" "overview" "interface-only"
           Hne eq_refl eq_refl).
Defined.

(** ** Verbatim insertion *)

Section MentionFacts.

(** Walk down a template to an inserted value. *)
Ltac find_value :=
  repeat first [apply contains_here | apply contains_app_r].

Lemma documentation_mentions prompt targets depth scan_result user_name :
  contains prompt
    (_create_documentation_content prompt targets depth scan_result user_name) = true
  /\ contains targets
       (_create_documentation_content prompt targets depth scan_result user_name) = true
  /\ contains depth
       (_create_documentation_content prompt targets depth scan_result user_name) = true.
Proof. unfold _create_documentation_content. repeat split; find_value. Qed.

Lemma testcases_mentions self prompt targets depth constraints user_name :
  exists content,
    _generate_testcases self prompt targets depth constraints user_name
    = emit (docs_folder self) "testcases_" ".md" content (document_result [] content)
    /\ contains prompt content = true
    /\ contains targets content = true.
Proof. eexists; split; [reflexivity|]; split; find_value. Qed.

Lemma gapscan_mentions self prompt targets depth constraints user_name :
  exists content,
    _generate_gapscan self prompt targets depth constraints user_name
    = emit (docs_folder self) "gapscan_" ".md" content (document_result [] content)
    /\ contains prompt content = true
    /\ contains targets content = true.
Proof. eexists; split; [reflexivity|]; split; find_value. Qed.

Lemma usecases_mentions self prompt targets depth constraints user_name :
  exists content,
    _generate_usecases self prompt targets depth constraints user_name
    = (let* now := datetime_now in
       let filepath :=
         path_join (docs_folder self) ("usecases_" +:+ strftime now +:+ ".md") in
       let* diagram :=
         _generate_sequence_diagram self prompt targets depth constraints user_name in
       let* _ := write_text filepath content in
       let* diagram_file := subscript diagram "diagram_file" in
       ret (document_result [diagram_file] content filepath))
    /\ contains prompt content = true
    /\ contains targets content = true.
Proof. eexists; split; [reflexivity|]; split; find_value. Qed.

Lemma usecases_content self prompt targets depth constraints user_name content w r w' :
  (let* now := datetime_now in
   let filepath :=
     path_join (docs_folder self) ("usecases_" +:+ strftime now +:+ ".md") in
   let* diagram :=
     _generate_sequence_diagram self prompt targets depth constraints user_name in
   let* _ := write_text filepath content in
   let* diagram_file := subscript diagram "diagram_file" in
   ret (document_result [diagram_file] content filepath)) w = (Ok r, w') ->
  Dict.get "content" r = Some (PStr content).
Proof.
  intros Hrun.
  apply bind_ok_inv in Hrun as (now & w1 & _ & Hrun).
  apply bind_ok_inv in Hrun as (dr & w2 & _ & Hrun).
  apply bind_ok_inv in Hrun as (x & w3 & _ & Hrun).
  apply bind_ok_inv in Hrun as (df & w4 & _ & Hrun).
  inversion Hrun; subst. reflexivity.
Qed.

End MentionFacts.

(** X8. The four documents insert the prompt and the targets as they are,
    with no escaping: whatever the two strings hold, the content that is
    returned contains both of them; the documentation contains the depth as
    well. *)
Theorem documents_insert_verbatim self prompt targets artifact_type depth constraints
    user_name w r w' :
  In artifact_type ["doc"; "testcases"; "gapscan"; "usecases"] ->
  process self prompt targets artifact_type depth constraints user_name w
  = (Ok r, w') ->
  exists content,
    Dict.get "content" r = Some (PStr content)
    /\ contains prompt content = true
    /\ contains targets content = true
    /\ (artifact_type = "doc" -> contains depth content = true).
Proof.
  intros Ha Hrun.
  destruct (str_in depth depths) eqn:Hd; cycle 1.
  { rewrite process_invalid_depth in Hrun; [discriminate Hrun| |exact Hd].
    simpl in Ha. destruct Ha as [<-|[<-|[<-|[<-|[]]]]]; reflexivity. }
  simpl in Ha.
  destruct Ha as [<-|[<-|[<-|[<-|[]]]]];
    rewrite process_valid in Hrun by (reflexivity || exact Hd);
    apply bind_ok_inv in Hrun as (x & w1 & _ & Hrun);
    cbn [String.eqb Ascii.eqb Bool.eqb] in Hrun.
  - apply documentation_inv in Hrun as [-> _].
    destruct (documentation_mentions prompt targets depth (_scan_codebase targets)
                user_name) as (Hp & Ht & Hdepth).
    eexists. split; [reflexivity|]. auto.
  - destruct (testcases_mentions self prompt targets depth constraints user_name)
      as (content & Heq & Hp & Ht).
    rewrite Heq in Hrun. apply emit_inv in Hrun as [-> _].
    exists content. split; [reflexivity|]. split; [exact Hp|].
    split; [exact Ht|discriminate].
  - destruct (gapscan_mentions self prompt targets depth constraints user_name)
      as (content & Heq & Hp & Ht).
    rewrite Heq in Hrun. apply emit_inv in Hrun as [-> _].
    exists content. split; [reflexivity|]. split; [exact Hp|].
    split; [exact Ht|discriminate].
  - destruct (usecases_mentions self prompt targets depth constraints user_name)
      as (content & Heq & Hp & Ht).
    rewrite Heq in Hrun. apply usecases_content in Hrun.
    exists content. split; [exact Hrun|]. split; [exact Hp|].
    split; [exact Ht|discriminate].
Qed.

Lemma documents_insert_verbatim_witness :
  In "doc" ["doc"; "testcases"; "gapscan"; "usecases"]
  /\ exists r w' content,
      process (__init__ ["ws"]) "Document auth" "AuthService" "doc" "overview" PNone
        "Alice" sample_world = (Ok r, w')
      /\ Dict.get "content" r = Some (PStr content)
      /\ contains "AuthService" content = true.
Proof.
  assert (Hin : In "doc" ["doc"; "testcases"; "gapscan"; "usecases"])
    by (left; reflexivity).
  split; [exact Hin|].
  assert (H : exists r w',
             process (__init__ ["ws"]) "Document auth" "AuthService" "doc"
               "overview" PNone "Alice" sample_world = (Ok r, w')).
  { destruct (ensure_ready ["ws"] sample_world (fresh_ready ["ws"] sample_clock))
      as (v & He & Hp & _).
    rewrite process_valid by reflexivity.
    rewrite (bind_ok _ _ sample_world tt v He).
    now apply documentation_ok. }
  destruct H as (r & w' & H).
  destruct (documents_insert_verbatim (__init__ ["ws"]) "Document auth" "AuthService"
              "doc" "overview" PNone "Alice" sample_world r w' Hin H)
    as (content & Hc & _ & Ht & _).
  exists r, w', content. split; [exact H|]. split; [exact Hc|exact Ht].
Defined.

(** X9. Three of the diagram skeletons leave part of the request out: for a
    [constraints] of the declared type, an entity-relationship diagram is
    the same for every prompt and every targets, a class diagram for every
    prompt, and a state diagram for every targets. *)
Theorem diagram_skeletons_ignore_inputs self depth constraints user_name
    prompt1 targets1 prompt2 targets2 :
  well_typed_constraints constraints ->
  (requested_diagram constraints = Some (PStr "er") ->
   process self prompt1 targets1 "diagram" depth constraints user_name
   = process self prompt2 targets2 "diagram" depth constraints user_name)
  /\ (requested_diagram constraints = Some (PStr "class") ->
      process self prompt1 targets1 "diagram" depth constraints user_name
      = process self prompt2 targets1 "diagram" depth constraints user_name)
  /\ (requested_diagram constraints = Some (PStr "state") ->
      process self prompt1 targets1 "diagram" depth constraints user_name
      = process self prompt1 targets2 "diagram" depth constraints user_name).
Proof.
  intros Hty.
  assert (Hstep : forall p1 t1 p2 t2,
            _generate_diagram self p1 t1 depth constraints user_name
            = _generate_diagram self p2 t2 depth constraints user_name ->
            process self p1 t1 "diagram" depth constraints user_name
            = process self p2 t2 "diagram" depth constraints user_name).
  { intros p1 t1 p2 t2 Hgen. unfold process.
    destruct (negb (str_in "diagram" _)); [reflexivity|].
    destruct (negb (str_in depth _)); [reflexivity|].
    cbn [String.eqb Ascii.eqb Bool.eqb]. now rewrite Hgen. }
  split; [|split]; intros Hreq; apply Hstep;
    rewrite !generate_diagram_typed by exact Hty; rewrite Hreq; reflexivity.
Qed.

Lemma diagram_skeletons_ignore_inputs_witness :
  well_typed_constraints (PDict [("diagram", PStr "er")])
  /\ process (__init__ ["ws"]) "Orders" "Shop" "diagram" "overview"
       (PDict [("diagram", PStr "er")]) "TestUser"
     = process (__init__ ["ws"]) "Invoices" "Ledger" "diagram" "overview"
         (PDict [("diagram", PStr "er")]) "TestUser".
Proof.
  split; [exact I|].
  destruct (diagram_skeletons_ignore_inputs (__init__ ["ws"]) "overview"
              (PDict [("diagram", PStr "er")]) "TestUser"
              "Orders" "Shop" "Invoices" "Ledger" I) as (Her & _).
  exact (Her eq_refl).
Defined.

(** ** The outcomes of the adapter *)

(** X10. The adapter never raises, and its envelope tells what happened:
    a missing required parameter or an agent that was not initialized gives a
    failure envelope in the world as it was; otherwise the dispatcher is
    called once with the merged parameters, its result is wrapped in the
    success envelope with the metadata of the request, and what it raises
    is turned into a failure envelope with the text of the exception. *)
Theorem adapter_outcomes self input_data context w :
  exists params envelope w',
    ArchitecturalDocumentationAgent._parse_input input_data context = Ok params
    /\ ArchitecturalDocumentationAgent.process self input_data context w
       = (Ok envelope, w')
    /\ ((exists field,
           first_missing params = Some field
           /\ envelope = failure_envelope self (required_message field)
           /\ w' = w)
        \/ (first_missing params = None
            /\ ArchitecturalDocumentationAgent.chatmode self = None
            /\ envelope = failure_envelope self no_chatmode_message
            /\ w' = w)
        \/ (exists cm,
              first_missing params = None
              /\ ArchitecturalDocumentationAgent.chatmode self = Some cm
              /\ ((exists r, dispatch cm params w = (Ok r, w')
                             /\ envelope = success_envelope self params r)
                  \/ (exists e, dispatch cm params w = (Raise e, w')
                                /\ envelope = failure_envelope self (exn_str e))))).
Proof.
  destruct (parse_input_total input_data context) as (params & Hparse).
  exists params.
  destruct (first_missing params) as [field|] eqn:Hfirst.
  - exists (failure_envelope self (required_message field)), w.
    split; [exact Hparse|]. split; [now apply process_missing with params|].
    left. now exists field.
  - destruct (ArchitecturalDocumentationAgent.chatmode self) as [cm|] eqn:Hcm.
    + pose proof (process_dispatch self input_data context w params cm
                    Hparse Hfirst Hcm) as Hrun.
      destruct (dispatch cm params w) as [[r|e] w'] eqn:Hd.
      * exists (success_envelope self params r), w'.
        split; [exact Hparse|]. split; [exact Hrun|].
        right. right. exists cm. split; [reflexivity|]. split; [reflexivity|].
        left. now exists r.
      * exists (failure_envelope self (exn_str e)), w'.
        split; [exact Hparse|]. split; [exact Hrun|].
        right. right. exists cm. split; [reflexivity|]. split; [reflexivity|].
        right. now exists e.
    + exists (failure_envelope self no_chatmode_message), w.
      split; [exact Hparse|].
      split; [now apply process_no_chatmode with params|].
      right. left. auto.
Qed.

(** X11. An agent as the factory makes it has no dispatcher until
    [initialize] has run: every call of [process] on it ends in a failure
    envelope, for a missing parameter or for the absent dispatcher, and the
    world is as it was. *)
Theorem uninitialized_agent_generates_nothing agent_id workspace input_data context w :
  exists msg,
    ArchitecturalDocumentationAgent.process
      (create_architectural_documentation_agent agent_id workspace)
      input_data context w
    = (Ok (failure_envelope
             (create_architectural_documentation_agent agent_id workspace) msg), w)
    /\ (msg = no_chatmode_message
        \/ exists field, In field required_fields /\ msg = required_message field).
Proof.
  set (self := create_architectural_documentation_agent agent_id workspace).
  destruct (parse_input_total input_data context) as (params & Hparse).
  destruct (first_missing params) as [field|] eqn:Hfirst.
  - exists (required_message field).
    split; [now apply process_missing with params|].
    right. exists field. split; [|reflexivity]. now apply first_missing_in with params.
  - exists no_chatmode_message.
    split; [|now left]. now apply process_no_chatmode with params.
Qed.

(** ** Free text and key-value lines *)

Section TextFacts.

Import ArchitecturalDocumentationAgent.

Lemma set_absent k v (d : dict) :
  k ∉ map fst d -> Dict.set k v d = d ++ [(k, v)].
Proof.
  induction d as [|[k' v'] d IH]; simpl; intros Hn; [reflexivity|].
  destruct (String.eqb k k') eqn:E.
  - apply String.eqb_eq in E. subst. exfalso. apply Hn. left.
  - f_equal. apply IH. intros Hin. apply Hn. now right.
Qed.

Lemma update_app (c d : dict) :
  NoDup (map fst (d ++ c)) -> Dict.update d c = d ++ c.
Proof.
  unfold Dict.update. revert d.
  induction c as [|[k v] c IH]; intros d Hnd; simpl.
  - now rewrite app_nil_r.
  - assert (Hk : k ∉ map fst d).
    { rewrite map_app in Hnd. simpl in Hnd.
      apply NoDup_app in Hnd as (_ & Hdisj & _).
      intros Hin. apply (Hdisj k Hin). left. }
    rewrite set_absent by exact Hk.
    replace (d ++ (k, v) :: c) with ((d ++ [(k, v)]) ++ c)
      by now rewrite <- app_assoc.
    apply IH. now rewrite <- app_assoc.
Qed.

Lemma update_nil (c : dict) : is_dict c -> Dict.update [] c = c.
Proof. intros Hd. now apply (update_app c []). Qed.

(** The parameters before the text is looked at are the context. *)
Lemma context_stage (c : dict) :
  is_dict c -> (if truthy (PDict c) then Dict.update [] c else []) = c.
Proof.
  intros Hd. destruct c as [|kv c]; [reflexivity|].
  cbn [truthy]. now apply update_nil.
Qed.

Lemma parse_free_text text (c : dict) :
  contains "=" text = false -> is_dict c ->
  _parse_input text (Some c)
  = Ok (if Dict.mem "prompt" c then c else Dict.set "prompt" (PStr text) c).
Proof.
  intros Ht Hd. unfold _parse_input. rewrite Ht, context_stage by exact Hd.
  now destruct (Dict.mem "prompt" c).
Qed.

Lemma set_keys k v (d : dict) k' :
  k' ∈ map fst (Dict.set k v d) -> k' = k \/ k' ∈ map fst d.
Proof.
  induction d as [|[k0 v0] d IH]; simpl; intros Hin.
  - apply list_elem_of_singleton in Hin. now left.
  - destruct (String.eqb k k0) eqn:E; simpl in Hin.
    + apply String.eqb_eq in E. subst k0. now right.
    + apply elem_of_cons in Hin as [->|Hin]; [right; left|].
      destruct (IH Hin) as [->|H]; [now left|right; now right].
Qed.

Lemma set_is_dict k v (d : dict) : is_dict d -> is_dict (Dict.set k v d).
Proof.
  unfold is_dict.
  induction d as [|[k0 v0] d IH]; simpl; intros Hd.
  - constructor; [apply not_elem_of_nil|constructor].
  - inversion Hd as [|? ? Hnotin Hd']; subst.
    destruct (String.eqb k k0) eqn:E; simpl.
    + apply String.eqb_eq in E. subst k0. now constructor.
    + constructor; [|exact (IH Hd')].
      intros Hin. apply set_keys in Hin as [->|Hin].
      * now rewrite String.eqb_refl in E.
      * now apply Hnotin.
Qed.

Lemma process_same_parse self input1 context1 input2 context2 :
  _parse_input input1 context1 = _parse_input input2 context2 ->
  ArchitecturalDocumentationAgent.process self input1 context1
  = ArchitecturalDocumentationAgent.process self input2 context2.
Proof.
  intros H. unfold ArchitecturalDocumentationAgent.process, process_body.
  now rewrite H.
Qed.

End TextFacts.

(** X12. A text without [=] is the prompt only when the context has no
    [prompt] key.  When the context has one, the text is not looked at: any
    two such texts do the same, and an empty prompt in the context ends the
    request in the missing-prompt failure even though a text was given.
    When it has none, giving the text is the same as giving it as the
    prompt of the context. *)
Theorem context_prompt_shadows_free_text self text1 text2 (context : dict) :
  contains "=" text1 = false ->
  contains "=" text2 = false ->
  is_dict context ->
  (Dict.mem "prompt" context = true ->
   ArchitecturalDocumentationAgent.process self text1 (Some context)
   = ArchitecturalDocumentationAgent.process self text2 (Some context))
  /\ (forall v w,
        Dict.get "prompt" context = Some v -> truthy v = false ->
        ArchitecturalDocumentationAgent.process self text1 (Some context) w
        = (Ok (failure_envelope self (required_message "prompt")), w))
  /\ (Dict.mem "prompt" context = false ->
      ArchitecturalDocumentationAgent.process self text1 (Some context)
      = ArchitecturalDocumentationAgent.process self text2
          (Some (Dict.set "prompt" (PStr text1) context))).
Proof.
  intros H1 H2 Hd. split; [|split].
  - intros Hmem. apply process_same_parse.
    rewrite !parse_free_text by assumption. now rewrite Hmem.
  - intros v w Hget Hv.
    apply process_missing with context.
    + rewrite parse_free_text by assumption.
      unfold Dict.mem. now rewrite Hget.
    + unfold first_missing, required_fields, missing, get_default. simpl.
      rewrite Hget, Hv. reflexivity.
  - intros Hmem. apply process_same_parse.
    rewrite !parse_free_text by (assumption || now apply set_is_dict).
    rewrite Hmem. unfold Dict.mem. now rewrite get_set_eq.
Qed.

Lemma context_prompt_shadows_free_text_witness :
  contains "=" "Test input" = false
  /\ is_dict [("prompt", PStr ""); ("targets", PStr "AuthService");
              ("artifactType", PStr "doc")]
  /\ forall w,
       ArchitecturalDocumentationAgent.process sample_agent "Test input"
         (Some [("prompt", PStr ""); ("targets", PStr "AuthService");
                ("artifactType", PStr "doc")]) w
       = (Ok (failure_envelope sample_agent (required_message "prompt")), w).
Proof.
  assert (Hd : is_dict [("prompt", PStr ""); ("targets", PStr "AuthService");
                        ("artifactType", PStr "doc")]).
  { unfold is_dict. simpl. apply (bool_decide_unpack _). vm_compute. exact I. }
  split; [reflexivity|]. split; [exact Hd|].
  intros w.
  destruct (context_prompt_shadows_free_text sample_agent "Test input" "Test input"
              [("prompt", PStr ""); ("targets", PStr "AuthService");
               ("artifactType", PStr "doc")] eq_refl eq_refl Hd) as (_ & Hempty & _).
  exact (Hempty (PStr "") w eq_refl eq_refl).
Defined.

(** X13. A line is cut at its first [=] and both parts are stripped: for a
    key part [k] without [=], the line [k=v] stores [strip v] under
    [strip k], whatever [v] holds, further [=] included; a line without
    [=] changes nothing. *)
Theorem line_is_cut_at_first_equals params k v line :
  contains "=" k = false ->
  contains "=" line = false ->
  ArchitecturalDocumentationAgent.parse_line params (k +:+ "=" +:+ v)
  = Ok (Dict.set (strip k) (PStr (strip v)) params)
  /\ ArchitecturalDocumentationAgent.parse_line params line = Ok params.
Proof.
  intros Hk Hline. split.
  - unfold ArchitecturalDocumentationAgent.parse_line.
    assert (Hstrip : strip (k +:+ "=" +:+ v) = lstrip k +:+ String "="%char (rstrip v)).
    { unfold strip. change (k +:+ "=" +:+ v) with (k +:+ String "="%char v).
      rewrite lstrip_app by reflexivity. now rewrite rstrip_app by reflexivity. }
    rewrite Hstrip.
    rewrite contains_char_app, contains_char_cons, Ascii.eqb_refl, orb_true_r.
    rewrite split1_app by now apply lstrip_suffix.
    now rewrite strip_lstrip, strip_rstrip.
  - unfold ArchitecturalDocumentationAgent.parse_line.
    rewrite contains_strip by reflexivity. now rewrite Hline.
Qed.

Lemma line_is_cut_at_first_equals_witness :
  contains "=" " prompt " = false
  /\ contains "=" "no assignment here" = false
  /\ ArchitecturalDocumentationAgent.parse_line [] " prompt = why a=b? "
     = Ok [("prompt", PStr "why a=b?")].
Proof.
  split; [reflexivity|]. split; [reflexivity|].
  exact (proj1 (line_is_cut_at_first_equals [] " prompt " " why a=b? "
                  "no assignment here" eq_refl eq_refl)).
Defined.

(** ** The shape of a result *)

Section ShapeFacts.

(** What a request that returns has returned: a diagram result of the kind
    that was selected, or a document result with the diagram files of its
    artifact type. *)
Lemma result_shape self prompt targets artifact_type depth constraints user_name
    w r w' :
  process self prompt targets artifact_type depth constraints user_name w = (Ok r, w') ->
  (artifact_type = "diagram"
   /\ exists content f, r = diagram_result (selected_kind constraints) content f)
  \/ (artifact_type <> "diagram"
      /\ exists diagrams content f,
          r = document_result diagrams content f
          /\ (artifact_type = "doc" \/ artifact_type = "usecases" ->
              exists file, diagrams = [PStr file])
          /\ (artifact_type = "testcases" \/ artifact_type = "gapscan" ->
              diagrams = [])).
Proof.
  intros Hrun.
  destruct (str_in artifact_type artifact_types) eqn:Ha; cycle 1.
  { now rewrite process_invalid_type in Hrun. }
  destruct (str_in depth depths) eqn:Hd; cycle 1.
  { now rewrite process_invalid_depth in Hrun. }
  rewrite process_valid in Hrun by assumption.
  apply bind_ok_inv in Hrun as (x & w1 & _ & Hrun).
  apply str_in_true_iff in Ha. simpl in Ha.
  destruct Ha as [<-|[<-|[<-|[<-|[<-|[]]]]]];
    cbn [String.eqb Ascii.eqb Bool.eqb] in Hrun.
  - right. split; [discriminate|].
    apply documentation_inv in Hrun as [-> _].
    eexists _, _, _. split; [reflexivity|]. split; [eauto|].
    intros [H|H]; discriminate H.
  - left. split; [reflexivity|].
    apply generate_diagram_kind in Hrun as (g & Hin & Hg).
    destruct (diagram_generator_inv _ g self prompt targets depth constraints
                user_name Hin) as (content & Hinv).
    destruct (Hinv _ _ _ Hg) as [-> _]. eauto.
  - right. split; [discriminate|].
    destruct (testcases_shape self prompt targets depth constraints user_name)
      as (content & Heq & _).
    rewrite Heq in Hrun. apply emit_inv in Hrun as [-> _].
    eexists _, _, _. split; [reflexivity|].
    split; [intros [H|H]; discriminate H|reflexivity].
  - right. split; [discriminate|].
    destruct (gapscan_shape self prompt targets depth constraints user_name)
      as (content & Heq & _).
    rewrite Heq in Hrun. apply emit_inv in Hrun as [-> _].
    eexists _, _, _. split; [reflexivity|].
    split; [intros [H|H]; discriminate H|reflexivity].
  - right. split; [discriminate|].
    destruct (usecases_inv self prompt targets depth constraints user_name)
      as (content & seq & _ & _ & _ & Hinv).
    destruct (Hinv _ _ _ Hrun) as [-> _].
    eexists _, _, _. split; [reflexivity|]. split; [eauto|].
    intros [H|H]; discriminate H.
Qed.

(** A [constraints] that is a string without [diagram] in it routes like
    no constraints at all. *)
Lemma generate_diagram_plain_string self prompt targets depth s user_name :
  contains "diagram" s = false ->
  _generate_diagram self prompt targets depth (PStr s) user_name
  = _generate_flowchart_diagram self prompt targets depth (PStr s) user_name.
Proof.
  intros Hs. unfold _generate_diagram, has_diagram_key.
  destruct (truthy (PStr s)); [rewrite Hs|]; reflexivity.
Qed.

(** A [constraints] that is a string with [diagram] in it stops the
    routing. *)
Lemma generate_diagram_string_raises self prompt targets depth s user_name w :
  contains "diagram" s = true ->
  exists msg,
    _generate_diagram self prompt targets depth (PStr s) user_name w
    = (Raise (TypeError msg), w).
Proof.
  intros Hs. unfold _generate_diagram, has_diagram_key.
  assert (Ht : truthy (PStr s) = true).
  { destruct s; [discriminate Hs|reflexivity]. }
  rewrite Ht, Hs. eexists. reflexivity.
Qed.

End ShapeFacts.

(** X14. The keys of a result: a diagram request that returns gives
    exactly [diagram_file], [diagram_type] and [content], with the kind
    that was selected and no [document] and no [diagramFiles]; every other
    request gives exactly [document], [diagramFiles] and [content], with
    one diagram file for doc and usecases and none for testcases and
    gapscan. *)
Theorem result_keys self prompt targets artifact_type depth constraints user_name
    w r w' :
  process self prompt targets artifact_type depth constraints user_name w = (Ok r, w') ->
  (artifact_type = "diagram"
   /\ map fst r = ["diagram_file"; "diagram_type"; "content"]
   /\ Dict.get "diagram_type" r = Some (PStr (selected_kind constraints))
   /\ In (selected_kind constraints) diagram_types)
  \/ (artifact_type <> "diagram"
      /\ map fst r = ["document"; "diagramFiles"; "content"]
      /\ exists diagrams,
          Dict.get "diagramFiles" r = Some (PList diagrams)
          /\ length diagrams
             = if str_in artifact_type ["doc"; "usecases"] then 1 else 0).
Proof.
  intros Hrun.
  assert (Hvalid : str_in artifact_type artifact_types = true).
  { destruct (str_in artifact_type artifact_types) eqn:Ha; [reflexivity|].
    now rewrite process_invalid_type in Hrun. }
  destruct (result_shape _ _ _ _ _ _ _ _ _ _ Hrun)
    as [(-> & content & f & ->)|(Hne & diagrams & content & f & -> & Hone & Hnone)].
  - left. split; [reflexivity|]. split; [reflexivity|]. split; [reflexivity|].
    unfold selected_kind, kind_of_value.
    destruct (default (PStr "flowchart") (requested_diagram constraints));
      try (simpl; tauto).
    destruct (str_in s diagram_types) eqn:E; [|simpl; tauto].
    now apply str_in_true_iff.
  - right. split; [exact Hne|]. split; [reflexivity|].
    exists diagrams. split; [reflexivity|].
    apply str_in_true_iff in Hvalid. simpl in Hvalid.
    destruct Hvalid as [<-|[<-|[<-|[<-|[<-|[]]]]]].
    + destruct Hone as (file & ->); [now left|reflexivity].
    + now contradiction Hne.
    + rewrite Hnone by now left. reflexivity.
    + rewrite Hnone by now right. reflexivity.
    + destruct Hone as (file & ->); [now right|reflexivity].
Qed.

Lemma result_keys_witness :
  exists r w',
    process (__init__ ["ws"]) "Test prompt" "TestComponent" "testcases" "overview"
      PNone "TestUser" sample_world = (Ok r, w')
    /\ map fst r = ["document"; "diagramFiles"; "content"]
    /\ Dict.get "diagramFiles" r = Some (PList []).
Proof.
  assert (H : exists r w',
             process (__init__ ["ws"]) "Test prompt" "TestComponent" "testcases"
               "overview" PNone "TestUser" sample_world = (Ok r, w')).
  { destruct (ensure_ready ["ws"] sample_world (fresh_ready ["ws"] sample_clock))
      as (v & He & Hp & _).
    rewrite process_valid by reflexivity.
    rewrite (bind_ok _ _ sample_world tt v He).
    now apply testcases_ok. }
  destruct H as (r & w' & H). exists r, w'. split; [exact H|].
  destruct (result_keys _ _ _ _ _ _ _ _ _ _ H)
    as [(Hd & _)|(_ & Hkeys & diagrams & Hget & Hlen)]; [discriminate Hd|].
  split; [exact Hkeys|].
  destruct diagrams; [exact Hget|discriminate Hlen].
Defined.

(** X15. A [constraints] that is a string, which is what a
    [constraints=...] line of the text gives, cannot select a diagram kind:
    on a diagram request a string without [diagram] in it does what no
    constraints do, and a string with [diagram] in it never returns; once
    the request is valid and the folders are prepared, it raises a
    [TypeError]. *)
Theorem string_constraints_select_nothing self prompt targets depth s user_name :
  (contains "diagram" s = false ->
   process self prompt targets "diagram" depth (PStr s) user_name
   = process self prompt targets "diagram" depth PNone user_name)
  /\ (contains "diagram" s = true ->
      forall w,
        (forall r w',
           process self prompt targets "diagram" depth (PStr s) user_name w
           <> (Ok r, w'))
        /\ (forall w1,
              str_in depth depths = true ->
              _ensure_directories self w = (Ok tt, w1) ->
              exists msg,
                process self prompt targets "diagram" depth (PStr s) user_name w
                = (Raise (TypeError msg), w1))).
Proof.
  split.
  - intros Hs. unfold process.
    destruct (negb (str_in "diagram" _)); [reflexivity|].
    destruct (negb (str_in depth _)); [reflexivity|].
    cbn [String.eqb Ascii.eqb Bool.eqb].
    rewrite generate_diagram_plain_string by exact Hs. reflexivity.
  - intros Hs w.
    assert (Hraise : forall w1,
              str_in depth depths = true ->
              _ensure_directories self w = (Ok tt, w1) ->
              exists msg,
                process self prompt targets "diagram" depth (PStr s) user_name w
                = (Raise (TypeError msg), w1)).
    { intros w1 Hd He. rewrite process_valid by (reflexivity || exact Hd).
      cbn [String.eqb Ascii.eqb Bool.eqb].
      rewrite (bind_ok _ _ w tt w1 He).
      now apply generate_diagram_string_raises. }
    split; [|exact Hraise].
    intros r w' Hrun.
    destruct (str_in depth depths) eqn:Hd; cycle 1.
    { now rewrite process_invalid_depth in Hrun. }
    pose proof Hrun as Hrun'.
    rewrite process_valid in Hrun' by (reflexivity || exact Hd).
    apply bind_ok_inv in Hrun' as ([] & w1 & He & _).
    destruct (Hraise w1 eq_refl He) as (msg & Hr). congruence.
Qed.

Lemma string_constraints_select_nothing_witness :
  contains "diagram" "diagram=er" = true
  /\ exists msg w1,
      process (__init__ ["ws"]) "Test prompt" "TestComponent" "diagram" "overview"
        (PStr "diagram=er") "TestUser" sample_world
      = (Raise (TypeError msg), w1).
Proof.
  split; [reflexivity|].
  destruct (ensure_ready ["ws"] sample_world (fresh_ready ["ws"] sample_clock))
    as (w1 & He & _).
  destruct (string_constraints_select_nothing (__init__ ["ws"]) "Test prompt"
              "TestComponent" "overview" "diagram=er" "TestUser") as (_ & Hraise).
  destruct (Hraise eq_refl sample_world) as (_ & Hmsg).
  destruct (Hmsg w1 eq_refl He) as (msg & Hrun).
  now exists msg, w1.
Defined.

(** ** What the adapter reads *)

Section ReadFacts.

Import ArchitecturalDocumentationAgent.

Lemma read_parameters_missing params1 params2 :
  read_parameters params1 = read_parameters params2 ->
  first_missing params1 = first_missing params2.
Proof.
  unfold read_parameters. intros H. injection H as Hp Ht Ha _ _ _.
  unfold first_missing, required_fields, missing. simpl.
  now rewrite Hp, Ht, Ha.
Qed.

Lemma read_parameters_dispatch cm params1 params2 :
  read_parameters params1 = read_parameters params2 ->
  dispatch cm params1 = dispatch cm params2.
Proof.
  unfold read_parameters. intros H. injection H as Hp Ht Ha Hd Hc Hu.
  unfold dispatch. now rewrite Hp, Ht, Ha, Hd, Hc, Hu.
Qed.

Lemma read_parameters_envelope self params1 params2 r :
  read_parameters params1 = read_parameters params2 ->
  success_envelope self params1 r = success_envelope self params2 r.
Proof.
  unfold read_parameters. intros H. injection H as Hp Ht Ha Hd Hc Hu.
  unfold success_envelope. now rewrite Ht, Ha, Hd.
Qed.

(** The value the text gives to a key is the value of the merged
    parameters. *)
Lemma text_value_parsed input_data context k v :
  contains "=" input_data = true ->
  text_value k (text_pairs input_data) = Some v ->
  exists params,
    _parse_input input_data context = Ok params
    /\ Dict.get k params = Some (PStr v).
Proof.
  intros Hc Hv. eexists. split; [now apply parse_input_structured|].
  now rewrite get_fold_pairs, Hv.
Qed.

End ReadFacts.

(** X16. The adapter reads six parameters and nothing else: two requests
    whose merged parameters agree on prompt, targets and artifactType, and
    on depth, constraints and user_name once an absent one is replaced by
    its default ([overview], [None], [User]), do the same; every other key
    of the context or of the text is ignored, and so is the order of the
    keys. *)
Theorem adapter_reads_six_parameters self input1 context1 input2 context2
    params1 params2 w :
  ArchitecturalDocumentationAgent._parse_input input1 context1 = Ok params1 ->
  ArchitecturalDocumentationAgent._parse_input input2 context2 = Ok params2 ->
  read_parameters params1 = read_parameters params2 ->
  ArchitecturalDocumentationAgent.process self input1 context1 w
  = ArchitecturalDocumentationAgent.process self input2 context2 w.
Proof.
  intros H1 H2 Hread.
  pose proof (read_parameters_missing _ _ Hread) as Hmiss.
  destruct (first_missing params1) as [field|] eqn:Hfirst.
  - rewrite (process_missing self input1 context1 w params1 field H1 Hfirst).
    symmetry. now apply process_missing with params2.
  - destruct (ArchitecturalDocumentationAgent.chatmode self) as [cm|] eqn:Hcm.
    + rewrite (process_dispatch self input1 context1 w params1 cm H1 Hfirst Hcm).
      rewrite (process_dispatch self input2 context2 w params2 cm H2
                 (eq_sym Hmiss) Hcm).
      rewrite (read_parameters_dispatch cm _ _ Hread).
      destruct (dispatch cm params2 w) as [[r|e] w']; [|reflexivity].
      now rewrite (read_parameters_envelope self _ _ r Hread).
    + rewrite (process_no_chatmode self input1 context1 w params1 H1 Hfirst Hcm).
      symmetry. now apply process_no_chatmode with params2.
Qed.

Lemma adapter_reads_six_parameters_witness :
  ArchitecturalDocumentationAgent.process sample_agent "Test input"
    (Some [("prompt", PStr "Document the authentication system");
           ("targets", PStr "AuthService");
           ("artifactType", PStr "doc")]) sample_world
  = ArchitecturalDocumentationAgent.process sample_agent "diagram = sequence"
      (Some [("user_name", PStr "User");
             ("verbose", PBool true);
             ("artifactType", PStr "doc");
             ("targets", PStr "AuthService");
             ("depth", PStr "overview");
             ("prompt", PStr "Document the authentication system")]) sample_world.
Proof.
  eapply adapter_reads_six_parameters; [reflexivity|reflexivity|reflexivity].
Defined.

(** X17. A diagram kind cannot be chosen through the text: when a line of
    the text gives [constraints], whatever the context says, every result
    the adapter wraps that has a [diagram_type] has the flowchart. *)
Theorem text_constraints_give_flowchart self input_data context s w envelope w' r ty :
  contains "=" input_data = true ->
  text_value "constraints" (text_pairs input_data) = Some s ->
  ArchitecturalDocumentationAgent.process self input_data context w
  = (Ok envelope, w') ->
  Dict.get "result" envelope = Some (PDict r) ->
  Dict.get "diagram_type" r = Some ty ->
  ty = PStr "flowchart".
Proof.
  intros Hc Hs Hrun Hres Hty.
  destruct (text_value_parsed input_data context "constraints" s Hc Hs)
    as (params & Hparse & Hget).
  destruct (first_missing params) as [field|] eqn:Hfirst.
  { rewrite (process_missing self input_data context w params field Hparse Hfirst)
      in Hrun.
    injection Hrun as <- _. discriminate Hres. }
  destruct (ArchitecturalDocumentationAgent.chatmode self) as [cm|] eqn:Hcm; cycle 1.
  { rewrite (process_no_chatmode self input_data context w params Hparse Hfirst Hcm)
      in Hrun.
    injection Hrun as <- _. discriminate Hres. }
  rewrite (process_dispatch self input_data context w params cm Hparse Hfirst Hcm)
    in Hrun.
  destruct (dispatch cm params w) as [[r0|e] w0] eqn:Hd.
  - injection Hrun as <- _. unfold success_envelope in Hres. simpl in Hres.
    injection Hres as ->.
    unfold dispatch in Hd. unfold get_default at 5 in Hd. rewrite Hget in Hd.
    destruct (result_shape _ _ _ _ _ _ _ _ _ _ Hd)
      as [(_ & content & f & ->)|(_ & diagrams & content & f & -> & _)].
    + simpl in Hty. now injection Hty as <-.
    + discriminate Hty.
  - injection Hrun as <- _. discriminate Hres.
Qed.

Lemma text_constraints_give_flowchart_witness :
  contains "=" "constraints = er" = true
  /\ exists envelope w' r,
      ArchitecturalDocumentationAgent.process sample_agent "constraints = er"
        (Some [("prompt", PStr "Orders"); ("targets", PStr "Shop");
               ("artifactType", PStr "diagram");
               ("constraints", PDict [("diagram", PStr "er")])]) sample_world
      = (Ok envelope, w')
      /\ Dict.get "result" envelope = Some (PDict r)
      /\ Dict.get "diagram_type" r = Some (PStr "flowchart").
Proof.
  split; [reflexivity|].
  assert (H : exists envelope w' r ty,
             ArchitecturalDocumentationAgent.process sample_agent
               "constraints = er"
               (Some [("prompt", PStr "Orders"); ("targets", PStr "Shop");
                      ("artifactType", PStr "diagram");
                      ("constraints", PDict [("diagram", PStr "er")])]) sample_world
             = (Ok envelope, w')
             /\ Dict.get "result" envelope = Some (PDict r)
             /\ Dict.get "diagram_type" r = Some ty).
  { eexists _, _, _, _. split; [vm_compute; reflexivity|].
    split; vm_compute; reflexivity. }
  destruct H as (envelope & w' & r & ty & Hrun & Hres & Hty).
  exists envelope, w', r. split; [exact Hrun|]. split; [exact Hres|].
  rewrite Hty. f_equal.
  exact (text_constraints_give_flowchart sample_agent "constraints = er" _
           "er" sample_world envelope w' r ty eq_refl eq_refl Hrun Hres Hty).
Defined.

(** ** The enumerations and the configuration *)

Section EnumFacts.

(** A request that passed the validation raises no [ValueError]. *)
Lemma valid_request_raise self prompt targets artifact_type depth constraints
    user_name w e w' :
  str_in artifact_type artifact_types = true ->
  str_in depth depths = true ->
  process self prompt targets artifact_type depth constraints user_name w
  = (Raise e, w') ->
  not_value_error e.
Proof.
  intros Ha Hd Hrun. rewrite process_valid in Hrun by assumption.
  apply bind_raise_inv in Hrun as [Hrun|(x & w1 & _ & Hrun)].
  { now apply ensure_raise in Hrun. }
  apply str_in_true_iff in Ha. simpl in Ha.
  destruct Ha as [<-|[<-|[<-|[<-|[<-|[]]]]]];
    cbn [String.eqb Ascii.eqb Bool.eqb] in Hrun;
    eapply artifact_generator_raise; try exact Hrun; simpl; eauto 6.
Qed.

End EnumFacts.

(** X18. The places that enumerate the values of a request agree.  The
    artifact types and depths the agent advertises are those the
    configuration declares, and exactly those the validation of the
    dispatcher lets through: a request raises a [ValueError] if and only if
    its artifact type or its depth is not advertised.  The diagram types the
    agent advertises are exactly those a diagram request reports back when
    it is asked for them. *)
Theorem enumerations_agree ag ws self prompt targets artifact_type depth constraints
    user_name w :
  (In artifact_type (ArchitecturalDocumentationAgent.get_supported_artifact_types ag)
   <-> In (PStr artifact_type) (declared_enum (config (__init__ ws)) "artifactType"))
  /\ (In depth (ArchitecturalDocumentationAgent.get_supported_depths ag)
      <-> In (PStr depth) (declared_enum (config (__init__ ws)) "depth"))
  /\ ((In artifact_type (ArchitecturalDocumentationAgent.get_supported_artifact_types ag)
       /\ In depth (ArchitecturalDocumentationAgent.get_supported_depths ag))
      <-> (forall msg w',
             process self prompt targets artifact_type depth constraints user_name w
             <> (Raise (ValueError msg), w')))
  /\ (forall k r w',
        process self prompt targets "diagram" depth (PDict [("diagram", PStr k)])
          user_name w = (Ok r, w') ->
        (Dict.get "diagram_type" r = Some (PStr k)
         <-> In k (ArchitecturalDocumentationAgent.get_supported_diagram_types ag))).
Proof.
  split; [|split; [|split]].
  - cbn. split.
    + intros H. repeat destruct H as [<-|H]; [tauto..|destruct H].
    + intros H. repeat destruct H as [[= <-]|H]; [tauto..|destruct H].
  - cbn. split.
    + intros H. repeat destruct H as [<-|H]; [tauto..|destruct H].
    + intros H. repeat destruct H as [[= <-]|H]; [tauto..|destruct H].
  - change (ArchitecturalDocumentationAgent.get_supported_artifact_types ag)
      with artifact_types.
    change (ArchitecturalDocumentationAgent.get_supported_depths ag) with depths.
    rewrite <- !str_in_true_iff. split.
    + intros [Ha Hd] msg w' Hrun.
      now apply valid_request_raise in Hrun.
    + intros Hno.
      destruct (str_in artifact_type artifact_types) eqn:Ha; cycle 1.
      { exfalso. eapply Hno. now apply process_invalid_type. }
      destruct (str_in depth depths) eqn:Hd; [auto|].
      exfalso. eapply Hno. now apply process_invalid_depth.
  - intros k r w' Hrun.
    change (ArchitecturalDocumentationAgent.get_supported_diagram_types ag)
      with diagram_types.
    destruct (result_shape _ _ _ _ _ _ _ _ _ _ Hrun)
      as [(_ & content & f & ->)|(Hne & _)]; [|now contradiction Hne].
    change (Dict.get "diagram_type"
              (diagram_result (selected_kind (PDict [("diagram", PStr k)])) content f))
      with (Some (PStr (if str_in k diagram_types then k else "flowchart"))).
    rewrite <- str_in_true_iff.
    destruct (str_in k diagram_types) eqn:Hk.
    + split; reflexivity.
    + split; [|discriminate]. intros [= <-]. discriminate Hk.
Qed.

(** X19. The dispatcher never reads its configuration, nor the workspace
    path once the two folders are set: two dispatcher objects with the same
    documents folder and the same diagrams folder do the same on every
    request, whatever their configurations declare. *)
Theorem configuration_is_never_read self1 self2 prompt targets artifact_type depth
    constraints user_name :
  docs_folder self1 = docs_folder self2 ->
  diagrams_folder self1 = diagrams_folder self2 ->
  process self1 prompt targets artifact_type depth constraints user_name
  = process self2 prompt targets artifact_type depth constraints user_name.
Proof.
  destruct self1 as [ws1 docs1 diagrams1 cfg1], self2 as [ws2 docs2 diagrams2 cfg2].
  cbn [docs_folder diagrams_folder]. intros -> ->. reflexivity.
Qed.

Lemma configuration_is_never_read_witness :
  process (__init__ ["ws"]) "Test prompt" "TestComponent" "doc" "overview" PNone
    "TestUser"
  = process {| workspace_path := ["elsewhere"];
               docs_folder := docs_of ["ws"];
               diagrams_folder := diagrams_of ["ws"];
               config := {| name := ""; role := []; scope := []; inputs := [];
                            outputs := [];
                            constraints := [("footerRequired", PBool false)];
                            behaviors := []; tools := [] |} |}
      "Test prompt" "TestComponent" "doc" "overview" PNone "TestUser".
Proof.
  apply configuration_is_never_read; reflexivity.
Defined.

(** ** The command line *)

Section ConsoleFacts.

Lemma say_takes_all lines s :
  takes_all s -> say lines s = (Ok tt, printed s (ChatmodeCli.world s) lines).
Proof.
  unfold takes_all. revert s.
  induction lines as [|l lines IH]; intros [w c out] Hall; simpl in *.
  - unfold ChatmodeCli.io_ret, printed. simpl. now rewrite app_nil_r.
  - unfold ChatmodeCli.io_bind, ChatmodeCli.print. simpl. rewrite Hall.
    rewrite IH by exact Hall. unfold printed. simpl. now rewrite <- app_assoc.
Qed.

Lemma say_ok_inv lines s (u : unit) s' :
  say lines s = (Ok u, s') -> s' = printed s (ChatmodeCli.world s) lines.
Proof.
  revert s. induction lines as [|l lines IH]; intros [w c out]; simpl.
  - unfold ChatmodeCli.io_ret, printed. simpl. intros [= _ <-].
    now rewrite app_nil_r.
  - unfold ChatmodeCli.io_bind, ChatmodeCli.print. simpl.
    destruct (out c l); [discriminate|].
    intros H. apply IH in H. rewrite H. unfold printed. simpl.
    now rewrite <- app_assoc.
Qed.

Lemma on_error_code e s code s' :
  on_error e s = (Ok code, s') -> code = 1%Z.
Proof.
  unfold on_error, ChatmodeCli.io_bind, ChatmodeCli.print, ChatmodeCli.io_ret.
  destruct (ChatmodeCli.stdout s (ChatmodeCli.console s) (error_line (exn_str e)));
    [discriminate|].
  now intros [= <- _].
Qed.

Lemma finish_takes_all lines code s :
  takes_all s ->
  finish lines code s = (Ok code, printed s (ChatmodeCli.world s) lines).
Proof.
  intros Hall. unfold finish, ChatmodeCli.io_try, ChatmodeCli.io_bind.
  now rewrite say_takes_all.
Qed.

(** A command that ends with a code has printed all its lines, or has met
    an exception and ends with the code 1. *)
Lemma finish_ok lines code s c s' :
  finish lines code s = (Ok c, s') ->
  (c = code /\ s' = printed s (ChatmodeCli.world s) lines) \/ c = 1%Z.
Proof.
  unfold finish, ChatmodeCli.io_try, ChatmodeCli.io_bind.
  destruct (say lines s) as [[u|e] s1] eqn:Hsay.
  - unfold ChatmodeCli.io_ret. intros [= <- <-]. left.
    split; [reflexivity|]. now apply say_ok_inv with u.
  - intros H. right. now apply on_error_code in H.
Qed.

(** On a standard output without emoji, a command whose first line has
    one raises, out of its handler, and has printed nothing. *)
Lemma finish_no_emoji l lines code s :
  takes_no_emoji s ->
  ChatmodeCli.mark l <> None ->
  exists e0 e,
    ChatmodeCli.stdout s (ChatmodeCli.console s) l = Some e0
    /\ ChatmodeCli.stdout s (ChatmodeCli.console s) (error_line (exn_str e0)) = Some e
    /\ finish (l :: lines) code s = (Raise e, s).
Proof.
  intros Hno Hl.
  destruct (ChatmodeCli.stdout s (ChatmodeCli.console s) l) as [e0|] eqn:E0;
    [|now apply Hno in E0].
  destruct (ChatmodeCli.stdout s (ChatmodeCli.console s) (error_line (exn_str e0)))
    as [e|] eqn:E; [|apply Hno in E; [destruct E|discriminate]].
  exists e0, e. split; [reflexivity|]. split; [exact E|].
  unfold finish, ChatmodeCli.io_try, ChatmodeCli.io_bind. simpl.
  unfold ChatmodeCli.io_bind, ChatmodeCli.print. rewrite E0.
  unfold on_error, ChatmodeCli.io_bind, ChatmodeCli.print. now rewrite E.
Qed.

End ConsoleFacts.

Section CommandFacts.

Variable json_dumps : pyval -> string.

(** Case analysis on what the standard output does with the lines of a
    goal. *)
Ltac unfold_prints :=
  cbn;
  unfold ChatmodeCli.io_try, ChatmodeCli.io_bind, ChatmodeCli.print,
    ChatmodeCli.io_ret, ChatmodeCli.io_lift,
    error_line, success_line, document_line, diagrams_line, item_line;
  cbn.

Ltac stdout_cases :=
  unfold_prints;
  repeat match goal with
    | |- context [match ChatmodeCli.stdout ?s ?c ?l with _ => _ end] =>
        destruct (ChatmodeCli.stdout s c l) eqn:?; unfold_prints
    end.

Ltac open_command Hrun :=
  unfold cli_request, cli_agent, cli_context, cli_constraints in Hrun;
  unfold ChatmodeCli.handle_architect_command, ChatmodeCli.io_try,
    ChatmodeCli.io_bind, ChatmodeCli.run;
  rewrite Hrun;
  unfold finish, on_error, json_lines, moved, ChatmodeCli.io_try,
    ChatmodeCli.io_bind.

(** A failure envelope: the error is printed and the code is 1. *)
Lemma handle_failure args s self msg w' :
  cli_request args (ChatmodeCli.world s) = (Ok (failure_envelope self msg), w') ->
  ChatmodeCli.handle_architect_command json_dumps args s
  = finish [error_line msg] 1 (moved s w').
Proof.
  intros Hrun. open_command Hrun. cbn. stdout_cases; reflexivity.
Qed.

(** A diagram result: its file is not printed. *)
Lemma handle_diagram args s self params kind content f w' :
  cli_request args (ChatmodeCli.world s)
  = (Ok (success_envelope self params (diagram_result kind content f)), w') ->
  ChatmodeCli.handle_architect_command json_dumps args s
  = finish
      (success_line
       :: json_lines json_dumps args
            (success_envelope self params (diagram_result kind content f)))
      0 (moved s w').
Proof.
  intros Hrun. open_command Hrun.
  destruct (ChatmodeCli.json args) as [flag|]; [destruct (truthy flag) eqn:E|];
    cbn; stdout_cases; reflexivity.
Qed.

(** A document result without diagrams. *)
Lemma handle_plain args s self params content f w' :
  cli_request args (ChatmodeCli.world s)
  = (Ok (success_envelope self params (document_result [] content f)), w') ->
  ChatmodeCli.handle_architect_command json_dumps args s
  = finish
      ([success_line; document_line (path_str f)]
       ++ json_lines json_dumps args
            (success_envelope self params (document_result [] content f)))
      0 (moved s w').
Proof.
  intros Hrun. open_command Hrun.
  destruct (ChatmodeCli.json args) as [flag|]; [destruct (truthy flag) eqn:E|];
    cbn; stdout_cases; reflexivity.
Qed.

(** A document result with a diagram. *)
Lemma handle_composite args s self params file content f w' :
  cli_request args (ChatmodeCli.world s)
  = (Ok (success_envelope self params (document_result [PStr file] content f)), w') ->
  ChatmodeCli.handle_architect_command json_dumps args s
  = finish
      ([success_line; document_line (path_str f); diagrams_line; item_line file]
       ++ json_lines json_dumps args
            (success_envelope self params
               (document_result [PStr file] content f)))
      0 (moved s w').
Proof.
  intros Hrun. open_command Hrun.
  destruct (ChatmodeCli.json args) as [flag|]; [destruct (truthy flag) eqn:E|];
    cbn; stdout_cases; reflexivity.
Qed.

End CommandFacts.

Section RequestFacts.

Import ArchitecturalDocumentationAgent.

Lemma cli_context_is_dict args : is_dict (cli_context args).
Proof.
  unfold is_dict, cli_context. simpl.
  apply (bool_decide_unpack _). vm_compute. exact I.
Qed.

(** The merged parameters of a command: what a line of the prompt gives,
    else what the options give. *)
Lemma cli_params args :
  exists params,
    _parse_input (ChatmodeCli.prompt args) (Some (cli_context args)) = Ok params
    /\ forall k,
         Dict.get k params
         = match cli_text_value args k with
           | Some v => Some (PStr v)
           | None => Dict.get k (cli_context args)
           end.
Proof.
  unfold cli_text_value.
  destruct (contains "=" (ChatmodeCli.prompt args)) eqn:E.
  - eexists. split; [now apply parse_input_structured|].
    intros k. rewrite get_fold_pairs.
    destruct (text_value k (text_pairs (ChatmodeCli.prompt args))); [reflexivity|].
    now rewrite context_stage by apply cli_context_is_dict.
  - exists (cli_context args). split; [|reflexivity].
    rewrite parse_free_text by (exact E || apply cli_context_is_dict).
    reflexivity.
Qed.

(** Two requests whose merged parameters differ at most in constraints that
    the dispatcher cannot tell apart do the same. *)
Lemma process_same self input1 context1 input2 context2 params1 params2 w :
  _parse_input input1 context1 = Ok params1 ->
  _parse_input input2 context2 = Ok params2 ->
  (forall k, k <> "constraints" -> Dict.get k params1 = Dict.get k params2) ->
  (forall cm prompt targets artifact_type depth user_name,
     HighLevelArchitectChatMode.process cm prompt targets artifact_type depth
       (get_default "constraints" PNone params1) user_name
     = HighLevelArchitectChatMode.process cm prompt targets artifact_type depth
         (get_default "constraints" PNone params2) user_name) ->
  ArchitecturalDocumentationAgent.process self input1 context1 w
  = ArchitecturalDocumentationAgent.process self input2 context2 w.
Proof.
  intros H1 H2 Hget Hroute.
  assert (Hdef : forall k d, k <> "constraints" ->
                             get_default k d params1 = get_default k d params2).
  { intros k d Hk. unfold get_default. now rewrite (Hget k Hk). }
  assert (Hmiss : first_missing params1 = first_missing params2).
  { unfold first_missing, required_fields, missing. simpl.
    now rewrite !(Hdef _ PNone) by discriminate. }
  destruct (first_missing params1) as [field|] eqn:Hfirst.
  - rewrite (process_missing self input1 context1 w params1 field H1 Hfirst).
    symmetry. now apply process_missing with params2.
  - destruct (chatmode self) as [cm|] eqn:Hcm.
    + rewrite (process_dispatch self input1 context1 w params1 cm H1 Hfirst Hcm).
      rewrite (process_dispatch self input2 context2 w params2 cm H2
                 (eq_sym Hmiss) Hcm).
      assert (Hd : dispatch cm params1 = dispatch cm params2).
      { unfold dispatch. rewrite !(Hdef _ PNone), !(Hdef _ (PStr _)) by discriminate.
        apply Hroute. }
      rewrite Hd. destruct (dispatch cm params2 w) as [[r|e] w']; [|reflexivity].
      unfold success_envelope.
      now rewrite !(Hdef _ PNone), !(Hdef _ (PStr _)) by discriminate.
    + rewrite (process_no_chatmode self input1 context1 w params1 H1 Hfirst Hcm).
      symmetry. now apply process_no_chatmode with params2.
Qed.

(** The request of a command whose prompt has no [=]: the options go to
    the dispatcher as they are. *)
Lemma cli_free_text args w :
  contains "=" (ChatmodeCli.prompt args) = false ->
  first_missing (cli_context args) = None ->
  cli_request args w
  = match HighLevelArchitectChatMode.process
            (HighLevelArchitectChatMode.__init__ (ChatmodeCli.workspace args))
            (ChatmodeCli.prompt args) (ChatmodeCli.targets args)
            (ChatmodeCli.artifact_type args) (ChatmodeCli.depth args)
            (PDict (cli_constraints args)) (ChatmodeCli.user_name args) w with
    | (Ok r, w') => (Ok (success_envelope (cli_agent args) (cli_context args) r), w')
    | (Raise e, w') => (Ok (failure_envelope (cli_agent args) (exn_str e)), w')
    end.
Proof.
  intros E Hfirst. unfold cli_request.
  rewrite (process_dispatch (cli_agent args) (ChatmodeCli.prompt args)
             (Some (cli_context args)) w (cli_context args)
             (HighLevelArchitectChatMode.__init__ (ChatmodeCli.workspace args))).
  - reflexivity.
  - rewrite parse_free_text by (exact E || apply cli_context_is_dict). reflexivity.
  - exact Hfirst.
  - reflexivity.
Qed.

(** What a request that returns has returned, by the shape the command
    looks at. *)
Lemma result_cases self prompt targets artifact_type depth constraints user_name
    w r w' :
  HighLevelArchitectChatMode.process self prompt targets artifact_type depth
    constraints user_name w = (Ok r, w') ->
  (exists kind content f, r = diagram_result kind content f)
  \/ (exists content f, r = document_result [] content f)
  \/ (exists file content f, r = document_result [PStr file] content f).
Proof.
  intros Hrun.
  assert (Hvalid : str_in artifact_type artifact_types = true).
  { destruct (str_in artifact_type artifact_types) eqn:Ha; [reflexivity|].
    now rewrite process_invalid_type in Hrun. }
  destruct (result_shape _ _ _ _ _ _ _ _ _ _ Hrun)
    as [(_ & content & f & ->)|(Hne & diagrams & content & f & -> & Hone & Hnone)].
  - left. eauto.
  - right. apply str_in_true_iff in Hvalid. simpl in Hvalid.
    destruct Hvalid as [<-|[<-|[<-|[<-|[<-|[]]]]]].
    + destruct Hone as (file & ->); [now left|]. right. eauto.
    + now contradiction Hne.
    + rewrite Hnone by now left. left. eauto.
    + rewrite Hnone by now right. left. eauto.
    + destruct Hone as (file & ->); [now right|]. right. eauto.
Qed.

(** What a command can get from its agent. *)
Lemma cli_cases args w :
  (exists msg w',
     cli_request args w = (Ok (failure_envelope (cli_agent args) msg), w'))
  \/ (exists params kind content f w',
        cli_request args w
        = (Ok (success_envelope (cli_agent args) params
                 (diagram_result kind content f)), w'))
  \/ (exists params content f w',
        cli_request args w
        = (Ok (success_envelope (cli_agent args) params
                 (document_result [] content f)), w'))
  \/ (exists params file content f w',
        cli_request args w
        = (Ok (success_envelope (cli_agent args) params
                 (document_result [PStr file] content f)), w')).
Proof.
  unfold cli_request.
  destruct (parse_input_total (ChatmodeCli.prompt args) (Some (cli_context args)))
    as (params & Hparse).
  destruct (first_missing params) as [field|] eqn:Hfirst.
  { left. exists (required_message field), w. now apply process_missing with params. }
  rewrite (process_dispatch (cli_agent args) _ _ w params
             (HighLevelArchitectChatMode.__init__ (ChatmodeCli.workspace args))
             Hparse Hfirst eq_refl).
  destruct (dispatch _ params w) as [[r|e] w'] eqn:Hd.
  - unfold dispatch in Hd.
    destruct (result_cases _ _ _ _ _ _ _ _ _ _ Hd)
      as [(kind & content & f & ->)|[(content & f & ->)|(file & content & f & ->)]].
    + right. left. eexists params, kind, content, f, w'. reflexivity.
    + right. right. left. eexists params, content, f, w'. reflexivity.
    + right. right. right. eexists params, file, content, f, w'. reflexivity.
  - left. now exists (exn_str e), w'.
Qed.

End RequestFacts.

Section ReportFacts.

Variable json_dumps : pyval -> string.

(** Two namespaces with the same request and the same [json] are handled
    alike. *)
Lemma handle_same args1 args2 s :
  ChatmodeCli.json args1 = ChatmodeCli.json args2 ->
  cli_request args1 (ChatmodeCli.world s) = cli_request args2 (ChatmodeCli.world s) ->
  ChatmodeCli.handle_architect_command json_dumps args1 s
  = ChatmodeCli.handle_architect_command json_dumps args2 s.
Proof.
  intros Hjson Hreq.
  unfold cli_request, cli_agent, cli_context, cli_constraints in Hreq.
  unfold ChatmodeCli.handle_architect_command, ChatmodeCli.io_try,
    ChatmodeCli.io_bind, ChatmodeCli.run.
  rewrite Hreq, Hjson. reflexivity.
Qed.

End ReportFacts.

(** X20. On a standard output that takes every line, a command does not
    raise and its exit code tells the outcome.  Without a handler it prints
    [No command specified] and returns 1, the world untouched.  With one,
    the world is left as the agent left it; the code is 0 when the envelope
    says success, and the first line printed is the success message; it is
    1 when the envelope says failure, and then exactly one line is printed,
    the error of the envelope. *)
Theorem command_exit_code json_dumps args s :
  takes_all s ->
  exists code s',
    ChatmodeCli.run_chatmode_command json_dumps args s = (Ok code, s')
    /\ match ChatmodeCli.func args with
       | None => code = 1%Z /\ s' = printed s (ChatmodeCli.world s) [no_command_line]
       | Some _ =>
           exists envelope,
             cli_request args (ChatmodeCli.world s)
             = (Ok envelope, ChatmodeCli.world s')
             /\ ((code = 0%Z
                  /\ Dict.get "success" envelope = Some (PBool true)
                  /\ exists rest,
                      ChatmodeCli.console s'
                      = ChatmodeCli.console s ++ success_line :: rest)
                 \/ (code = 1%Z
                     /\ Dict.get "success" envelope = Some (PBool false)
                     /\ exists msg,
                         Dict.get "error" envelope = Some (PStr msg)
                         /\ ChatmodeCli.console s'
                            = ChatmodeCli.console s ++ [error_line msg]))
       end.
Proof.
  intros Hall. unfold ChatmodeCli.run_chatmode_command.
  destruct (ChatmodeCli.func args) as [[]|]; cycle 1.
  { unfold ChatmodeCli.io_bind, ChatmodeCli.print, ChatmodeCli.io_ret.
    rewrite Hall. eexists _, _. split; [reflexivity|]. split; reflexivity. }
  assert (Hmoved : forall w', takes_all (moved s w')) by (intros w' c l; apply Hall).
  destruct (cli_cases args (ChatmodeCli.world s))
    as [(msg & w' & Hreq)
       |[(params & kind & content & f & w' & Hreq)
        |[(params & content & f & w' & Hreq)
         |(params & file & content & f & w' & Hreq)]]].
  - rewrite (handle_failure json_dumps args s _ msg w' Hreq).
    rewrite finish_takes_all by apply Hmoved.
    eexists _, _. split; [reflexivity|]. eexists. split; [exact Hreq|].
    right. split; [reflexivity|]. split; [reflexivity|].
    exists msg. split; reflexivity.
  - rewrite (handle_diagram json_dumps args s _ params kind content f w' Hreq).
    rewrite finish_takes_all by apply Hmoved.
    eexists _, _. split; [reflexivity|]. eexists. split; [exact Hreq|].
    left. split; [reflexivity|]. split; [reflexivity|].
    eexists. reflexivity.
  - rewrite (handle_plain json_dumps args s _ params content f w' Hreq).
    rewrite finish_takes_all by apply Hmoved.
    eexists _, _. split; [reflexivity|]. eexists. split; [exact Hreq|].
    left. split; [reflexivity|]. split; [reflexivity|].
    eexists. reflexivity.
  - rewrite (handle_composite json_dumps args s _ params file content f w' Hreq).
    rewrite finish_takes_all by apply Hmoved.
    eexists _, _. split; [reflexivity|]. eexists. split; [exact Hreq|].
    left. split; [reflexivity|]. split; [reflexivity|].
    eexists. reflexivity.
Qed.

Lemma command_exit_code_witness :
  takes_all sample_session
  /\ exists code s',
      ChatmodeCli.run_chatmode_command (fun _ => EmptyString)
        (ChatmodeCli.architect_defaults "" "TestComponent") sample_session
      = (Ok code, s')
      /\ code = 1%Z
      /\ ChatmodeCli.console s'
         = [error_line (required_message "prompt")].
Proof.
  assert (Hall : takes_all sample_session) by (intros c l; reflexivity).
  split; [exact Hall|].
  destruct (command_exit_code (fun _ => EmptyString)
              (ChatmodeCli.architect_defaults "" "TestComponent")
              sample_session Hall) as (code & s' & Hrun & envelope & Hreq & Hcase).
  exists code, s'. split; [exact Hrun|].
  assert (Henv : envelope
                 = failure_envelope
                     (cli_agent (ChatmodeCli.architect_defaults "" "TestComponent"))
                     (required_message "prompt")).
  { assert (H : cli_request (ChatmodeCli.architect_defaults "" "TestComponent")
                  (ChatmodeCli.world sample_session)
                = (Ok (failure_envelope
                         (cli_agent (ChatmodeCli.architect_defaults ""
                                       "TestComponent"))
                         (required_message "prompt")),
                   ChatmodeCli.world sample_session)).
    { unfold cli_request.
      apply process_missing
        with (cli_context (ChatmodeCli.architect_defaults "" "TestComponent"));
        reflexivity. }
    rewrite H in Hreq. now injection Hreq as <- _. }
  subst envelope.
  destruct Hcase as [(_ & Hok & _)|(-> & _ & msg & Hmsg & Hconsole)];
    [discriminate Hok|].
  split; [reflexivity|]. injection Hmsg as <-. exact Hconsole.
Defined.

(** X25. On a standard output that takes no line with an emoji, as one
    encoded in ASCII or Latin-1, a command with its handler always raises.
    The agent has done its work, so the files may be written; the first
    message, of success or of error, has an emoji and is refused; the
    handler then prints its own message, with an emoji too, and the
    exception that refuses it leaves the command.  Nothing is printed. *)
Theorem unencodable_emoji_escapes json_dumps args s :
  takes_no_emoji s ->
  exists first e0 e envelope s',
    ChatmodeCli.handle_architect_command json_dumps args s = (Raise e, s')
    /\ cli_request args (ChatmodeCli.world s) = (Ok envelope, ChatmodeCli.world s')
    /\ ChatmodeCli.console s' = ChatmodeCli.console s
    /\ ChatmodeCli.mark first <> None
    /\ ChatmodeCli.stdout s (ChatmodeCli.console s) first = Some e0
    /\ ChatmodeCli.stdout s (ChatmodeCli.console s) (error_line (exn_str e0))
       = Some e.
Proof.
  intros Hno.
  assert (Hmoved : forall w', takes_no_emoji (moved s w'))
    by (intros w' c l; apply Hno).
  assert (Hgo : forall first lines code envelope w',
            ChatmodeCli.mark first <> None ->
            cli_request args (ChatmodeCli.world s) = (Ok envelope, w') ->
            ChatmodeCli.handle_architect_command json_dumps args s
            = finish (first :: lines) code (moved s w') ->
            exists first e0 e envelope s',
              ChatmodeCli.handle_architect_command json_dumps args s = (Raise e, s')
              /\ cli_request args (ChatmodeCli.world s)
                 = (Ok envelope, ChatmodeCli.world s')
              /\ ChatmodeCli.console s' = ChatmodeCli.console s
              /\ ChatmodeCli.mark first <> None
              /\ ChatmodeCli.stdout s (ChatmodeCli.console s) first = Some e0
              /\ ChatmodeCli.stdout s (ChatmodeCli.console s)
                   (error_line (exn_str e0)) = Some e).
  { intros first lines code envelope w' Hmark Hreq Hrun.
    destruct (finish_no_emoji first lines code (moved s w') (Hmoved w') Hmark)
      as (e0 & e & H0 & H1 & Hfin).
    exists first, e0, e, envelope, (moved s w').
    split; [now rewrite Hrun|]. split; [exact Hreq|]. split; [reflexivity|].
    split; [exact Hmark|]. split; [exact H0|exact H1]. }
  destruct (cli_cases args (ChatmodeCli.world s))
    as [(msg & w' & Hreq)
       |[(params & kind & content & f & w' & Hreq)
        |[(params & content & f & w' & Hreq)
         |(params & file & content & f & w' & Hreq)]]].
  - eapply Hgo; [|exact Hreq|exact (handle_failure json_dumps args s _ msg w' Hreq)].
    discriminate.
  - eapply Hgo; [|exact Hreq
                 |exact (handle_diagram json_dumps args s _ _ _ _ _ w' Hreq)].
    discriminate.
  - eapply Hgo; [|exact Hreq
                 |exact (handle_plain json_dumps args s _ _ _ _ w' Hreq)].
    discriminate.
  - eapply Hgo; [|exact Hreq
                 |exact (handle_composite json_dumps args s _ _ _ _ _ w' Hreq)].
    discriminate.
Qed.

Lemma unencodable_emoji_escapes_witness :
  takes_no_emoji ascii_session
  /\ exists e s',
      ChatmodeCli.handle_architect_command (fun _ => EmptyString)
        (ChatmodeCli.architect_defaults "Test prompt" "TestComponent")
        ascii_session = (Raise e, s')
      /\ ChatmodeCli.console s' = [].
Proof.
  assert (Hno : takes_no_emoji ascii_session).
  { intros c l Hl. unfold ascii_session. simpl.
    destruct (ChatmodeCli.mark l); [discriminate|contradiction]. }
  split; [exact Hno|].
  destruct (unencodable_emoji_escapes (fun _ => EmptyString)
              (ChatmodeCli.architect_defaults "Test prompt" "TestComponent")
              ascii_session Hno)
    as (first & e0 & e & envelope & s' & Hrun & _ & Hconsole & _).
  exists e, s'. split; [exact Hrun|exact Hconsole].
Defined.

Section FreeTextFacts.

Variable json_dumps : pyval -> string.

(** With a prompt that has no [=], a command that ends with the code 0 has
    had its request returned by the dispatcher. *)
Lemma handle_ok_free_text args s s' :
  contains "=" (ChatmodeCli.prompt args) = false ->
  ChatmodeCli.handle_architect_command json_dumps args s = (Ok 0%Z, s') ->
  exists r,
    process (__init__ (ChatmodeCli.workspace args))
      (ChatmodeCli.prompt args) (ChatmodeCli.targets args)
      (ChatmodeCli.artifact_type args) (ChatmodeCli.depth args)
      (PDict (cli_constraints args)) (ChatmodeCli.user_name args)
      (ChatmodeCli.world s)
    = (Ok r, ChatmodeCli.world s')
    /\ cli_request args (ChatmodeCli.world s)
       = (Ok (success_envelope (cli_agent args) (cli_context args) r),
          ChatmodeCli.world s').
Proof.
  intros E Hrun.
  destruct (first_missing (cli_context args)) as [field|] eqn:Hfirst.
  { assert (Hreq : cli_request args (ChatmodeCli.world s)
                   = (Ok (failure_envelope (cli_agent args) (required_message field)),
                      ChatmodeCli.world s)).
    { unfold cli_request. apply process_missing with (cli_context args).
      - rewrite parse_free_text by (exact E || apply cli_context_is_dict).
        reflexivity.
      - exact Hfirst. }
    rewrite (handle_failure json_dumps args s _ _ _ Hreq) in Hrun.
    apply finish_ok in Hrun as [[H _]|H]; discriminate H. }
  pose proof (cli_free_text args (ChatmodeCli.world s) E Hfirst) as Hreq.
  destruct (process (__init__ (ChatmodeCli.workspace args))
              (ChatmodeCli.prompt args) (ChatmodeCli.targets args)
              (ChatmodeCli.artifact_type args) (ChatmodeCli.depth args)
              (PDict (cli_constraints args)) (ChatmodeCli.user_name args)
              (ChatmodeCli.world s)) as [[r|e] w'] eqn:Hd.
  - exists r.
    destruct (result_cases _ _ _ _ _ _ _ _ _ _ Hd)
      as [(kind & content & f & Hr)|[(content & f & Hr)|(file & content & f & Hr)]];
      rewrite Hr in Hreq.
    + rewrite (handle_diagram json_dumps args s _ _ _ _ _ _ Hreq) in Hrun.
      apply finish_ok in Hrun as [[_ ->]|H]; [|discriminate H].
      rewrite Hr. split; [reflexivity|exact Hreq].
    + rewrite (handle_plain json_dumps args s _ _ _ _ _ Hreq) in Hrun.
      apply finish_ok in Hrun as [[_ ->]|H]; [|discriminate H].
      rewrite Hr. split; [reflexivity|exact Hreq].
    + rewrite (handle_composite json_dumps args s _ _ _ _ _ _ Hreq) in Hrun.
      apply finish_ok in Hrun as [[_ ->]|H]; [|discriminate H].
      rewrite Hr. split; [reflexivity|exact Hreq].
  - rewrite (handle_failure json_dumps args s _ _ _ Hreq) in Hrun.
    apply finish_ok in Hrun as [[H _]|H]; discriminate H.
Qed.

End FreeTextFacts.

(** X21. A diagram command does not say where its diagram is: with a
    prompt that has no [=], a command for a diagram that ends with the code
    0 has written a file in the diagrams folder, and has printed the success
    message and nothing else but the dump a true [json] asks for. *)
Theorem diagram_command_prints_no_path json_dumps args s s' :
  contains "=" (ChatmodeCli.prompt args) = false ->
  ChatmodeCli.artifact_type args = "diagram" ->
  ChatmodeCli.handle_architect_command json_dumps args s = (Ok 0%Z, s') ->
  exists envelope f content,
    ChatmodeCli.console s'
    = ChatmodeCli.console s ++ success_line :: json_lines json_dumps args envelope
    /\ path_parent f = diagrams_of (ChatmodeCli.workspace args)
    /\ files (ChatmodeCli.world s') !! f = Some content.
Proof.
  intros E Ha Hrun.
  destruct (handle_ok_free_text json_dumps args s s' E Hrun) as (r & Hd & Hreq).
  rewrite Ha in Hd.
  destruct (output_file _ _ _ _ _ _ _ _ _ _ Hd) as (content & _ & _ & _ & Hfile).
  destruct (result_shape _ _ _ _ _ _ _ _ _ _ Hd)
    as [(_ & content' & f & Hr)|(Hne & _)]; [|now contradiction Hne].
  rewrite Hr in Hreq.
  rewrite (handle_diagram json_dumps args s _ _ _ _ _ _ Hreq) in Hrun.
  apply finish_ok in Hrun as [[_ ->]|H]; [|discriminate H].
  eexists _, _, content. split; [reflexivity|]. split; [|exact Hfile].
  unfold primary_file. cbn [String.eqb Ascii.eqb Bool.eqb].
  apply path_parent_join.
Qed.

Lemma diagram_command_prints_no_path_witness :
  exists s',
    ChatmodeCli.handle_architect_command (fun _ => EmptyString)
      (with_option "artifactType" "diagram"
         (ChatmodeCli.architect_defaults "Test prompt" "TestComponent"))
      sample_session = (Ok 0%Z, s')
    /\ ChatmodeCli.console s' = [success_line].
Proof.
  assert (H : exists s',
             ChatmodeCli.handle_architect_command (fun _ => EmptyString)
               (with_option "artifactType" "diagram"
                  (ChatmodeCli.architect_defaults "Test prompt" "TestComponent"))
               sample_session = (Ok 0%Z, s')).
  { eexists. vm_compute. reflexivity. }
  destruct H as (s' & H). exists s'. split; [exact H|].
  destruct (diagram_command_prints_no_path (fun _ => EmptyString)
              (with_option "artifactType" "diagram"
                 (ChatmodeCli.architect_defaults "Test prompt" "TestComponent"))
              sample_session s' eq_refl eq_refl H)
    as (envelope & f & content & Hc & _).
  exact Hc.
Defined.

(** X22. Every other command says where its document is: with a prompt
    that has no [=], a command for a doc, testcases, gapscan or usecases
    that ends with the code 0 has printed the success message, then the
    path of a file of the documents folder that now holds the document,
    then for doc and usecases the heading of the diagrams and one diagram
    file, and last the dump a true [json] asks for. *)
Theorem document_command_prints_paths json_dumps args s s' :
  contains "=" (ChatmodeCli.prompt args) = false ->
  ChatmodeCli.artifact_type args <> "diagram" ->
  ChatmodeCli.handle_architect_command json_dumps args s = (Ok 0%Z, s') ->
  exists envelope f content diagrams,
    ChatmodeCli.console s'
    = ChatmodeCli.console s
      ++ [success_line; document_line (path_str f)]
      ++ diagrams
      ++ json_lines json_dumps args envelope
    /\ path_parent f = docs_of (ChatmodeCli.workspace args)
    /\ files (ChatmodeCli.world s') !! f = Some content
    /\ (In (ChatmodeCli.artifact_type args) ["testcases"; "gapscan"] -> diagrams = [])
    /\ (In (ChatmodeCli.artifact_type args) ["doc"; "usecases"] ->
        exists file, diagrams = [diagrams_line; item_line file]).
Proof.
  intros E Ha Hrun.
  destruct (handle_ok_free_text json_dumps args s s' E Hrun) as (r & Hd & Hreq).
  destruct (output_file _ _ _ _ _ _ _ _ _ _ Hd) as (content & Hkey & _ & _ & Hfile).
  destruct (result_shape _ _ _ _ _ _ _ _ _ _ Hd)
    as [(Heq & _)|(_ & diagrams & content' & f & Hr & Hone & Hnone)];
    [now contradiction Ha|].
  assert (Hf : path_str f
               = path_str (primary_file (ChatmodeCli.workspace args)
                             (ChatmodeCli.artifact_type args)
                             (PDict (cli_constraints args))
                             (strftime (clock (ChatmodeCli.world s)
                                          (reads (ChatmodeCli.world s)))))).
  { rewrite Hr in Hkey. unfold primary_key in Hkey.
    destruct (String.eqb (ChatmodeCli.artifact_type args) "diagram") eqn:Ed.
    - apply String.eqb_eq in Ed. now contradiction Ha.
    - cbn in Hkey. now injection Hkey. }
  assert (Hparent : path_parent
                      (primary_file (ChatmodeCli.workspace args)
                         (ChatmodeCli.artifact_type args)
                         (PDict (cli_constraints args))
                         (strftime (clock (ChatmodeCli.world s)
                                      (reads (ChatmodeCli.world s)))))
                    = docs_of (ChatmodeCli.workspace args)).
  { unfold primary_file.
    destruct (String.eqb (ChatmodeCli.artifact_type args) "doc");
      [apply path_parent_join|].
    destruct (String.eqb (ChatmodeCli.artifact_type args) "diagram") eqn:Ed;
      [|apply path_parent_join].
    apply String.eqb_eq in Ed. now contradiction Ha. }
  assert (Hcases : diagrams = [] \/ exists file, diagrams = [PStr file]).
  { destruct (result_cases _ _ _ _ _ _ _ _ _ _ Hd)
      as [(kind & c0 & f0 & Hr0)|[(c0 & f0 & Hr0)|(file & c0 & f0 & Hr0)]];
      rewrite Hr in Hr0; [discriminate Hr0| |].
    - injection Hr0 as _ -> _. now left.
    - injection Hr0 as _ -> _. right. now exists file. }
  rewrite Hr in Hreq.
  destruct Hcases as [->|(file & ->)].
  - rewrite (handle_plain json_dumps args s _ _ _ _ _ Hreq) in Hrun.
    apply finish_ok in Hrun as [[_ ->]|H]; [|discriminate H].
    eexists _, _, content, []. split; [|split; [exact Hparent|split;
      [exact Hfile|split]]].
    + unfold printed. cbn [ChatmodeCli.console]. rewrite Hf. reflexivity.
    + reflexivity.
    + intros Hin. destruct Hone as (file & Hfile'); [|discriminate Hfile'].
      simpl in Hin. destruct Hin as [H|[H|[]]]; [left|right]; now symmetry.
  - rewrite (handle_composite json_dumps args s _ _ _ _ _ _ Hreq) in Hrun.
    apply finish_ok in Hrun as [[_ ->]|H]; [|discriminate H].
    eexists _, _, content, [diagrams_line; item_line file].
    split; [|split; [exact Hparent|split; [exact Hfile|split]]].
    + unfold printed. cbn [ChatmodeCli.console]. rewrite Hf. reflexivity.
    + intros Hin. assert (Hnil : [PStr file] = []); [|discriminate Hnil].
      apply Hnone. simpl in Hin.
      destruct Hin as [H|[H|[]]]; [left|right]; now symmetry.
    + intros _. now exists file.
Qed.

Lemma document_command_prints_paths_witness :
  ChatmodeCli.artifact_type
    (ChatmodeCli.architect_defaults "Test prompt" "TestComponent") <> "diagram"
  /\ exists s' f content file,
      ChatmodeCli.handle_architect_command (fun _ => EmptyString)
        (ChatmodeCli.architect_defaults "Test prompt" "TestComponent")
        sample_session = (Ok 0%Z, s')
      /\ ChatmodeCli.console s'
         = [success_line; document_line (path_str f); diagrams_line; item_line file]
      /\ path_parent f = docs_of []
      /\ files (ChatmodeCli.world s') !! f = Some content.
Proof.
  assert (Hne : ChatmodeCli.artifact_type
                  (ChatmodeCli.architect_defaults "Test prompt" "TestComponent")
                <> "diagram") by discriminate.
  split; [exact Hne|].
  assert (H : exists s',
             ChatmodeCli.handle_architect_command (fun _ => EmptyString)
               (ChatmodeCli.architect_defaults "Test prompt" "TestComponent")
               sample_session = (Ok 0%Z, s')).
  { eexists. vm_compute. reflexivity. }
  destruct H as (s' & H).
  destruct (document_command_prints_paths (fun _ => EmptyString)
              (ChatmodeCli.architect_defaults "Test prompt" "TestComponent")
              sample_session s' eq_refl Hne H)
    as (envelope & f & content & diagrams & Hc & Hparent & Hfile & _ & Hone).
  destruct Hone as (file & ->); [left; reflexivity|].
  exists s', f, content, file.
  split; [exact H|]. split; [exact Hc|]. split; [exact Hparent|exact Hfile].
Defined.

Section OptionFacts.

Import ArchitecturalDocumentationAgent.

Lemma cli_get_constraints args :
  Dict.get "constraints" (cli_context args) = Some (PDict (cli_constraints args)).
Proof. reflexivity. Qed.

Lemma cli_requested_diagram args :
  requested_diagram (PDict (cli_constraints args))
  = match ChatmodeCli.diagram_type args with
    | Some d => if truthy (PStr d) then Some (PStr d) else None
    | None => None
    end.
Proof.
  unfold cli_constraints, requested_diagram.
  destruct (ChatmodeCli.diagram_type args) as [d|]; [|reflexivity].
  destruct (truthy (PStr d)); reflexivity.
Qed.

(** Two commands with the same prompt whose contexts agree on every key
    but constraints, and select the same diagram, make the same request. *)
Lemma cli_request_same args1 args2 w :
  ChatmodeCli.prompt args1 = ChatmodeCli.prompt args2 ->
  ChatmodeCli.workspace args1 = ChatmodeCli.workspace args2 ->
  ChatmodeCli.diagram_type args1 = ChatmodeCli.diagram_type args2 ->
  (forall k, k <> "constraints" -> cli_text_value args1 k = None ->
             Dict.get k (cli_context args1) = Dict.get k (cli_context args2)) ->
  cli_request args1 w = cli_request args2 w.
Proof.
  intros Hprompt Hws Hdiagram Hctx.
  assert (Htext : forall k, cli_text_value args1 k = cli_text_value args2 k).
  { intros k. unfold cli_text_value. now rewrite Hprompt. }
  destruct (cli_params args1) as (params1 & Hparse1 & Hget1).
  destruct (cli_params args2) as (params2 & Hparse2 & Hget2).
  unfold cli_request, cli_agent. rewrite <- Hws, <- Hprompt.
  rewrite <- Hprompt in Hparse2.
  apply process_same with params1 params2; try assumption.
  - intros k Hk. rewrite Hget1, Hget2, <- Htext.
    destruct (cli_text_value args1 k) eqn:E; [reflexivity|]. now apply Hctx.
  - intros cm prompt targets artifact_type depth user_name.
    unfold get_default. rewrite Hget1, Hget2, <- Htext, !cli_get_constraints.
    destruct (cli_text_value args1 "constraints"); [reflexivity|].
    apply same_route. right. split; [exact I|]. split; [exact I|].
    now rewrite !cli_requested_diagram, Hdiagram.
Qed.

End OptionFacts.

(** X23. The options [--output-dir] and [--format] change nothing: a
    command does the same, prints the same and returns the same code for
    any two values of them.  The files go to the documents folder and are
    Markdown and Mermaid text whatever the two options say. *)
Theorem output_options_are_ignored json_dumps args output_dir format s :
  ChatmodeCli.handle_architect_command json_dumps (with_output output_dir format args) s
  = ChatmodeCli.handle_architect_command json_dumps args s.
Proof.
  apply handle_same; [reflexivity|].
  apply cli_request_same; try reflexivity.
  intros k Hk _. unfold cli_context. cbn [Dict.get].
  repeat match goal with
    | |- (if String.eqb k ?l then _ else _) = _ =>
        destruct (String.eqb k l) eqn:?; [try reflexivity|]
    end; [|reflexivity].
  exfalso. apply Hk. now apply String.eqb_eq.
Qed.

(** X24. A line of the prompt stands in for an option.  The prompt goes to
    the agent as the text as well, so when it has an [=] its lines are read
    as keys and values: when one of them gives [targets], [artifactType],
    [depth] or [user_name], the command does the same whatever the option
    of that name says, values outside the choices of the parser
    included. *)
Theorem prompt_lines_override_options json_dumps args k v other s :
  In k overridable ->
  cli_text_value args k = Some v ->
  ChatmodeCli.handle_architect_command json_dumps (with_option k other args) s
  = ChatmodeCli.handle_architect_command json_dumps args s.
Proof.
  intros Hin Htext.
  apply handle_same; [reflexivity|].
  apply cli_request_same; try reflexivity.
  intros k' Hk' Hnone.
  assert (Hne : String.eqb k' k = false).
  { destruct (String.eqb k' k) eqn:E; [|reflexivity].
    apply String.eqb_eq in E. subst k'.
    change (cli_text_value (with_option k other args) k)
      with (cli_text_value args k) in Hnone.
    congruence. }
  unfold overridable in Hin. simpl in Hin.
  destruct Hin as [<-|[<-|[<-|[<-|[]]]]];
    unfold cli_context, with_option;
    cbn [Dict.get String.eqb Ascii.eqb Bool.eqb
         ChatmodeCli.prompt ChatmodeCli.targets ChatmodeCli.artifact_type
         ChatmodeCli.depth ChatmodeCli.user_name];
    rewrite ?Hne;
    repeat match goal with
      | |- (if String.eqb k' ?l then _ else _) = _ =>
          destruct (String.eqb k' l) eqn:?; [try reflexivity|]
      end; reflexivity.
Qed.

Lemma prompt_lines_override_options_witness :
  In "artifactType" overridable
  /\ cli_text_value
       (ChatmodeCli.architect_defaults "artifactType = poem" "TestComponent")
       "artifactType" = Some "poem"
  /\ ChatmodeCli.handle_architect_command (fun _ => EmptyString)
       (ChatmodeCli.architect_defaults "artifactType = poem" "TestComponent")
       sample_session
     = (Ok 1%Z, printed sample_session (ChatmodeCli.world sample_session)
                  [error_line "Invalid artifact_type: poem"]).
Proof.
  assert (Hin : In "artifactType" overridable) by (right; left; reflexivity).
  split; [exact Hin|]. split; [reflexivity|].
  rewrite <- (prompt_lines_override_options (fun _ => EmptyString)
                (ChatmodeCli.architect_defaults "artifactType = poem" "TestComponent")
                "artifactType" "poem" "diagram" sample_session Hin eq_refl).
  vm_compute. reflexivity.
Defined.
